(** * The [sqs_queue] Ansible module: reconciliation of one SQS queue

    A shallow embedding of the two variants of the module kept in the
    repository,

    - [src/sqs_queue/sqs_queue.py], the boto3 port with FIFO support
      (module [Fifo] below), and
    - [src/sqs_queue.py], the earlier, partly commented-out port
      (module [Legacy] below),

    together with the statements of the specification that concern the
    attribute comparator ([set_queue_attribute]), the synchronizer
    ([update_sqs_queue]) and the reconciler ([create_or_update_sqs_queue],
    [delete_sqs_queue], [main]).

    Python values are embedded as the inductive type [pyval]; the remote
    connection is a parameter: a function from an API call and a remote
    world to a response (or an exception) and a new world.  Every call that
    the code issues is appended to a trace, so that statements about which
    remote calls happen can be made. *)

From Stdlib Require Import ZArith String Ascii List Bool Lia Permutation Sorted.
From stdpp Require Import base strings gmap pretty.
Import ListNotations.

Open Scope string_scope.

(* ===================================================================== *)
(** * Python values *)
(* ===================================================================== *)

(** The values the module handles: [None], booleans, integers, strings,
    lists and dictionaries with string keys.  A dictionary is an association
    list in insertion order; a well-formed dictionary has no repeated key.
    A string is a sequence of code points below 256. *)
#[warnings="-register-all"]
Inductive pyval : Type :=
| PNone
| PBool (b : bool)
| PInt (z : Z)
| PStr (s : string)
| PList (l : list pyval)
| PDict (d : list (string * pyval)).

(** Truth value of an object ([if value:], [not value]). *)
Definition py_truthy (v : pyval) : bool :=
  match v with
  | PNone => false
  | PBool b => b
  | PInt z => negb (Z.eqb z 0)
  | PStr s => negb (String.eqb s "")
  | PList l => match l with [] => false | _ => true end
  | PDict d => match d with [] => false | _ => true end
  end.

(** [value != 0]: only the integer zero and [False] are equal to [0]. *)
Definition py_ne_zero (v : pyval) : bool :=
  match v with
  | PInt z => negb (Z.eqb z 0)
  | PBool b => b
  | _ => true
  end.

(** ** Characters *)

Definition dquote : ascii := "034"%char.
Definition squote : ascii := "039"%char.
Definition backslash : ascii := "092"%char.

Definition code (c : ascii) : N := N_of_ascii c.

Definition hex_digit (n : N) : ascii :=
  if (n <? 10)%N then ascii_of_N (48 + n) else ascii_of_N (87 + n).

Definition hex2 (c : ascii) : string :=
  String (hex_digit (code c / 16)) (String (hex_digit (code c mod 16)) "").

(** [str.lower()] on code points below 256: the ASCII capitals and the
    Latin-1 capitals (all of U+00C0..U+00DE but the multiplication sign). *)
Definition lower_char (c : ascii) : ascii :=
  let n := code c in
  if ((65 <=? n) && (n <=? 90))%N then ascii_of_N (n + 32)
  else if ((192 <=? n) && (n <=? 222) && negb (n =? 215))%N then ascii_of_N (n + 32)
  else c.

Fixpoint lower (s : string) : string :=
  match s with
  | EmptyString => EmptyString
  | String c r => String (lower_char c) (lower r)
  end.

Fixpoint join (sep : string) (l : list string) : string :=
  match l with
  | [] => ""
  | [x] => x
  | x :: r => x +:+ sep +:+ join sep r
  end.

Fixpoint concat_map (f : ascii -> string) (s : string) : string :=
  match s with
  | EmptyString => EmptyString
  | String c r => f c +:+ concat_map f r
  end.

Fixpoint contains_char (c : ascii) (s : string) : bool :=
  match s with
  | EmptyString => false
  | String c' r => Ascii.eqb c c' || contains_char c r
  end.

(** ** [repr] and [str] *)

(** [repr] of one character of a string quoted with [q] (Python 3). *)
Definition repr_char (q : ascii) (c : ascii) : string :=
  let n := code c in
  if Ascii.eqb c q || Ascii.eqb c backslash then String backslash (String c "")
  else if (n =? 9)%N then String backslash "t"
  else if (n =? 10)%N then String backslash "n"
  else if (n =? 13)%N then String backslash "r"
  else if ((n <? 32) || ((127 <=? n) && (n <=? 160)) || (n =? 173))%N
       then String backslash ("x" +:+ hex2 c)
  else String c "".

Definition repr_str (s : string) : string :=
  let q := if contains_char squote s && negb (contains_char dquote s)
           then dquote else squote in
  String q (concat_map (repr_char q) s) +:+ String q "".

Fixpoint py_repr (v : pyval) : string :=
  match v with
  | PNone => "None"
  | PBool true => "True"
  | PBool false => "False"
  | PInt z => pretty z
  | PStr s => repr_str s
  | PList l => "[" +:+ join ", " (map py_repr l) +:+ "]"
  | PDict d =>
      "{" +:+ join ", " (map (fun kv => repr_str (fst kv) +:+ ": " +:+ py_repr (snd kv)) d)
          +:+ "}"
  end.

(** [str(value)]: a string is itself, everything else prints as [repr]. *)
Definition py_str (v : pyval) : string :=
  match v with
  | PStr s => s
  | _ => py_repr v
  end.

(** [s != v] for a string [s]: an object that is not a string differs from
    every string. *)
Definition str_ne (s : string) (v : pyval) : bool :=
  match v with
  | PStr s' => negb (String.eqb s s')
  | _ => true
  end.

(* ===================================================================== *)
(** * The [json] library *)
(* ===================================================================== *)

(** ** [json.dumps(value, sort_keys=True)] *)

(** One character of a JSON string ([ensure_ascii] is on by default):
    everything outside the printable ASCII range is escaped. *)
Definition json_escape_char (c : ascii) : string :=
  let n := code c in
  if Ascii.eqb c dquote || Ascii.eqb c backslash then String backslash (String c "")
  else if (n =? 8)%N then String backslash "b"
  else if (n =? 12)%N then String backslash "f"
  else if (n =? 10)%N then String backslash "n"
  else if (n =? 13)%N then String backslash "r"
  else if (n =? 9)%N then String backslash "t"
  else if ((n <? 32) || (126 <? n))%N then String backslash ("u00" +:+ hex2 c)
  else String c "".

Definition json_quote (s : string) : string :=
  String dquote (concat_map json_escape_char s) +:+ String dquote "".

(** Insertion of an item into a list of items sorted by key. *)
Fixpoint insert_by_key (kv : string * string) (l : list (string * string))
  : list (string * string) :=
  match l with
  | [] => [kv]
  | kv' :: r =>
      if String.leb (fst kv) (fst kv') then kv :: l else kv' :: insert_by_key kv r
  end.

(** [sorted(items)] by key: a stable insertion sort. *)
Definition sort_by_key (l : list (string * string)) : list (string * string) :=
  fold_right insert_by_key [] l.

(** The members of a dictionary are rendered, then ordered by key. *)
Fixpoint json_dumps (v : pyval) : string :=
  match v with
  | PNone => "null"
  | PBool true => "true"
  | PBool false => "false"
  | PInt z => pretty z
  | PStr s => json_quote s
  | PList l => "[" +:+ join ", " (map json_dumps l) +:+ "]"
  | PDict d =>
      "{" +:+ join ", "
                (map (fun kv => json_quote (fst kv) +:+ ": " +:+ snd kv)
                     (sort_by_key (map (fun kv => (fst kv, json_dumps (snd kv))) d)))
          +:+ "}"
  end.

(** ** [json.loads]

    A parser for the JSON grammar restricted to what [pyval] holds:
    objects, arrays, strings (with the escapes of the grammar, [\u] escapes
    below U+0100), integers, [true], [false] and [null].  Numbers with a
    fraction or an exponent are outside this fragment and are refused.
    [None] stands for the [ValueError] that [json.loads] raises.  The
    general theorems below take the parser as a parameter; this one is
    used to run the code on concrete documents. *)

Definition is_ws (c : ascii) : bool :=
  let n := code c in ((n =? 32) || (n =? 9) || (n =? 10) || (n =? 13))%N.

Fixpoint skip_ws (s : string) : string :=
  match s with
  | String c r => if is_ws c then skip_ws r else s
  | EmptyString => s
  end.

Definition is_digit (c : ascii) : bool :=
  let n := code c in ((48 <=? n) && (n <=? 57))%N.

Definition digit_val (c : ascii) : Z := Z.of_N (code c) - 48.

Definition hex_val (c : ascii) : option N :=
  let n := code c in
  if ((48 <=? n) && (n <=? 57))%N then Some (n - 48)%N
  else if ((97 <=? n) && (n <=? 102))%N then Some (n - 87)%N
  else if ((65 <=? n) && (n <=? 70))%N then Some (n - 55)%N
  else None.

(** A dictionary built from the pairs of an object: a repeated key keeps
    its first position and takes the last value. *)
Fixpoint dict_set (d : list (string * pyval)) (k : string) (v : pyval)
  : list (string * pyval) :=
  match d with
  | [] => [(k, v)]
  | (k', v') :: r => if String.eqb k k' then (k, v) :: r else (k', v') :: dict_set r k v
  end.

(** Digits of an integer literal, most significant first. *)
Fixpoint parse_digits (acc : Z) (s : string) : Z * string :=
  match s with
  | String c r => if is_digit c then parse_digits (10 * acc + digit_val c) r else (acc, s)
  | EmptyString => (acc, s)
  end.

(** [0] or a non-empty run of digits that does not start with [0]. *)
Definition parse_nat_lit (s : string) : option (Z * string) :=
  match s with
  | String c r =>
      if Ascii.eqb c "0" then Some (0%Z, r)
      else if is_digit c then Some (parse_digits (digit_val c) r)
      else None
  | EmptyString => None
  end.

(** The body of a string literal, after its opening quote. *)
Fixpoint parse_string (s : string) : option (string * string) :=
  match s with
  | EmptyString => None
  | String c r =>
      if Ascii.eqb c dquote then Some ("", r)
      else if Ascii.eqb c backslash then
        match r with
        | String e r1 =>
            let lit (x : ascii) :=
              match parse_string r1 with
              | Some (t, rest) => Some (String x t, rest)
              | None => None
              end in
            if Ascii.eqb e dquote then lit dquote
            else if Ascii.eqb e backslash then lit backslash
            else if Ascii.eqb e "/" then lit "/"%char
            else if Ascii.eqb e "b" then lit "008"%char
            else if Ascii.eqb e "f" then lit "012"%char
            else if Ascii.eqb e "n" then lit "010"%char
            else if Ascii.eqb e "r" then lit "013"%char
            else if Ascii.eqb e "t" then lit "009"%char
            else if Ascii.eqb e "u" then
              match r1 with
              | String h1 (String h2 (String h3 (String h4 r2))) =>
                  match hex_val h1, hex_val h2, hex_val h3, hex_val h4 with
                  | Some 0%N, Some 0%N, Some a, Some b =>
                      match parse_string r2 with
                      | Some (t, rest) => Some (String (ascii_of_N (16 * a + b)) t, rest)
                      | None => None
                      end
                  | _, _, _, _ => None
                  end
              | _ => None
              end
            else None
        | EmptyString => None
        end
      else if (code c <? 32)%N then None
      else
        match parse_string r with
        | Some (t, rest) => Some (String c t, rest)
        | None => None
        end
  end.

Definition strip_prefix (p s : string) : option string :=
  if String.prefix p s then Some (String.substring (String.length p) (String.length s - String.length p) s)
  else None.

Fixpoint parse_value (fuel : nat) (s : string) : option (pyval * string) :=
  match fuel with
  | O => None
  | S fuel' =>
      match s with
      | EmptyString => None
      | String c r =>
          if Ascii.eqb c "{" then
            match skip_ws r with
            | String c1 r1 =>
                if Ascii.eqb c1 "}" then Some (PDict [], r1)
                else parse_members fuel' (String c1 r1) []
            | EmptyString => None
            end
          else if Ascii.eqb c "[" then
            match skip_ws r with
            | String c1 r1 =>
                if Ascii.eqb c1 "]" then Some (PList [], r1)
                else parse_elems fuel' (String c1 r1) []
            | EmptyString => None
            end
          else if Ascii.eqb c dquote then
            match parse_string r with
            | Some (t, rest) => Some (PStr t, rest)
            | None => None
            end
          else if Ascii.eqb c "-" then
            match parse_nat_lit r with
            | Some (z, rest) => Some (PInt (- z), rest)
            | None => None
            end
          else if is_digit c then
            match parse_nat_lit s with
            | Some (z, rest) => Some (PInt z, rest)
            | None => None
            end
          else
            match strip_prefix "null" s, strip_prefix "true" s, strip_prefix "false" s with
            | Some rest, _, _ => Some (PNone, rest)
            | _, Some rest, _ => Some (PBool true, rest)
            | _, _, Some rest => Some (PBool false, rest)
            | _, _, _ => None
            end
      end
  end
with parse_members (fuel : nat) (s : string) (acc : list (string * pyval))
  : option (pyval * string) :=
  match fuel with
  | O => None
  | S fuel' =>
      match s with
      | String c r =>
          if Ascii.eqb c dquote then
            match parse_string r with
            | Some (k, r1) =>
                match skip_ws r1 with
                | String c2 r2 =>
                    if Ascii.eqb c2 ":" then
                      match parse_value fuel' (skip_ws r2) with
                      | Some (v, r3) =>
                          let acc' := dict_set acc k v in
                          match skip_ws r3 with
                          | String c4 r4 =>
                              if Ascii.eqb c4 "," then parse_members fuel' (skip_ws r4) acc'
                              else if Ascii.eqb c4 "}" then Some (PDict acc', r4)
                              else None
                          | EmptyString => None
                          end
                      | None => None
                      end
                    else None
                | EmptyString => None
                end
            | None => None
            end
          else None
      | EmptyString => None
      end
  end
with parse_elems (fuel : nat) (s : string) (acc : list pyval)
  : option (pyval * string) :=
  match fuel with
  | O => None
  | S fuel' =>
      match parse_value fuel' s with
      | Some (v, r1) =>
          match skip_ws r1 with
          | String c2 r2 =>
              if Ascii.eqb c2 "," then parse_elems fuel' (skip_ws r2) (acc ++ [v])
              else if Ascii.eqb c2 "]" then Some (PList (acc ++ [v]), r2)
              else None
          | EmptyString => None
          end
      | None => None
      end
  end.

Definition json_loads (s : string) : option pyval :=
  match parse_value (2 * String.length s + 2) (skip_ws s) with
  | Some (v, rest) =>
      match skip_ws rest with
      | EmptyString => Some v
      | String _ _ => None
      end
  | None => None
  end.

(** Documents are written below with single quotes where JSON has double
    quotes. *)
Fixpoint json_text (s : string) : string :=
  match s with
  | EmptyString => EmptyString
  | String c r => String (if Ascii.eqb c squote then dquote else c) (json_text r)
  end.

(* ===================================================================== *)
(** * Exceptions, remote calls and the effect monad *)
(* ===================================================================== *)

(** The exceptions that can occur.  [ClientError] stands for
    [botocore.exceptions.ClientError] and its subclasses, to which the
    errors returned by the service belong (the queue-does-not-exist error
    among them); [BotoCoreError] for the other botocore errors (no endpoint,
    parameter validation), which are not [ClientError]s. *)
Inductive exn : Type :=
| ClientError (error_code : string)
| BotoCoreError (class : string)
| NoRegionError
| KeyError (key : string)
| TypeError
| ValueError
| NameError (name : string).

Definition QueueDoesNotExist : exn :=
  ClientError "AWS.SimpleQueueService.NonExistentQueue".

(** [except botocore.exceptions.ClientError] *)
Definition is_ClientError (e : exn) : bool :=
  match e with
  | ClientError _ => true
  | _ => false
  end.

Definition class_name (e : exn) : string :=
  match e with
  | ClientError c => "botocore.exceptions.ClientError: " +:+ c
  | BotoCoreError c => "botocore.exceptions." +:+ c
  | NoRegionError => "botocore.exceptions.NoRegionError"
  | KeyError k => "KeyError: " +:+ k
  | TypeError => "TypeError"
  | ValueError => "ValueError"
  | NameError n => "NameError: " +:+ n
  end.

(** [traceback.format_exc()]; of the text only the last line is kept. *)
Definition format_exc (e : exn) : string := class_name e.

Inductive res (A : Type) : Type :=
| Ok (a : A)
| Raise (e : exn).
Arguments Ok {A} a.
Arguments Raise {A} e.

(** The calls on the boto3 SQS client that the module makes, with their
    keyword arguments. *)
Inductive call : Type :=
| GetQueueUrl (QueueName : string)
| CreateQueue (QueueName : string) (Attributes : list (string * string))
| GetQueueAttributes (QueueUrl : pyval) (AttributeNames : pyval)
| SetQueueAttributes (QueueUrl : pyval) (attribute : string) (value : string)
| DeleteQueue (QueueUrl : pyval).

(** The calls that change the remote state. *)
Definition is_mutating (c : call) : bool :=
  match c with
  | CreateQueue _ _ | SetQueueAttributes _ _ _ | DeleteQueue _ => true
  | GetQueueUrl _ | GetQueueAttributes _ _ => false
  end.

(** The remote world and the calls issued so far, oldest first. *)
Record st (W : Type) : Type := mkSt { world : W; trace : list call }.
Arguments mkSt {W} world trace.
Arguments world {W} s.
Arguments trace {W} s.

(** State and exceptions: a raised exception keeps the state reached. *)
Definition M (S A : Type) : Type := S -> res A * S.

Definition mret {S A} (a : A) : M S A := fun s => (Ok a, s).

Definition bind {S A B} (m : M S A) (k : A -> M S B) : M S B :=
  fun s =>
    match m s with
    | (Ok a, s') => k a s'
    | (Raise e, s') => (Raise e, s')
    end.

Definition raise {S A} (e : exn) : M S A := fun s => (Raise e, s).

(** [try: m  except: h] with a bare [except], which catches everything. *)
Definition try_except {S A} (m : M S A) (h : exn -> M S A) : M S A :=
  fun s =>
    match m s with
    | (Ok a, s') => (Ok a, s')
    | (Raise e, s') => h e s'
    end.

Definition lift_res {S A} (r : res A) : M S A := fun s => (r, s).

Notation "x <- m ;; k" := (bind m (fun x => k))
  (at level 100, m at next level, right associativity).

(** [when c: m] *)
Definition when {S} (c : bool) (m : M S unit) : M S unit :=
  if c then m else mret tt.

(** [v[k]] for a string [k]: defined on dictionaries only. *)
Fixpoint dict_get (d : list (string * pyval)) (k : string) : option pyval :=
  match d with
  | [] => None
  | (k', v) :: r => if String.eqb k k' then Some v else dict_get r k
  end.

Definition py_getitem (v : pyval) (k : string) : res pyval :=
  match v with
  | PDict d =>
      match dict_get d k with
      | Some x => Ok x
      | None => Raise (KeyError k)
      end
  | _ => Raise TypeError
  end.

Definition getitem {S} (v : pyval) (k : string) : M S pyval := lift_res (py_getitem v k).

(** The result dictionary of an invocation lives next to the remote state. *)
Definition lift {W A} (m : M (st W) A) : M (gmap string pyval * st W) A :=
  fun rs =>
    match m (snd rs) with
    | (r, s') => (r, (fst rs, s'))
    end.

(** [result[k] = v] *)
Definition set_result {W} (k : string) (v : pyval) : M (gmap string pyval * st W) unit :=
  fun rs => (Ok tt, (<[k := v]> (fst rs), snd rs)).

(** How an invocation ends: [module.exit_json] with the result,
    [module.fail_json] with the result, or an exception nobody caught. *)
Inductive outcome : Type :=
| ExitJson (result : gmap string pyval)
| FailJson (result : gmap string pyval)
| Uncaught (e : exn).

(** The common shape of the two entry points:
    [try: body  except ClientError: result['msg'] = ...; fail_json
     else: exit_json]. *)
Definition try_ClientError {W} (msg : string) (result : gmap string pyval)
    (body : M (gmap string pyval * st W) unit) (s : st W) : outcome * st W :=
  match body (result, s) with
  | (Ok _, (result', s')) => (ExitJson result', s')
  | (Raise e, (result', s')) =>
      if is_ClientError e
      then (FailJson (<["msg" := PStr (msg +:+ format_exc e)]> result'), s')
      else (Uncaught e, s')
  end.

(* ===================================================================== *)
(** * Module parameters *)
(* ===================================================================== *)

Inductive state_choice : Type := present | absent.
Inductive queue_type_choice : Type := standard | fifo.

(** [module.params] after validation against [argument_spec]: the integer
    and dictionary options are [None] when not supplied. *)
Record params : Type := mkParams {
  state : state_choice;
  name : string;
  queue_type : queue_type_choice;
  fifo_content_based_deduplication : bool;
  default_visibility_timeout : option Z;
  message_retention_period : option Z;
  maximum_message_size : option Z;
  delivery_delay : option Z;
  receive_message_wait_time : option Z;
  policy : option (list (string * pyval));
  redrive_policy : option (list (string * pyval));
  region : option string
}.

Definition of_int (o : option Z) : pyval :=
  match o with Some z => PInt z | None => PNone end.
Definition of_dict (o : option (list (string * pyval))) : pyval :=
  match o with Some d => PDict d | None => PNone end.
Definition of_str (o : option string) : pyval :=
  match o with Some s => PStr s | None => PNone end.

(** [attribute in ['Policy', 'RedrivePolicy']] *)
Definition is_json_attribute (attribute : string) : bool :=
  String.eqb attribute "Policy" || String.eqb attribute "RedrivePolicy".

(* ===================================================================== *)
(** * The boto3 client and [json.loads] as the module uses them *)
(* ===================================================================== *)

Section Runtime.

Context {W : Type}.

(** A method call on the client [connection]: it is recorded in the trace
    whether it returns or raises. *)
Definition request (connection : call -> W -> res pyval * W) (c : call)
  : M (st W) pyval :=
  fun s =>
    match connection c (world s) with
    | (r, w') => (r, mkSt w' (trace s ++ [c]))
    end.

(** [json.loads(v)]: a [ValueError] on a string that is not a JSON
    document, a [TypeError] on what is not a string. *)
Definition json_loads_of (loads : string -> option pyval) (v : pyval)
  : M (st W) pyval :=
  match v with
  | PStr raw =>
      match loads raw with
      | Some x => mret x
      | None => raise ValueError
      end
  | _ => raise TypeError
  end.

End Runtime.

(* ===================================================================== *)
(** * [src/sqs_queue/sqs_queue.py] *)
(* ===================================================================== *)

Module Fifo.
Section Code.

(** The remote world, the boto3 client ([connection]) and [json.loads]. *)
Context {W : Type}.
Variable connection : call -> W -> res pyval * W.
Variable loads : string -> option pyval.

Definition set_queue_attribute (queue_url : pyval) (attribute : string)
    (value : pyval) (check_mode : bool) : M (st W) bool :=
  if negb (py_truthy value) && py_ne_zero value then mret false
  else
    (* Get the current value, or return an empty string. *)
    existing_value <-
      try_except
        (response <- request connection (GetQueueAttributes queue_url (PList [PStr attribute]));;
         attributes <- getitem response "Attributes";;
         getitem attributes attribute)
        (fun _ => mret (PStr ""));;
    (* convert dict attributes to JSON strings (sort keys for comparing) *)
    ve <- (if is_json_attribute attribute then
             let value := PStr (json_dumps value) in
             if py_truthy existing_value then
               parsed <- json_loads_of loads existing_value;;
               mret (value, PStr (json_dumps parsed))
             else mret (value, existing_value)
           else mret (value, existing_value));;
    let value := fst ve in
    let existing_value := snd ve in
    if str_ne (lower (py_str value)) existing_value then
      _ <- when (negb check_mode)
             (_ <- request connection (SetQueueAttributes queue_url attribute (py_str value));;
              mret tt);;
      mret true
    else mret false.

Definition update_sqs_queue (queue_url : pyval) (check_mode : bool)
    (default_visibility_timeout message_retention_period maximum_message_size
     delivery_delay receive_message_wait_time policy redrive_policy
     fifo_content_based_deduplication : pyval) : M (st W) bool :=
  let changed := false in
  c <- set_queue_attribute queue_url "VisibilityTimeout" default_visibility_timeout check_mode;;
  let changed := c || changed in
  c <- set_queue_attribute queue_url "MessageRetentionPeriod" message_retention_period check_mode;;
  let changed := c || changed in
  c <- set_queue_attribute queue_url "MaximumMessageSize" maximum_message_size check_mode;;
  let changed := c || changed in
  c <- set_queue_attribute queue_url "DelaySeconds" delivery_delay check_mode;;
  let changed := c || changed in
  c <- set_queue_attribute queue_url "ReceiveMessageWaitTimeSeconds" receive_message_wait_time check_mode;;
  let changed := c || changed in
  c <- set_queue_attribute queue_url "Policy" policy check_mode;;
  let changed := c || changed in
  c <- set_queue_attribute queue_url "RedrivePolicy" redrive_policy check_mode;;
  let changed := c || changed in
  c <- set_queue_attribute queue_url "ContentBasedDeduplication" fifo_content_based_deduplication check_mode;;
  let changed := c || changed in
  mret changed.

(** [queue_attributes]: the seven options, and for a FIFO queue the
    deduplication flag as an eighth entry. *)
Definition queue_attributes (p : params) : list (string * pyval) :=
  [ ("default_visibility_timeout", of_int (default_visibility_timeout p));
    ("message_retention_period", of_int (message_retention_period p));
    ("maximum_message_size", of_int (maximum_message_size p));
    ("delivery_delay", of_int (delivery_delay p));
    ("receive_message_wait_time", of_int (receive_message_wait_time p));
    ("policy", of_dict (policy p));
    ("redrive_policy", of_dict (redrive_policy p)) ]
  ++ match queue_type p with
     | fifo => [("fifo_content_based_deduplication",
                 PBool (fifo_content_based_deduplication p))]
     | standard => []
     end.

(** A keyword argument taken from a dictionary, [None] by default. *)
Definition kwarg (d : list (string * pyval)) (k : string) : pyval :=
  match dict_get d k with Some v => v | None => PNone end.

(** [update_sqs_queue(connection, queue_url, check_mode=..., **queue_attributes)] *)
Definition update_with (queue_url : pyval) (check_mode : bool)
    (attrs : list (string * pyval)) : M (st W) bool :=
  update_sqs_queue queue_url check_mode
    (kwarg attrs "default_visibility_timeout") (kwarg attrs "message_retention_period")
    (kwarg attrs "maximum_message_size") (kwarg attrs "delivery_delay")
    (kwarg attrs "receive_message_wait_time") (kwarg attrs "policy")
    (kwarg attrs "redrive_policy") (kwarg attrs "fifo_content_based_deduplication").

(** [result.update(d)] *)
Definition dict_update (result : gmap string pyval) (d : list (string * pyval))
  : gmap string pyval :=
  fold_left (fun r kv => <[fst kv := snd kv]> r) d result.

(** The name under which the queue is looked up and created. *)
Definition queue_name (p : params) : string :=
  match queue_type p with
  | fifo => name p +:+ ".fifo"
  | standard => name p
  end.

(** The final report, read back from the service. *)
Definition report (p : params) (queue_url : pyval) : M (gmap string pyval * st W) unit :=
  queue_attributes <- lift (request connection (GetQueueAttributes queue_url (PList [PStr "All"])));;
  attributes <- getitem queue_attributes "Attributes";;
  v <- getitem attributes "QueueArn";;
  _ <- set_result "queue_arn" v;;
  v <- getitem attributes "VisibilityTimeout";;
  _ <- set_result "default_visibility_timeout" v;;
  v <- getitem attributes "MessageRetentionPeriod";;
  _ <- set_result "message_retention_period" v;;
  v <- getitem attributes "MaximumMessageSize";;
  _ <- set_result "maximum_message_size" v;;
  v <- getitem attributes "DelaySeconds";;
  _ <- set_result "delivery_delay" v;;
  v <- getitem attributes "ReceiveMessageWaitTimeSeconds";;
  _ <- set_result "receive_message_wait_time" v;;
  match queue_type p with
  | fifo =>
      v <- getitem attributes "ContentBasedDeduplication";;
      set_result "fifo_content_based_deduplication" v
  | standard => mret tt
  end.

(** The body of the [try] statement of [create_or_update_sqs_queue].
    [queue_url] is bound only once the queue is known or created; it is
    left unbound in check mode alone, where the report is skipped, so the
    last branch below, Python's error for an unbound local, is never
    taken. *)
Definition create_or_update_body (p : params) (check_mode : bool)
  : M (gmap string pyval * st W) unit :=
  let queue_name := queue_name p in
  let queue_attributes := queue_attributes p in
  (* Check to see if the queue already exists *)
  existing <-
    try_except
      (response <- lift (request connection (GetQueueUrl queue_name));;
       queue_url <- getitem response "QueueUrl";;
       mret (Some queue_url))
      (fun _ => mret None);;
  queue_url <-
    match existing with
    | Some queue_url =>
        changed <- lift (update_with queue_url check_mode queue_attributes);;
        _ <- set_result "changed" (PBool changed);;
        mret (Some queue_url)
    | None =>
        (* Create new one if it doesn't exist and not in check mode *)
        if negb check_mode then
          response <-
            lift (request connection
                    (CreateQueue queue_name
                       match queue_type p with
                       | fifo => [("FifoQueue", "True")]
                       | standard => []
                       end));;
          queue_url <- getitem response "QueueUrl";;
          _ <- set_result "changed" (PBool true);;
          _ <- lift (update_with queue_url check_mode queue_attributes);;
          mret (Some queue_url)
        else mret None
    end;;
  if negb check_mode then
    match queue_url with
    | Some queue_url => report p queue_url
    | None => raise (NameError "queue_url")
    end
  else mret tt.

Definition create_or_update_sqs_queue (p : params) (check_mode : bool)
  : st W -> outcome * st W :=
  let result :=
    dict_update
      (<["name" := PStr (queue_name p)]> (<["region" := of_str (region p)]> ∅))
      (queue_attributes p) in
  try_ClientError "Failed to create/update sqs queue due to error: " result
    (create_or_update_body p check_mode).

Definition delete_body (p : params) (check_mode : bool)
  : M (gmap string pyval * st W) unit :=
  response <- lift (request connection (GetQueueUrl (name p)));;
  queue_url <- getitem response "QueueUrl";;
  if py_truthy queue_url then
    _ <- when (negb check_mode)
           (_ <- lift (request connection (DeleteQueue queue_url));; mret tt);;
    set_result "changed" (PBool true)
  else set_result "changed" (PBool false).

Definition delete_sqs_queue (p : params) (check_mode : bool)
  : st W -> outcome * st W :=
  let result := <["name" := PStr (name p)]> (<["region" := of_str (region p)]> ∅) in
  try_ClientError "Failed to delete sqs queue due to error: " result
    (delete_body p check_mode).

(** [main] from the point where the arguments are parsed: [HAS_BOTO3] is
    the module-level flag and [connecting] the outcome of building the
    client. *)
Definition main (HAS_BOTO3 : bool) (connecting : res unit) (p : params)
    (check_mode : bool) (s : st W) : outcome * st W :=
  if negb HAS_BOTO3 then
    (FailJson {["msg" := PStr "boto3 and botocore are required for this module"]}, s)
  else
    match connecting with
    | Raise NoRegionError =>
        (FailJson {["msg" := PStr "Region must be specified as a parameter in AWS_DEFAULT_REGION environment variable or in boto configuration file."]}, s)
    | Raise e => (Uncaught e, s)
    | Ok _ =>
        match state p with
        | present => create_or_update_sqs_queue p check_mode s
        | absent => delete_sqs_queue p check_mode s
        end
    end.

End Code.
End Fifo.

(* ===================================================================== *)
(** * [src/sqs_queue.py] *)
(* ===================================================================== *)

Module Legacy.
Section Code.

Context {W : Type}.
Variable connection : call -> W -> res pyval * W.
Variable loads : string -> option pyval.

(** The attribute name is passed as it is for [AttributeNames], and looked
    up at the top of the response; the comparison is case sensitive. *)
Definition set_queue_attribute (queue_url : pyval) (attribute : string)
    (value : pyval) (check_mode : bool) : M (st W) bool :=
  if negb (py_truthy value) && py_ne_zero value then mret false
  else
    existing_value <-
      try_except
        (response <- request connection (GetQueueAttributes queue_url (PStr attribute));;
         getitem response attribute)
        (fun _ => mret (PStr ""));;
    (* convert dict attributes to JSON strings (sort keys for comparing) *)
    ve <- (if is_json_attribute attribute then
             let value := PStr (json_dumps value) in
             if py_truthy existing_value then
               parsed <- json_loads_of loads existing_value;;
               mret (value, PStr (json_dumps parsed))
             else mret (value, existing_value)
           else mret (value, existing_value));;
    let value := fst ve in
    let existing_value := snd ve in
    if str_ne (py_str value) existing_value then
      _ <- when (negb check_mode)
             (_ <- request connection (SetQueueAttributes queue_url attribute (py_str value));;
              mret tt);;
      mret true
    else mret false.

Definition update_sqs_queue (queue_url : pyval) (check_mode : bool)
    (default_visibility_timeout message_retention_period maximum_message_size
     delivery_delay receive_message_wait_time policy redrive_policy : pyval)
  : M (st W) bool :=
  let changed := false in
  c <- set_queue_attribute queue_url "VisibilityTimeout" default_visibility_timeout check_mode;;
  let changed := c || changed in
  c <- set_queue_attribute queue_url "MessageRetentionPeriod" message_retention_period check_mode;;
  let changed := c || changed in
  c <- set_queue_attribute queue_url "MaximumMessageSize" maximum_message_size check_mode;;
  let changed := c || changed in
  c <- set_queue_attribute queue_url "DelaySeconds" delivery_delay check_mode;;
  let changed := c || changed in
  c <- set_queue_attribute queue_url "ReceiveMessageWaitTimeSeconds" receive_message_wait_time check_mode;;
  let changed := c || changed in
  c <- set_queue_attribute queue_url "Policy" policy check_mode;;
  let changed := c || changed in
  c <- set_queue_attribute queue_url "RedrivePolicy" redrive_policy check_mode;;
  let changed := c || changed in
  mret changed.

Definition queue_attributes (p : params) : list (string * pyval) :=
  [ ("default_visibility_timeout", of_int (default_visibility_timeout p));
    ("message_retention_period", of_int (message_retention_period p));
    ("maximum_message_size", of_int (maximum_message_size p));
    ("delivery_delay", of_int (delivery_delay p));
    ("receive_message_wait_time", of_int (receive_message_wait_time p));
    ("policy", of_dict (policy p));
    ("redrive_policy", of_dict (redrive_policy p)) ].

(** The body of the [try] statement: an existing queue is updated; the
    creation branch and the final report are commented out in the file. *)
Definition create_or_update_body (p : params) (check_mode : bool)
  : M (gmap string pyval * st W) unit :=
  response <- lift (request connection (GetQueueUrl (name p)));;
  queue_url <- getitem response "QueueUrl";;
  if py_truthy queue_url then
    (* Update existing *)
    changed <-
      lift (update_sqs_queue queue_url check_mode
              (of_int (default_visibility_timeout p)) (of_int (message_retention_period p))
              (of_int (maximum_message_size p)) (of_int (delivery_delay p))
              (of_int (receive_message_wait_time p)) (of_dict (policy p))
              (of_dict (redrive_policy p)));;
    set_result "changed" (PBool changed)
  else mret tt.

Definition create_or_update_sqs_queue (p : params) (check_mode : bool)
  : st W -> outcome * st W :=
  let result :=
    Fifo.dict_update
      (<["name" := PStr (name p)]> (<["region" := of_str (region p)]> ∅))
      (queue_attributes p) in
  try_ClientError "Failed to create/update sqs queue due to error: " result
    (create_or_update_body p check_mode).

(** [delete_sqs_queue] is commented out in this file: the name that [main]
    calls is not bound, and evaluating it raises [NameError]. *)
Definition main (HAS_BOTO3 : bool) (connecting : res unit) (p : params)
    (check_mode : bool) (s : st W) : outcome * st W :=
  if negb HAS_BOTO3 then
    (FailJson {["msg" := PStr "boto3 and botocore are required for this module"]}, s)
  else
    match connecting with
    | Raise NoRegionError =>
        (FailJson {["msg" := PStr "Region must be specified as a parameter in AWS_DEFAULT_REGION environment variable or in boto configuration file."]}, s)
    | Raise e => (Uncaught e, s)
    | Ok _ =>
        match state p with
        | present => create_or_update_sqs_queue p check_mode s
        | absent => (Uncaught (NameError "delete_sqs_queue"), s)
        end
    end.

End Code.
End Legacy.

(* ===================================================================== *)
(** * A remote queue service *)
(* ===================================================================== *)

(** A stand-in for the remote management API (section 6 of the
    specification: resolveHandle, createResource, deleteResource, readAttribute,
    readAllAttributes, writeAttribute), which is the AWS service and not
    code of this repository.  A queue is its name and its attributes as raw
    strings; a write stores the string it is given and a read returns it.
    The responses have the shape under which the source indexes them
    ([response['QueueUrl']], [response['Attributes'][attribute]]), a name
    that resolves to no queue raises the service's queue-does-not-exist
    [ClientError], and a response with no attribute has no ['Attributes']
    entry. *)
Module Sqs.

Definition queues : Type := list (string * list (string * string)).

Definition url_prefix : string := "https://queue.amazonaws.com/123456789012/".

Definition url_of (queue_name : string) : pyval := PStr (url_prefix +:+ queue_name).

Definition has_url (u : pyval) (q : string * list (string * string)) : bool :=
  negb (str_ne (url_prefix +:+ fst q) u).

Fixpoint find_name (n : string) (qs : queues) : option (list (string * string)) :=
  match qs with
  | [] => None
  | (n', a) :: r => if String.eqb n n' then Some a else find_name n r
  end.

Fixpoint find_url (u : pyval) (qs : queues) : option (list (string * string)) :=
  match qs with
  | [] => None
  | q :: r => if has_url u q then Some (snd q) else find_url u r
  end.

Fixpoint write (k v : string) (a : list (string * string)) : list (string * string) :=
  match a with
  | [] => [(k, v)]
  | (k', v') :: r => if String.eqb k k' then (k, v) :: r else (k', v') :: write k v r
  end.

Definition default_attributes (queue_name : string) : list (string * string) :=
  [ ("QueueArn", "arn:aws:sqs:eu-west-1:123456789012:" +:+ queue_name);
    ("VisibilityTimeout", "30");
    ("MessageRetentionPeriod", "345600");
    ("MaximumMessageSize", "262144");
    ("DelaySeconds", "0");
    ("ReceiveMessageWaitTimeSeconds", "0") ].

Definition is_fifo_request (attrs : list (string * string)) : bool :=
  existsb (fun kv => String.eqb (fst kv) "FifoQueue") attrs.

Definition new_attributes (queue_name : string) (attrs : list (string * string))
  : list (string * string) :=
  default_attributes queue_name
  ++ (if is_fifo_request attrs
      then [("FifoQueue", "true"); ("ContentBasedDeduplication", "false")]
      else []).

(** The names asked for, when [AttributeNames] is a list of strings. *)
Fixpoint names_of (l : list pyval) : option (list string) :=
  match l with
  | [] => Some []
  | PStr s :: r =>
      match names_of r with
      | Some t => Some (s :: t)
      | None => None
      end
  | _ :: _ => None
  end.

Definition selected (names : list string) (a : list (string * string))
  : list (string * pyval) :=
  map (fun kv => (fst kv, PStr (snd kv)))
      (filter (fun kv => existsb (fun n => String.eqb n "All" || String.eqb n (fst kv)) names) a).

Definition attributes_response (names : list string) (a : list (string * string)) : pyval :=
  match selected names a with
  | [] => PDict []
  | l => PDict [("Attributes", PDict l)]
  end.

Definition service (c : call) (qs : queues) : res pyval * queues :=
  match c with
  | GetQueueUrl n =>
      match find_name n qs with
      | Some _ => (Ok (PDict [("QueueUrl", url_of n)]), qs)
      | None => (Raise QueueDoesNotExist, qs)
      end
  | CreateQueue n attrs =>
      match find_name n qs with
      | Some _ => (Ok (PDict [("QueueUrl", url_of n)]), qs)
      | None =>
          (Ok (PDict [("QueueUrl", url_of n)]), (qs ++ [(n, new_attributes n attrs)])%list)
      end
  | GetQueueAttributes u names =>
      match find_url u qs, names with
      | None, _ => (Raise QueueDoesNotExist, qs)
      | Some a, PList l =>
          match names_of l with
          | Some ns => (Ok (attributes_response ns a), qs)
          | None => (Raise (BotoCoreError "ParamValidationError"), qs)
          end
      | Some _, _ => (Raise (BotoCoreError "ParamValidationError"), qs)
      end
  | SetQueueAttributes u k v =>
      match find_url u qs with
      | Some _ =>
          (Ok (PDict []),
           map (fun q => if has_url u q then (fst q, write k v (snd q)) else q) qs)
      | None => (Raise QueueDoesNotExist, qs)
      end
  | DeleteQueue u =>
      match find_url u qs with
      | Some _ => (Ok (PDict []), filter (fun q => negb (has_url u q)) qs)
      | None => (Raise QueueDoesNotExist, qs)
      end
  end.

(** A fresh invocation against the queues [qs]. *)
Definition start (qs : queues) : st queues := mkSt qs [].

End Sqs.

(* ===================================================================== *)
(** * Observations on a run *)
(* ===================================================================== *)

(** The entry [k] of the result handed to [exit_json] or [fail_json]. *)
Definition reported (o : outcome) (k : string) : option pyval :=
  match o with
  | ExitJson result => result !! k
  | FailJson result => result !! k
  | Uncaught _ => None
  end.

Definition exits (o : outcome) : bool :=
  match o with ExitJson _ => true | _ => false end.

Definition fails (o : outcome) : bool :=
  match o with FailJson _ => true | _ => false end.

(** Every call that [m] adds to the trace [tr] of the state satisfies [P]. *)
Definition issues {S A} (tr : S -> list call) (P : call -> Prop) (m : M S A) : Prop :=
  forall s, exists t, tr (snd (m s)) = (tr s ++ t)%list /\ Forall P t.

(** The first call that [m] adds to the trace is [c]. *)
Definition starts_with {S A} (tr : S -> list call) (c : call) (m : M S A) : Prop :=
  forall s, exists t, tr (snd (m s)) = (tr s ++ c :: t)%list.

(** The trace of a computation that also carries the result dictionary. *)
Definition rtrace {W} (rs : gmap string pyval * st W) : list call := trace (snd rs).

(** Items in the order of their keys. *)
Definition key_le (a b : string * string) : Prop := String.leb (fst a) (fst b) = true.

(** [module.params] with another value for
    [fifo_content_based_deduplication]. *)
Definition with_fifo_content_based_deduplication (b : bool) (p : params) : params :=
  mkParams (state p) (name p) (queue_type p) b
           (default_visibility_timeout p) (message_retention_period p)
           (maximum_message_size p) (delivery_delay p) (receive_message_wait_time p)
           (policy p) (redrive_policy p) (region p).


(* ===================================================================== *)
(** * Scenarios *)
(* ===================================================================== *)

(** The invocations and remote states on which the code is run below. *)
Module Scenario.

Definition dead_letter_arn : string := "arn:aws:sqs:eu-west-1:123456789012:my-dead-queue".

(** The desired redrive policy of the module's own example. *)
Definition redrive_policy : list (string * pyval) :=
  [ ("maxReceiveCount", PInt 5); ("deadLetterTargetArn", PStr dead_letter_arn) ].

(** The same object as the service holds it: other key order, other
    spacing. *)
Definition remote_redrive_policy : string :=
  json_text
    "{'deadLetterTargetArn':'arn:aws:sqs:eu-west-1:123456789012:my-dead-queue',  'maxReceiveCount':5}".

Definition orders_url : pyval := Sqs.url_of "orders".

(** No queue at all. *)
Definition nothing : Sqs.queues := [].

(** The queue [orders] with the attributes of a new queue. *)
Definition orders : Sqs.queues := [("orders", Sqs.default_attributes "orders")].

(** The queue [orders] with the redrive policy above. *)
Definition orders_with_redrive : Sqs.queues :=
  [("orders",
    Sqs.write "RedrivePolicy" remote_redrive_policy (Sqs.default_attributes "orders"))].

(** The queue [orders] whose access policy is not a JSON document. *)
Definition orders_with_broken_policy : Sqs.queues :=
  [("orders", Sqs.write "Policy" "not json" (Sqs.default_attributes "orders"))].

(** [name: orders] and nothing else. *)
Definition plain (st : state_choice) (n : string) (t : queue_type_choice) (dedup : bool)
  : params :=
  mkParams st n t dedup None None None None None None None (Some "eu-west-1").

Definition with_redrive : params :=
  mkParams present "orders" standard false None None None None None
           None (Some redrive_policy) (Some "eu-west-1").

Definition with_policy : params :=
  mkParams present "orders" standard false None None None None None
           (Some redrive_policy) None (Some "eu-west-1").

(** One run of [main] of [src/sqs_queue/sqs_queue.py] against the queues
    [qs], with boto3 present and the client built. *)
Definition run (p : params) (check_mode : bool) (qs : Sqs.queues)
  : outcome * st Sqs.queues :=
  Fifo.main Sqs.service json_loads true (Ok tt) p check_mode (Sqs.start qs).

End Scenario.

(* ===================================================================== *)
(** * What the comparator reads, compares and writes *)
(* ===================================================================== *)

(** The desired values that count as not set: [None] and the empty string,
    list and dictionary. *)
Definition absent_value (v : pyval) : bool :=
  match v with
  | PNone => true
  | PStr s => String.eqb s ""
  | PList l => match l with [] => true | _ => false end
  | PDict d => match d with [] => true | _ => false end
  | PBool _ | PInt _ => false
  end.

(** The text of a desired value: its serialisation with sorted keys for a
    JSON-document attribute, [str(value)] otherwise. *)
Definition written_text (attribute : string) (value : pyval) : string :=
  if is_json_attribute attribute then json_dumps value else py_str value.

(** What [response['Attributes'][attribute]] evaluates to on the outcome
    of the read. *)
Definition read_value (r : res pyval) (attribute : string) : res pyval :=
  match r with
  | Ok response =>
      match py_getitem response "Attributes" with
      | Ok attributes => py_getitem attributes attribute
      | Raise e => Raise e
      end
  | Raise e => Raise e
  end.

(** The existing value the comparator goes on with: the value read, or the
    empty string when the read or either look-up in the response raised. *)
Definition existing_of (r : res pyval) (attribute : string) : pyval :=
  match read_value r attribute with
  | Ok v => v
  | Raise _ => PStr ""
  end.

(** The two sides of the comparison, after the conversion of a
    JSON-document attribute: the desired value and the existing one. *)
Definition normalise (loads : string -> option pyval) (attribute : string)
    (value existing_value : pyval) : res (pyval * pyval) :=
  if is_json_attribute attribute then
    if py_truthy existing_value then
      match existing_value with
      | PStr raw =>
          match loads raw with
          | Some parsed => Ok (PStr (json_dumps value), PStr (json_dumps parsed))
          | None => Raise ValueError
          end
      | _ => Raise TypeError
      end
    else Ok (PStr (json_dumps value), existing_value)
  else Ok (value, existing_value).

(** What [response[attribute]] evaluates to on the outcome of the read of
    [src/sqs_queue.py]. *)
Definition legacy_read_value (r : res pyval) (attribute : string) : res pyval :=
  match r with
  | Ok response => py_getitem response attribute
  | Raise e => Raise e
  end.

Definition legacy_existing_of (r : res pyval) (attribute : string) : pyval :=
  match legacy_read_value r attribute with
  | Ok v => v
  | Raise _ => PStr ""
  end.

(** The managed attributes in the order in which [update_sqs_queue] goes
    through them, each with its desired value. *)
Definition catalog (default_visibility_timeout message_retention_period
    maximum_message_size delivery_delay receive_message_wait_time policy redrive_policy
    fifo_content_based_deduplication : pyval) : list (string * pyval) :=
  [ ("VisibilityTimeout", default_visibility_timeout);
    ("MessageRetentionPeriod", message_retention_period);
    ("MaximumMessageSize", maximum_message_size);
    ("DelaySeconds", delivery_delay);
    ("ReceiveMessageWaitTimeSeconds", receive_message_wait_time);
    ("Policy", policy);
    ("RedrivePolicy", redrive_policy);
    ("ContentBasedDeduplication", fifo_content_based_deduplication) ].

(** The attributes of a catalog that are set. *)
Definition set_attributes (c : list (string * pyval)) : list (string * pyval) :=
  List.filter (fun av => negb (absent_value (snd av))) c.

(** A call that the synchronizer may issue for the queue [queue_url] and
    the catalog [c]: the read of an attribute that is set or, outside check
    mode, the write of its text. *)
Definition synchronizer_call (queue_url : pyval) (check_mode : bool)
    (c : list (string * pyval)) (x : call) : Prop :=
  exists a v,
    In (a, v) c /\ absent_value v = false
    /\ (x = GetQueueAttributes queue_url (PList [PStr a])
        \/ (check_mode = false
            /\ x = SetQueueAttributes queue_url a (written_text a v))).

(** What [response['QueueUrl']] evaluates to on the outcome of a look-up
    or of a creation. *)
Definition queue_url_of (r : res pyval) : res pyval :=
  match r with
  | Ok response => py_getitem response "QueueUrl"
  | Raise e => Raise e
  end.

(** The computation [m] leaves the entry [k] of the result as it is. *)
Definition keeps {W A} (k : string) (m : M (gmap string pyval * st W) A) : Prop :=
  forall rs, fst (snd (m rs)) !! k = fst rs !! k.

(** The result with which [create_or_update_sqs_queue] of
    [src/sqs_queue/sqs_queue.py] starts: region, name and the desired
    attributes. *)
Definition initial_result (p : params) : gmap string pyval :=
  Fifo.dict_update
    (<["name" := PStr (Fifo.queue_name p)]> (<["region" := of_str (region p)]> ∅))
    (Fifo.queue_attributes p).

(** The [Attributes] argument with which a queue of the given type is
    created. *)
Definition creation_attributes (t : queue_type_choice) : list (string * string) :=
  match t with
  | fifo => [("FifoQueue", "True")]
  | standard => []
  end.

(** The queue service with every mutating call refused. *)
Definition read_only_service (c : call) (qs : Sqs.queues) : res pyval * Sqs.queues :=
  if is_mutating c then (Raise (ClientError "AccessDenied"), qs) else Sqs.service c qs.

(** What [create_or_update_sqs_queue] goes on with once the queue is
    known under [queue_url]: the synchronizer, the [changed] entry and,
    outside check mode, the report. *)
Definition update_existing {W} (connection : call -> W -> res pyval * W)
    (loads : string -> option pyval) (p : params) (check_mode : bool) (queue_url : pyval)
  : M (gmap string pyval * st W) unit :=
  changed <- lift (Fifo.update_with connection loads queue_url check_mode
                     (Fifo.queue_attributes p));;
  _ <- set_result "changed" (PBool changed);;
  if negb check_mode then Fifo.report connection p queue_url else mret tt.

(** What it goes on with outside check mode when the queue is not known:
    the creation, the [changed] entry, the synchronizer and the report. *)
Definition create_new {W} (connection : call -> W -> res pyval * W)
    (loads : string -> option pyval) (p : params)
  : M (gmap string pyval * st W) unit :=
  response <- lift (request connection
                      (CreateQueue (Fifo.queue_name p)
                         (creation_attributes (queue_type p))));;
  queue_url <- getitem response "QueueUrl";;
  _ <- set_result "changed" (PBool true);;
  _ <- lift (Fifo.update_with connection loads queue_url false (Fifo.queue_attributes p));;
  Fifo.report connection p queue_url.

(** A call that the present path may issue once the queue is known under
    [queue_url]: a read of its attributes or, outside check mode, a write
    of one of them. *)
Definition attribute_call (queue_url : pyval) (check_mode : bool) (x : call) : Prop :=
  (exists names, x = GetQueueAttributes queue_url names)
  \/ (check_mode = false /\ exists a v, x = SetQueueAttributes queue_url a v).

(** The calls that the present path of [src/sqs_queue/sqs_queue.py] may
    issue at all. *)
Definition present_call (p : params) (check_mode : bool) (x : call) : Prop :=
  match x with
  | GetQueueUrl n => n = Fifo.queue_name p
  | CreateQueue n a =>
      check_mode = false /\ n = Fifo.queue_name p
      /\ a = creation_attributes (queue_type p)
  | GetQueueAttributes _ _ => True
  | SetQueueAttributes _ _ _ => check_mode = false
  | DeleteQueue _ => False
  end.

(** The result with which [delete_sqs_queue] starts: region and name. *)
Definition delete_initial_result (p : params) : gmap string pyval :=
  <["name" := PStr (name p)]> (<["region" := of_str (region p)]> ∅).

(** The entries of the result that the final report fills in, each with
    the remote attribute it is taken from. *)
Definition report_entries (t : queue_type_choice) : list (string * string) :=
  [ ("queue_arn", "QueueArn");
    ("default_visibility_timeout", "VisibilityTimeout");
    ("message_retention_period", "MessageRetentionPeriod");
    ("maximum_message_size", "MaximumMessageSize");
    ("delivery_delay", "DelaySeconds");
    ("receive_message_wait_time", "ReceiveMessageWaitTimeSeconds") ]
  ++ match t with
     | fifo => [("fifo_content_based_deduplication", "ContentBasedDeduplication")]
     | standard => []
     end.

(** The entry of the result is the attribute of the dictionary
    [attributes] that it is taken from. *)
Definition reports (attributes : pyval) (result : gmap string pyval)
    (entry : string * string) : Prop :=
  exists v, py_getitem attributes (snd entry) = Ok v /\ result !! fst entry = Some v.

(** The calls that [src/sqs_queue.py] may issue for the present state. *)
Definition legacy_call (p : params) (check_mode : bool) (x : call) : Prop :=
  match x with
  | GetQueueUrl n => n = name p
  | GetQueueAttributes _ _ => True
  | SetQueueAttributes _ _ _ => check_mode = false
  | CreateQueue _ _ | DeleteQueue _ => False
  end.

(** The result with which [create_or_update_sqs_queue] of
    [src/sqs_queue.py] starts. *)
Definition legacy_initial_result (p : params) : gmap string pyval :=
  Fifo.dict_update
    (<["name" := PStr (name p)]> (<["region" := of_str (region p)]> ∅))
    (Legacy.queue_attributes p).

(** The comparison and, outside check mode, the write: the text
    [compared] against the existing value, and [written] sent to the
    service when they differ. *)
Definition compare_and_write {W} (connection : call -> W -> res pyval * W)
    (queue_url : pyval) (attribute : string) (existing_value : pyval)
    (compared written : string) (check_mode : bool) (s1 : st W) : res bool * st W :=
  if str_ne compared existing_value then
    if check_mode then (Ok true, s1)
    else
      let write := SetQueueAttributes queue_url attribute written in
      (match fst (connection write (world s1)) with
       | Ok _ => Ok true
       | Raise e => Raise e
       end,
       mkSt (snd (connection write (world s1))) (trace s1 ++ [write])%list)
  else (Ok false, s1).

(** What the comparator does with a value that is set: the read with the
    argument [names], the existing value taken from its outcome by
    [existing], the conversion, and the comparison of the text of the
    value, passed through [fold], with the write of that text. *)
Definition read_compare_write {W} (connection : call -> W -> res pyval * W)
    (loads : string -> option pyval) (names : pyval) (existing : res pyval -> pyval)
    (fold : string -> string) (queue_url : pyval) (attribute : string) (value : pyval)
    (check_mode : bool) (s : st W) : res bool * st W :=
  let read := GetQueueAttributes queue_url names in
  let s1 := mkSt (snd (connection read (world s))) (trace s ++ [read])%list in
  match normalise loads attribute value (existing (fst (connection read (world s)))) with
  | Raise e => (Raise e, s1)
  | Ok ve =>
      compare_and_write connection queue_url attribute (snd ve)
        (fold (py_str (fst ve))) (py_str (fst ve)) check_mode s1
  end.

(** The comparator applied to the attributes of a catalog in turn, with
    the flag accumulated so far. *)
Fixpoint run_catalog {W} (compare : string -> pyval -> M (st W) bool)
    (c : list (string * pyval)) (changed : bool) : M (st W) bool :=
  match c with
  | [] => mret changed
  | (a, v) :: r => x <- compare a v;; run_catalog compare r (x || changed)
  end.

(** The catalog that [create_or_update_sqs_queue] of
    [src/sqs_queue/sqs_queue.py] hands to the synchronizer. *)
Definition catalog_of (p : params) : list (string * pyval) :=
  let attrs := Fifo.queue_attributes p in
  catalog (Fifo.kwarg attrs "default_visibility_timeout")
          (Fifo.kwarg attrs "message_retention_period")
          (Fifo.kwarg attrs "maximum_message_size")
          (Fifo.kwarg attrs "delivery_delay")
          (Fifo.kwarg attrs "receive_message_wait_time")
          (Fifo.kwarg attrs "policy")
          (Fifo.kwarg attrs "redrive_policy")
          (Fifo.kwarg attrs "fifo_content_based_deduplication").

(** The catalog through which [update_sqs_queue] of [src/sqs_queue.py]
    goes for the parameters [p]. *)
Definition legacy_catalog_of (p : params) : list (string * pyval) :=
  [ ("VisibilityTimeout", of_int (default_visibility_timeout p));
    ("MessageRetentionPeriod", of_int (message_retention_period p));
    ("MaximumMessageSize", of_int (maximum_message_size p));
    ("DelaySeconds", of_int (delivery_delay p));
    ("ReceiveMessageWaitTimeSeconds", of_int (receive_message_wait_time p));
    ("Policy", of_dict (policy p));
    ("RedrivePolicy", of_dict (redrive_policy p)) ].

(** Started in the state [s0] on the catalog [c], the synchronizer gets
    to the attribute [attribute] with the desired value [value] in the
    state [s]: the comparator has returned for every attribute before
    it. *)
Definition reaches {W} (compare : string -> pyval -> M (st W) bool)
    (c : list (string * pyval)) (attribute : string) (value : pyval)
    (s0 s : st W) : Prop :=
  exists before after changed,
    c = (before ++ (attribute, value) :: after)%list
    /\ run_catalog compare before false s0 = (Ok changed, s).

(** A client that takes one attribute name for [AttributeNames] and
    answers with the attributes at the top of the response, where
    [src/sqs_queue.py] looks them up; every other call is answered as by
    the queue service. *)
Definition flat_service (c : call) (qs : Sqs.queues) : res pyval * Sqs.queues :=
  match c with
  | GetQueueAttributes u (PStr a) =>
      match Sqs.find_url u qs with
      | Some attrs => (Ok (PDict (Sqs.selected [a] attrs)), qs)
      | None => (Raise QueueDoesNotExist, qs)
      end
  | _ => Sqs.service c qs
  end.

Open Scope list_scope.

(* ===================================================================== *)
(** * Which remote calls a computation issues *)
(* ===================================================================== *)

Section Traces.

Context {S : Type} (tr : S -> list call).

Lemma issues_mret {A} P (a : A) : issues tr P (mret a).
Proof. intros s. exists []. simpl. rewrite app_nil_r. auto. Qed.

Lemma issues_raise {A} P e : issues tr P (@raise S A e).
Proof. intros s. exists []. simpl. rewrite app_nil_r. auto. Qed.

Lemma issues_lift_res {A} P (r : res A) : issues tr P (lift_res r).
Proof. intros s. exists []. simpl. rewrite app_nil_r. auto. Qed.

Lemma issues_getitem P v k : issues tr P (getitem v k).
Proof. apply issues_lift_res. Qed.

Lemma issues_bind {A B} P (m : M S A) (k : A -> M S B) :
  issues tr P m -> (forall a, issues tr P (k a)) -> issues tr P (bind m k).
Proof.
  intros Hm Hk s. unfold bind.
  destruct (Hm s) as [t1 [E1 F1]].
  destruct (m s) as [[a | e] s1]; simpl in E1.
  - destruct (Hk a s1) as [t2 [E2 F2]].
    exists (t1 ++ t2). rewrite E2, E1, app_assoc. split; [reflexivity |].
    apply Forall_app; auto.
  - exists t1. auto.
Qed.

Lemma issues_try_except {A} P (m : M S A) (h : exn -> M S A) :
  issues tr P m -> (forall e, issues tr P (h e)) -> issues tr P (try_except m h).
Proof.
  intros Hm Hh s. unfold try_except.
  destruct (Hm s) as [t1 [E1 F1]].
  destruct (m s) as [[a | e] s1]; simpl in E1.
  - exists t1. auto.
  - destruct (Hh e s1) as [t2 [E2 F2]].
    exists (t1 ++ t2). rewrite E2, E1, app_assoc. split; [reflexivity |].
    apply Forall_app; auto.
Qed.

Lemma issues_when P (c : bool) (m : M S unit) :
  (c = true -> issues tr P m) -> issues tr P (when c m).
Proof. destruct c; simpl; intros H; [auto | apply issues_mret]. Qed.

Lemma issues_weaken {A} (P Q : call -> Prop) (m : M S A) :
  (forall c, P c -> Q c) -> issues tr P m -> issues tr Q m.
Proof.
  intros HPQ Hm s. destruct (Hm s) as [t [E F]]. exists t. split; [exact E |].
  eapply Forall_impl; eauto.
Qed.

Lemma starts_with_bind {A B} c (m : M S A) (k : A -> M S B) :
  starts_with tr c m -> (forall a, issues tr (fun _ => True) (k a)) ->
  starts_with tr c (bind m k).
Proof.
  intros Hm Hk s. unfold bind.
  destruct (Hm s) as [t1 E1].
  destruct (m s) as [[a | e] s1]; simpl in E1.
  - destruct (Hk a s1) as [t2 [E2 _]].
    exists (t1 ++ t2). rewrite E2, E1, <- app_assoc. reflexivity.
  - exists t1. auto.
Qed.

Lemma starts_with_try_except {A} c (m : M S A) (h : exn -> M S A) :
  starts_with tr c m -> (forall e, issues tr (fun _ => True) (h e)) ->
  starts_with tr c (try_except m h).
Proof.
  intros Hm Hh s. unfold try_except.
  destruct (Hm s) as [t1 E1].
  destruct (m s) as [[a | e] s1]; simpl in E1.
  - exists t1. auto.
  - destruct (Hh e s1) as [t2 [E2 _]].
    exists (t1 ++ t2). rewrite E2, E1, <- app_assoc. reflexivity.
Qed.

End Traces.

Section LiftedTraces.

Context {W : Type}.

Lemma issues_lift {A} P (m : M (st W) A) :
  issues trace P m -> issues rtrace P (lift m).
Proof.
  intros Hm [r s]. unfold lift, rtrace. simpl.
  destruct (Hm s) as [t [E F]]. destruct (m s) as [a s1]. simpl in *. eauto.
Qed.

Lemma starts_with_lift {A} c (m : M (st W) A) :
  starts_with trace c m -> starts_with rtrace c (lift m).
Proof.
  intros Hm [r s]. unfold lift, rtrace. simpl.
  destruct (Hm s) as [t E]. destruct (m s) as [a s1]. simpl in *. eauto.
Qed.

Lemma issues_set_result P k v : issues rtrace P (@set_result W k v).
Proof. intros [r s]. exists []. unfold rtrace. simpl. rewrite app_nil_r. auto. Qed.

(** The handler around the body adds no call. *)
Lemma try_ClientError_trace msg result (body : M (gmap string pyval * st W) unit) s :
  trace (snd (try_ClientError msg result body s)) = rtrace (snd (body (result, s))).
Proof.
  unfold try_ClientError, rtrace.
  destruct (body (result, s)) as [[u | e] [r' s']]; simpl; [reflexivity |].
  destruct (is_ClientError e); reflexivity.
Qed.

End LiftedTraces.

(** One structural step in a proof of [issues]. *)
Ltac issues_step :=
  lazymatch goal with
  | |- issues _ _ (bind _ _) => apply issues_bind; [| intros ?]
  | |- issues _ _ (mret _) => apply issues_mret
  | |- issues _ _ (raise _) => apply issues_raise
  | |- issues _ _ (getitem _ _) => apply issues_getitem
  | |- issues _ _ (try_except _ _) => apply issues_try_except; [| intros ?]
  | |- issues _ _ (when _ _) => apply issues_when; intros ?
  | |- issues _ _ (lift _) => apply issues_lift
  | |- issues _ _ (set_result _ _) => apply issues_set_result
  | |- issues _ _ (if ?b then _ else _) => destruct b eqn:?
  | |- issues _ _ (match ?x with _ => _ end) => destruct x eqn:?
  end.

Section RuntimeCalls.

Context {W : Type}.
Variable connection : call -> W -> res pyval * W.
Variable loads : string -> option pyval.
Variable P : call -> Prop.

Lemma request_issues c : P c -> issues trace P (request connection c).
Proof.
  intros Hc s. unfold request. destruct (connection c (world s)) as [r w'].
  exists [c]. simpl. auto.
Qed.

Lemma request_starts_with c : starts_with trace c (request connection c).
Proof.
  intros s. unfold request. destruct (connection c (world s)) as [r w'].
  exists []. reflexivity.
Qed.

Lemma json_loads_of_issues v :
  issues trace P (@json_loads_of W loads v).
Proof.
  unfold json_loads_of. repeat issues_step.
Qed.

End RuntimeCalls.

(* ===================================================================== *)
(** * The calls of [src/sqs_queue/sqs_queue.py] *)
(* ===================================================================== *)

Section FifoCalls.

Context {W : Type}.
Variable connection : call -> W -> res pyval * W.
Variable loads : string -> option pyval.
Variable P : call -> Prop.

(** The comparator reads the attribute, and writes it only outside check
    mode. *)
Lemma set_queue_attribute_issues queue_url attribute value check_mode :
  (forall names, P (GetQueueAttributes queue_url names)) ->
  (check_mode = false -> forall x, P (SetQueueAttributes queue_url attribute x)) ->
  issues trace P
    (Fifo.set_queue_attribute connection loads queue_url attribute value check_mode).
Proof.
  intros HG HS. unfold Fifo.set_queue_attribute.
  repeat first
    [ apply request_issues; solve [auto | apply HS; destruct check_mode; auto; discriminate]
    | apply json_loads_of_issues
    | issues_step ].
Qed.

Lemma update_sqs_queue_issues queue_url check_mode a1 a2 a3 a4 a5 a6 a7 a8 :
  (forall names, P (GetQueueAttributes queue_url names)) ->
  (check_mode = false -> forall a x, P (SetQueueAttributes queue_url a x)) ->
  issues trace P
    (Fifo.update_sqs_queue connection loads queue_url check_mode a1 a2 a3 a4 a5 a6 a7 a8).
Proof.
  intros HG HS. unfold Fifo.update_sqs_queue.
  repeat first
    [ apply set_queue_attribute_issues; solve [auto]
    | issues_step ].
Qed.

Lemma report_issues p queue_url :
  (forall names, P (GetQueueAttributes queue_url names)) ->
  issues rtrace P (Fifo.report connection p queue_url).
Proof.
  intros HG. unfold Fifo.report.
  repeat first [ apply request_issues; solve [auto] | issues_step ].
Qed.

Lemma create_or_update_body_issues p check_mode :
  P (GetQueueUrl (Fifo.queue_name p)) ->
  (forall u names, P (GetQueueAttributes u names)) ->
  (check_mode = false -> forall u a x, P (SetQueueAttributes u a x)) ->
  (check_mode = false -> forall attrs, P (CreateQueue (Fifo.queue_name p) attrs)) ->
  issues rtrace P (Fifo.create_or_update_body connection loads p check_mode).
Proof.
  intros HQ HG HS HC. unfold Fifo.create_or_update_body, Fifo.update_with.
  repeat first
    [ apply request_issues; solve [auto | apply HC; destruct check_mode; auto; discriminate]
    | apply update_sqs_queue_issues; solve [auto]
    | apply report_issues; solve [auto]
    | issues_step ].
Qed.

Lemma delete_body_issues p check_mode :
  P (GetQueueUrl (name p)) ->
  (check_mode = false -> forall u, P (DeleteQueue u)) ->
  issues rtrace P (Fifo.delete_body connection p check_mode).
Proof.
  intros HQ HD. unfold Fifo.delete_body.
  repeat first
    [ apply request_issues; solve [auto | apply HD; destruct check_mode; auto; discriminate]
    | issues_step ].
Qed.

End FifoCalls.

(* ===================================================================== *)
(** * The calls of [src/sqs_queue.py] *)
(* ===================================================================== *)

Section LegacyCalls.

Context {W : Type}.
Variable connection : call -> W -> res pyval * W.
Variable loads : string -> option pyval.
Variable P : call -> Prop.

Lemma legacy_set_queue_attribute_issues queue_url attribute value check_mode :
  (forall names, P (GetQueueAttributes queue_url names)) ->
  (check_mode = false -> forall x, P (SetQueueAttributes queue_url attribute x)) ->
  issues trace P
    (Legacy.set_queue_attribute connection loads queue_url attribute value check_mode).
Proof.
  intros HG HS. unfold Legacy.set_queue_attribute.
  repeat first
    [ apply request_issues; solve [auto | apply HS; destruct check_mode; auto; discriminate]
    | apply json_loads_of_issues
    | issues_step ].
Qed.

Lemma legacy_update_sqs_queue_issues queue_url check_mode a1 a2 a3 a4 a5 a6 a7 :
  (forall names, P (GetQueueAttributes queue_url names)) ->
  (check_mode = false -> forall a x, P (SetQueueAttributes queue_url a x)) ->
  issues trace P
    (Legacy.update_sqs_queue connection loads queue_url check_mode a1 a2 a3 a4 a5 a6 a7).
Proof.
  intros HG HS. unfold Legacy.update_sqs_queue.
  repeat first
    [ apply legacy_set_queue_attribute_issues; solve [auto]
    | issues_step ].
Qed.

Lemma legacy_create_or_update_body_issues p check_mode :
  P (GetQueueUrl (name p)) ->
  (forall u names, P (GetQueueAttributes u names)) ->
  (check_mode = false -> forall u a x, P (SetQueueAttributes u a x)) ->
  issues rtrace P (Legacy.create_or_update_body connection loads p check_mode).
Proof.
  intros HQ HG HS. unfold Legacy.create_or_update_body.
  repeat first
    [ apply request_issues; solve [auto]
    | apply legacy_update_sqs_queue_issues; solve [auto]
    | issues_step ].
Qed.

End LegacyCalls.

(* ===================================================================== *)
(** * Serialisation with sorted keys *)
(* ===================================================================== *)

(** The order on keys, character by character. *)
Lemma leb_cons c1 s1 c2 s2 :
  String.leb (String c1 s1) (String c2 s2)
  = match N.compare (code c1) (code c2) with
    | Lt => true
    | Eq => String.leb s1 s2
    | Gt => false
    end.
Proof.
  unfold String.leb. simpl. unfold Ascii.compare, code.
  destruct (N.compare (N_of_ascii c1) (N_of_ascii c2)); reflexivity.
Qed.

Lemma leb_nil_l s : String.leb "" s = true.
Proof. destruct s; reflexivity. Qed.

Lemma leb_trans s1 : forall s2 s3,
  String.leb s1 s2 = true -> String.leb s2 s3 = true -> String.leb s1 s3 = true.
Proof.
  induction s1 as [| c1 s1 IH]; intros s2 s3 H12 H23; [apply leb_nil_l |].
  destruct s2 as [| c2 s2]; [discriminate |].
  destruct s3 as [| c3 s3]; [discriminate |].
  rewrite leb_cons in *.
  destruct (N.compare_spec (code c1) (code c2)) as [E12 | L12 | G12]; try discriminate;
  destruct (N.compare_spec (code c2) (code c3)) as [E23 | L23 | G23]; try discriminate;
  destruct (N.compare_spec (code c1) (code c3)) as [E13 | L13 | G13];
    try reflexivity; try lia.
  eapply IH; eauto.
Qed.

Lemma leb_refl s : String.leb s s = true.
Proof. destruct (String.leb_total s s); assumption. Qed.

Lemma insert_by_key_Permutation a l : Permutation (insert_by_key a l) (a :: l).
Proof.
  induction l as [| b l IH]; simpl; [reflexivity |].
  destruct (String.leb (fst a) (fst b)); [reflexivity |].
  rewrite IH. apply perm_swap.
Qed.

Lemma sort_by_key_Permutation l : Permutation (sort_by_key l) l.
Proof.
  induction l as [| a l IH]; simpl; [reflexivity |].
  unfold sort_by_key in *. simpl. rewrite insert_by_key_Permutation, IH. reflexivity.
Qed.

Lemma insert_by_key_sorted a l :
  StronglySorted key_le l -> StronglySorted key_le (insert_by_key a l).
Proof.
  induction 1 as [| b l Hs IH Hb]; simpl.
  - constructor; constructor.
  - destruct (String.leb (fst a) (fst b)) eqn:E.
    + constructor; [constructor; assumption |].
      constructor; [exact E |].
      eapply List.Forall_impl; [| exact Hb].
      intros c Hc. unfold key_le in *. eapply leb_trans; eauto.
    + constructor; [exact IH |].
      assert (Hba : key_le b a).
      { unfold key_le. destruct (String.leb_total (fst a) (fst b)); congruence. }
      eapply Permutation_Forall; [symmetry; apply insert_by_key_Permutation |].
      constructor; assumption.
Qed.

Lemma sort_by_key_sorted l : StronglySorted key_le (sort_by_key l).
Proof.
  induction l as [| a l IH]; [constructor |].
  apply insert_by_key_sorted. exact IH.
Qed.

(** A list of items with distinct keys has one sorted arrangement. *)
Lemma sorted_by_key_unique l1 : forall l2,
  StronglySorted key_le l1 -> StronglySorted key_le l2 ->
  Permutation l1 l2 -> NoDup (map fst l1) -> l1 = l2.
Proof.
  induction l1 as [| a l1 IH]; intros l2 S1 S2 HP ND.
  - apply Permutation_nil in HP. congruence.
  - destruct l2 as [| b l2]; [apply Permutation_sym, Permutation_nil in HP; discriminate |].
    inversion S1 as [| ? ? S1' F1]; subst. inversion S2 as [| ? ? S2' F2]; subst.
    inversion ND as [| ? ? Hnin ND']; subst.
    assert (Hb : In b (a :: l1)) by (eapply Permutation_in; [symmetry; exact HP | left; reflexivity]).
    assert (Ha : In a (b :: l2)) by (eapply Permutation_in; [exact HP | left; reflexivity]).
    assert (Hab : a = b).
    { destruct Hb as [Hb | Hb]; [exact Hb |].
      destruct Ha as [Ha | Ha]; [congruence |].
      rewrite List.Forall_forall in F1, F2.
      assert (fst a = fst b) by (apply String.leb_antisym; [apply F1 | apply F2]; assumption).
      exfalso. apply Hnin. apply list_elem_of_In. rewrite H. apply in_map. exact Hb. }
    subst b. f_equal. apply IH; auto.
    eapply Permutation_cons_inv; exact HP.
Qed.

Lemma sort_by_key_key_order l1 l2 :
  Permutation l1 l2 -> NoDup (map fst l1) -> sort_by_key l1 = sort_by_key l2.
Proof.
  intros HP ND. apply sorted_by_key_unique.
  - apply sort_by_key_sorted.
  - apply sort_by_key_sorted.
  - rewrite !sort_by_key_Permutation. exact HP.
  - assert (HP' : Permutation (map fst (sort_by_key l1)) (map fst l1))
      by apply Permutation_map, sort_by_key_Permutation.
    rewrite HP'. exact ND.
Qed.

(** The serialisation with sorted keys does not depend on the order in
    which a dictionary holds its members. *)
Lemma json_dumps_key_order (d1 d2 : list (string * pyval)) :
  Permutation d1 d2 -> NoDup (map fst d1) ->
  json_dumps (PDict d1) = json_dumps (PDict d2).
Proof.
  intros HP ND. simpl.
  rewrite (sort_by_key_key_order
             (map (fun kv => (fst kv, json_dumps (snd kv))) d1)
             (map (fun kv => (fst kv, json_dumps (snd kv))) d2)).
  - reflexivity.
  - apply Permutation_map. exact HP.
  - rewrite map_map. simpl. exact ND.
Qed.

(** The module's example: the two key orders serialise alike. *)
Lemma example_key_order :
  json_dumps (PDict Scenario.redrive_policy)
  = json_dumps (PDict (rev Scenario.redrive_policy)).
Proof.
  apply json_dumps_key_order.
  - apply Permutation_rev.
  - apply (bool_decide_unpack _). vm_compute. reflexivity.
Qed.

(* ===================================================================== *)
(** * The comparator on JSON documents *)
(* ===================================================================== *)

(** C1.  The comparator of [src/sqs_queue/sqs_queue.py] run on the
    redrive policy of the module's example, [{maxReceiveCount: 5,
    deadLetterTargetArn: ...}], against a queue whose raw [RedrivePolicy]
    string holds the same object with the keys in the other order and other
    spacing: the raw string parses to the same two members, both sides
    serialise to the same text with sorted keys, and the comparator still
    answers [True] and issues the write.  The desired side alone is put in
    lower case before the comparison. *)
Theorem C1_same_document_is_reported_different :
  json_loads Scenario.remote_redrive_policy
  = Some (PDict [ ("deadLetterTargetArn", PStr Scenario.dead_letter_arn);
                  ("maxReceiveCount", PInt 5) ])
  /\ option_map json_dumps (json_loads Scenario.remote_redrive_policy)
     = Some (json_dumps (PDict Scenario.redrive_policy))
  /\ Fifo.set_queue_attribute Sqs.service json_loads Scenario.orders_url "RedrivePolicy"
       (PDict Scenario.redrive_policy) false (Sqs.start Scenario.orders_with_redrive)
     = (Ok true,
        mkSt [("orders",
               Sqs.write "RedrivePolicy" (json_dumps (PDict Scenario.redrive_policy))
                         (Sqs.default_attributes "orders"))]
             [ GetQueueAttributes Scenario.orders_url (PList [PStr "RedrivePolicy"]);
               SetQueueAttributes Scenario.orders_url "RedrivePolicy"
                 (json_dumps (PDict Scenario.redrive_policy)) ]).
Proof. repeat split; vm_compute; reflexivity. Qed.

(** The comparison that goes wrong: the serialised desired document in
    lower case against the serialised remote document as it is. *)
Lemma lowered_document_differs :
  lower (json_dumps (PDict Scenario.redrive_policy))
  <> json_dumps (PDict Scenario.redrive_policy).
Proof. vm_compute. discriminate. Qed.

Section Comparator.

Context {W : Type}.
Variable connection : call -> W -> res pyval * W.
Variable loads : string -> option pyval.

(** What the comparator of [src/sqs_queue/sqs_queue.py] computes for a
    JSON-document attribute in check mode, when the read returns a raw
    string that parses: the serialised desired document in lower case is
    compared with the serialised remote document. *)
Lemma set_queue_attribute_json queue_url attribute d (s : st W) response attributes raw v w' :
  is_json_attribute attribute = true ->
  d <> [] ->
  connection (GetQueueAttributes queue_url (PList [PStr attribute])) (world s)
  = (Ok response, w') ->
  py_getitem response "Attributes" = Ok attributes ->
  py_getitem attributes attribute = Ok (PStr raw) ->
  raw <> "" ->
  loads raw = Some v ->
  Fifo.set_queue_attribute connection loads queue_url attribute (PDict d) true s
  = (Ok (negb (String.eqb (lower (json_dumps (PDict d))) (json_dumps v))),
     mkSt w' (trace s ++ [GetQueueAttributes queue_url (PList [PStr attribute])])).
Proof.
  intros Hj Hd Hc Ha Hv Hraw Hl.
  unfold Fifo.set_queue_attribute.
  destruct d as [| kv d]; [congruence |].
  cbn [py_truthy py_ne_zero negb andb].
  unfold bind, try_except, request, getitem, lift_res, json_loads_of, mret.
  rewrite Hc, Ha, Hv, Hj.
  cbn [py_truthy].
  destruct (String.eqb raw "") eqn:E; [apply String.eqb_eq in E; congruence |].
  cbn [negb]. rewrite Hl.
  cbn [fst snd py_str str_ne when negb].
  destruct (String.eqb (lower (json_dumps (PDict (kv :: d)))) (json_dumps v)); reflexivity.
Qed.

(** The defect in general: whenever the remote raw string denotes the
    desired document (it serialises to the same text) and that text has a
    capital letter in it, the comparator answers [True]. *)
Lemma same_document_with_a_capital_is_different
    queue_url attribute d (s : st W) response attributes raw v w' :
  is_json_attribute attribute = true ->
  d <> [] ->
  connection (GetQueueAttributes queue_url (PList [PStr attribute])) (world s)
  = (Ok response, w') ->
  py_getitem response "Attributes" = Ok attributes ->
  py_getitem attributes attribute = Ok (PStr raw) ->
  raw <> "" ->
  loads raw = Some v ->
  json_dumps v = json_dumps (PDict d) ->
  lower (json_dumps (PDict d)) <> json_dumps (PDict d) ->
  fst (Fifo.set_queue_attribute connection loads queue_url attribute (PDict d) true s)
  = Ok true.
Proof.
  intros Hj Hd Hc Ha Hv Hraw Hl He Hlow.
  erewrite set_queue_attribute_json by eassumption. cbn [fst].
  rewrite He.
  destruct (String.eqb_spec (lower (json_dumps (PDict d))) (json_dumps (PDict d)));
    [contradiction | reflexivity].
Qed.

(** Without the capital letter the comparator does what the specification
    says: the same document is not different, and nothing is written. *)
Lemma same_document_in_lower_case_is_equal
    queue_url attribute d (s : st W) response attributes raw v w' :
  is_json_attribute attribute = true ->
  d <> [] ->
  connection (GetQueueAttributes queue_url (PList [PStr attribute])) (world s)
  = (Ok response, w') ->
  py_getitem response "Attributes" = Ok attributes ->
  py_getitem attributes attribute = Ok (PStr raw) ->
  raw <> "" ->
  loads raw = Some v ->
  json_dumps v = json_dumps (PDict d) ->
  lower (json_dumps (PDict d)) = json_dumps (PDict d) ->
  Fifo.set_queue_attribute connection loads queue_url attribute (PDict d) true s
  = (Ok false,
     mkSt w' (trace s ++ [GetQueueAttributes queue_url (PList [PStr attribute])])).
Proof.
  intros Hj Hd Hc Ha Hv Hraw Hl He Hlow.
  erewrite set_queue_attribute_json by eassumption.
  rewrite He, Hlow, String.eqb_refl. reflexivity.
Qed.

(** The comparator of [src/sqs_queue.py] has no [lower]: on a raw string
    found under the attribute's name at the top of the response, the same
    document is not different. *)
Lemma legacy_same_document_is_equal
    queue_url attribute d check_mode (s : st W) response raw v w' :
  is_json_attribute attribute = true ->
  d <> [] ->
  connection (GetQueueAttributes queue_url (PStr attribute)) (world s)
  = (Ok response, w') ->
  py_getitem response attribute = Ok (PStr raw) ->
  raw <> "" ->
  loads raw = Some v ->
  json_dumps v = json_dumps (PDict d) ->
  Legacy.set_queue_attribute connection loads queue_url attribute (PDict d) check_mode s
  = (Ok false,
     mkSt w' (trace s ++ [GetQueueAttributes queue_url (PStr attribute)])).
Proof.
  intros Hj Hd Hc Hv Hraw Hl He.
  unfold Legacy.set_queue_attribute.
  destruct d as [| kv d]; [congruence |].
  cbn [py_truthy py_ne_zero negb andb].
  unfold bind, try_except, request, getitem, lift_res, json_loads_of, mret.
  rewrite Hc, Hv, Hj.
  cbn [py_truthy].
  destruct (String.eqb raw "") eqn:E; [apply String.eqb_eq in E; congruence |].
  cbn [negb]. rewrite Hl.
  cbn [fst snd py_str str_ne when negb].
  rewrite He, String.eqb_refl. reflexivity.
Qed.

End Comparator.

(** Against a client with boto3's conventions the comparator of
    [src/sqs_queue.py] never sees the remote document: [AttributeNames] is
    not a list and the attribute is not at the top of the response, the
    bare [except] turns either failure into the empty string, and the same
    document is written again. *)
Lemma legacy_same_document_is_written_again :
  Legacy.set_queue_attribute Sqs.service json_loads Scenario.orders_url "RedrivePolicy"
    (PDict Scenario.redrive_policy) false (Sqs.start Scenario.orders_with_redrive)
  = (Ok true,
     mkSt [("orders",
            Sqs.write "RedrivePolicy" (json_dumps (PDict Scenario.redrive_policy))
                      (Sqs.default_attributes "orders"))]
          [ GetQueueAttributes Scenario.orders_url (PStr "RedrivePolicy");
            SetQueueAttributes Scenario.orders_url "RedrivePolicy"
              (json_dumps (PDict Scenario.redrive_policy)) ]).
Proof. vm_compute. reflexivity. Qed.

(* ===================================================================== *)
(** * Idempotence *)
(* ===================================================================== *)

(** C2.  Two runs in a row of [main] with the same parameters (the queue
    [orders] with the example's redrive policy), the second against the
    remote state the first left: the queue already holds the desired
    policy, and yet both runs exit with [changed] true and both write the
    attribute; the remote state is the same after the second run as after
    the first. *)
Theorem C2_second_run_still_reports_changed :
  let first := Scenario.run Scenario.with_redrive false Scenario.orders_with_redrive in
  let second := Scenario.run Scenario.with_redrive false (world (snd first)) in
  exits (fst first) = true
  /\ reported (fst first) "changed" = Some (PBool true)
  /\ exits (fst second) = true
  /\ reported (fst second) "changed" = Some (PBool true)
  /\ world (snd second) = world (snd first)
  /\ trace (snd second)
     = [ GetQueueUrl "orders";
         GetQueueAttributes Scenario.orders_url (PList [PStr "RedrivePolicy"]);
         SetQueueAttributes Scenario.orders_url "RedrivePolicy"
           (json_dumps (PDict Scenario.redrive_policy));
         GetQueueAttributes Scenario.orders_url (PList [PStr "All"]) ].
Proof. repeat split; vm_compute; reflexivity. Qed.

(** Where no JSON document is involved the second run is quiet.  The
    scenario of the specification: [orders] with a visibility timeout of
    120 and a retention period of 86400 against no queue.  The first run
    creates the queue, writes the two attributes and reports [changed]
    true with the timeout read back as "120"; the second run, against the
    state the first left, writes nothing and reports [changed] false. *)
Lemma scalar_scenario_is_idempotent :
  let p := mkParams present "orders" standard false (Some 120%Z) (Some 86400%Z)
                    None None None None None (Some "eu-west-1") in
  let first := Scenario.run p false Scenario.nothing in
  let second := Scenario.run p false (world (snd first)) in
  reported (fst first) "changed" = Some (PBool true)
  /\ reported (fst first) "default_visibility_timeout" = Some (PStr "120")
  /\ trace (snd first)
     = [ GetQueueUrl "orders"; CreateQueue "orders" [];
         GetQueueAttributes Scenario.orders_url (PList [PStr "VisibilityTimeout"]);
         SetQueueAttributes Scenario.orders_url "VisibilityTimeout" "120";
         GetQueueAttributes Scenario.orders_url (PList [PStr "MessageRetentionPeriod"]);
         SetQueueAttributes Scenario.orders_url "MessageRetentionPeriod" "86400";
         GetQueueAttributes Scenario.orders_url (PList [PStr "All"]) ]
  /\ exits (fst second) = true
  /\ reported (fst second) "changed" = Some (PBool false)
  /\ filter is_mutating (trace (snd second)) = []
  /\ world (snd second) = world (snd first).
Proof. repeat split; vm_compute; reflexivity. Qed.

(* ===================================================================== *)
(** * Check mode *)
(* ===================================================================== *)

(** C3.  In check mode [main] of [src/sqs_queue/sqs_queue.py] issues no
    mutating call, whatever the parameters, the client's behaviour and the
    remote state are: every call it adds to the trace is a read
    ([get_queue_url] or [get_queue_attributes]), never [create_queue],
    [set_queue_attributes] or [delete_queue]. *)
Theorem C3_check_mode_issues_only_reads :
  forall (W : Type) (connection : call -> W -> res pyval * W)
         (loads : string -> option pyval) (HAS_BOTO3 : bool) (connecting : res unit)
         (p : params) (s : st W),
  exists t,
    trace (snd (Fifo.main connection loads HAS_BOTO3 connecting p true s)) = trace s ++ t
    /\ Forall (fun c => is_mutating c = false) t.
Proof.
  intros W connection loads HAS_BOTO3 connecting p s.
  assert (Hnil : exists t, trace s = trace s ++ t /\ Forall (fun c => is_mutating c = false) t).
  { exists []. rewrite app_nil_r. auto. }
  unfold Fifo.main.
  destruct HAS_BOTO3; simpl; [| exact Hnil].
  destruct connecting as [u | e]; [| destruct e; exact Hnil].
  destruct (state p).
  - unfold Fifo.create_or_update_sqs_queue. rewrite try_ClientError_trace.
    apply (create_or_update_body_issues connection loads
             (fun c => is_mutating c = false) p true);
      solve [reflexivity | discriminate].
  - unfold Fifo.delete_sqs_queue. rewrite try_ClientError_trace.
    apply (delete_body_issues connection (fun c => is_mutating c = false) p true);
      solve [reflexivity | discriminate].
Qed.

(** The same holds of the comparator alone. *)
Lemma set_queue_attribute_check_mode_reads_only :
  forall (W : Type) (connection : call -> W -> res pyval * W)
         (loads : string -> option pyval) queue_url attribute value (s : st W),
  exists t,
    trace (snd (Fifo.set_queue_attribute connection loads queue_url attribute value true s))
    = trace s ++ t
    /\ Forall (fun c => is_mutating c = false) t.
Proof.
  intros. apply set_queue_attribute_issues; solve [reflexivity | discriminate].
Qed.

(** The earlier variant [src/sqs_queue.py] issues no mutating call in check
    mode either; it has no creation and no deletion at all. *)
Lemma legacy_check_mode_issues_only_reads :
  forall (W : Type) (connection : call -> W -> res pyval * W)
         (loads : string -> option pyval) (HAS_BOTO3 : bool) (connecting : res unit)
         (p : params) (s : st W),
  exists t,
    trace (snd (Legacy.main connection loads HAS_BOTO3 connecting p true s)) = trace s ++ t
    /\ Forall (fun c => is_mutating c = false) t.
Proof.
  intros W connection loads HAS_BOTO3 connecting p s.
  assert (Hnil : exists t, trace s = trace s ++ t /\ Forall (fun c => is_mutating c = false) t).
  { exists []. rewrite app_nil_r. auto. }
  unfold Legacy.main.
  destruct HAS_BOTO3; simpl; [| exact Hnil].
  destruct connecting as [u | e]; [| destruct e; exact Hnil].
  destruct (state p); [| exact Hnil].
  unfold Legacy.create_or_update_sqs_queue. rewrite try_ClientError_trace.
  apply (legacy_create_or_update_body_issues connection loads
           (fun c => is_mutating c = false) p true);
    solve [reflexivity | discriminate].
Qed.

(** In and out of check mode the synchronizer of
    [src/sqs_queue/sqs_queue.py] only reads and writes attributes of the
    queue it is given: it creates and deletes nothing. *)
Lemma update_sqs_queue_neither_creates_nor_deletes :
  forall (W : Type) (connection : call -> W -> res pyval * W)
         (loads : string -> option pyval) queue_url check_mode a1 a2 a3 a4 a5 a6 a7 a8
         (s : st W),
  exists t,
    trace (snd (Fifo.update_sqs_queue connection loads queue_url check_mode
                  a1 a2 a3 a4 a5 a6 a7 a8 s))
    = trace s ++ t
    /\ Forall (fun c => match c with
                        | GetQueueAttributes u _ | SetQueueAttributes u _ _ => u = queue_url
                        | _ => False
                        end) t.
Proof.
  intros. apply update_sqs_queue_issues; intros; reflexivity.
Qed.

(** C5.  [main] of [src/sqs_queue/sqs_queue.py] in check mode, state
    [present], for the queue [orders] that does not exist remotely: the
    module exits normally after the one look-up and creates nothing, but
    the result it hands to [exit_json] has no [changed] entry at all;
    [changed] is set only inside the branch that check mode skips. *)
Theorem C5_check_mode_absent_queue_reports_no_change :
  let r := Scenario.run (Scenario.plain present "orders" standard false) true
                        Scenario.nothing in
  exits (fst r) = true
  /\ reported (fst r) "changed" = None
  /\ reported (fst r) "name" = Some (PStr "orders")
  /\ snd r = mkSt Scenario.nothing [GetQueueUrl "orders"].
Proof. repeat split; vm_compute; reflexivity. Qed.

(** The general form: in check mode, when the look-up of the queue raises,
    the result of [create_or_update_sqs_queue] is the initial one, which
    has no [changed] entry. *)
Lemma check_mode_unresolved_queue_has_no_changed :
  forall (W : Type) (connection : call -> W -> res pyval * W)
         (loads : string -> option pyval) (p : params) (s : st W) e w',
    connection (GetQueueUrl (Fifo.queue_name p)) (world s) = (Raise e, w') ->
    exists result,
      Fifo.create_or_update_sqs_queue connection loads p true s
      = (ExitJson result, mkSt w' (trace s ++ [GetQueueUrl (Fifo.queue_name p)]))
      /\ result !! "changed" = None.
Proof.
  intros W connection loads p s e w' H.
  unfold Fifo.create_or_update_sqs_queue, try_ClientError, Fifo.create_or_update_body,
    bind, try_except, lift, request. simpl. rewrite H. simpl.
  eexists. split; [reflexivity |].
  unfold Fifo.queue_attributes. destruct (queue_type p); vm_compute; reflexivity.
Qed.

(* ===================================================================== *)
(** * Deletion *)
(* ===================================================================== *)

(** C6.  [main] of [src/sqs_queue/sqs_queue.py] with state [absent] for
    the queue [orders] that does not exist remotely: no delete call is
    issued, but the look-up raises the service's queue-does-not-exist
    [ClientError], the handler of [delete_sqs_queue] catches it, and the
    invocation ends in [fail_json] with a message and without a [changed]
    entry. *)
Theorem C6_delete_of_missing_queue_fails :
  let r := Scenario.run (Scenario.plain absent "orders" standard false) false
                        Scenario.nothing in
  fails (fst r) = true
  /\ reported (fst r) "changed" = None
  /\ reported (fst r) "msg"
     = Some (PStr ("Failed to delete sqs queue due to error: "
                   +:+ format_exc QueueDoesNotExist))
  /\ snd r = mkSt Scenario.nothing [GetQueueUrl "orders"].
Proof. repeat split; vm_compute; reflexivity. Qed.

(** The general form: whenever the look-up raises a [ClientError], the
    delete path ends in [fail_json]. *)
Lemma delete_sqs_queue_fails_on_ClientError :
  forall (W : Type) (connection : call -> W -> res pyval * W)
         (p : params) (check_mode : bool) (s : st W) code w',
    connection (GetQueueUrl (name p)) (world s) = (Raise (ClientError code), w') ->
    fails (fst (Fifo.delete_sqs_queue connection p check_mode s)) = true
    /\ reported (fst (Fifo.delete_sqs_queue connection p check_mode s)) "changed" = None
    /\ snd (Fifo.delete_sqs_queue connection p check_mode s)
       = mkSt w' (trace s ++ [GetQueueUrl (name p)]).
Proof.
  intros W connection p check_mode s code w' H.
  unfold Fifo.delete_sqs_queue, try_ClientError, Fifo.delete_body,
    bind, lift, request. simpl. rewrite H. simpl.
  repeat split; vm_compute; reflexivity.
Qed.

(** The branch that reports [changed] false is taken only when the look-up
    returns a false value for the URL. *)
Lemma delete_sqs_queue_false_url :
  forall (W : Type) (connection : call -> W -> res pyval * W)
         (p : params) (check_mode : bool) (s : st W) response queue_url w',
    connection (GetQueueUrl (name p)) (world s) = (Ok response, w') ->
    py_getitem response "QueueUrl" = Ok queue_url ->
    py_truthy queue_url = false ->
    exits (fst (Fifo.delete_sqs_queue connection p check_mode s)) = true
    /\ reported (fst (Fifo.delete_sqs_queue connection p check_mode s)) "changed"
       = Some (PBool false)
    /\ snd (Fifo.delete_sqs_queue connection p check_mode s)
       = mkSt w' (trace s ++ [GetQueueUrl (name p)]).
Proof.
  intros W connection p check_mode s response queue_url w' H Hu Hf.
  unfold Fifo.delete_sqs_queue, try_ClientError, Fifo.delete_body,
    bind, lift, request, getitem, lift_res. simpl. rewrite H. simpl.
  rewrite Hu. rewrite Hf. simpl.
  repeat split; vm_compute; reflexivity.
Qed.

(* ===================================================================== *)
(** * Absent values, zero and [False] *)
(* ===================================================================== *)

Section Guard.

Context {W : Type}.
Variable connection : call -> W -> res pyval * W.
Variable loads : string -> option pyval.

(** A value that passes the guard [if not value and value != 0] is read
    from the service first. *)
Lemma set_queue_attribute_reads_first queue_url attribute value check_mode :
  negb (py_truthy value) && py_ne_zero value = false ->
  starts_with trace (GetQueueAttributes queue_url (PList [PStr attribute]))
    (Fifo.set_queue_attribute connection loads queue_url attribute value check_mode).
Proof.
  intros Hg. unfold Fifo.set_queue_attribute. rewrite Hg.
  apply starts_with_bind.
  - apply starts_with_try_except.
    + apply starts_with_bind; [apply request_starts_with |].
      intros a. repeat issues_step.
    + intros e. apply issues_mret.
  - intros existing_value.
    repeat first
      [ apply request_issues; exact I | apply json_loads_of_issues | issues_step ].
Qed.

Lemma legacy_set_queue_attribute_reads_first queue_url attribute value check_mode :
  negb (py_truthy value) && py_ne_zero value = false ->
  starts_with trace (GetQueueAttributes queue_url (PStr attribute))
    (Legacy.set_queue_attribute connection loads queue_url attribute value check_mode).
Proof.
  intros Hg. unfold Legacy.set_queue_attribute. rewrite Hg.
  apply starts_with_bind.
  - apply starts_with_try_except.
    + apply starts_with_bind; [apply request_starts_with |].
      intros a. repeat issues_step.
    + intros e. apply issues_mret.
  - intros existing_value.
    repeat first
      [ apply request_issues; exact I | apply json_loads_of_issues | issues_step ].
Qed.

(** For an attribute that is not a JSON document, a value that passes the
    guard is compared, as text in lower case, with the raw string that the
    read returns; in check mode that comparison is the answer. *)
Lemma set_queue_attribute_scalar queue_url attribute value (s : st W)
    response attributes raw w' :
  is_json_attribute attribute = false ->
  negb (py_truthy value) && py_ne_zero value = false ->
  connection (GetQueueAttributes queue_url (PList [PStr attribute])) (world s)
  = (Ok response, w') ->
  py_getitem response "Attributes" = Ok attributes ->
  py_getitem attributes attribute = Ok (PStr raw) ->
  Fifo.set_queue_attribute connection loads queue_url attribute value true s
  = (Ok (negb (String.eqb (lower (py_str value)) raw)),
     mkSt w' (trace s ++ [GetQueueAttributes queue_url (PList [PStr attribute])])).
Proof.
  intros Hj Hg Hc Ha Hv.
  unfold Fifo.set_queue_attribute. rewrite Hg.
  unfold bind, try_except, request, getitem, lift_res, mret.
  rewrite Hc, Ha, Hv, Hj.
  cbn [fst snd str_ne when negb].
  destruct (String.eqb (lower (py_str value)) raw); reflexivity.
Qed.

(** So a desired [0] is equal to a remote "0" only, and a desired [False]
    to a remote "false" only. *)
Lemma zero_and_false_are_compared queue_url attribute (s : st W)
    response attributes raw w' :
  is_json_attribute attribute = false ->
  connection (GetQueueAttributes queue_url (PList [PStr attribute])) (world s)
  = (Ok response, w') ->
  py_getitem response "Attributes" = Ok attributes ->
  py_getitem attributes attribute = Ok (PStr raw) ->
  fst (Fifo.set_queue_attribute connection loads queue_url attribute (PInt 0) true s)
  = Ok (negb (String.eqb "0" raw))
  /\ fst (Fifo.set_queue_attribute connection loads queue_url attribute (PBool false) true s)
     = Ok (negb (String.eqb "false" raw)).
Proof.
  intros Hj Hc Ha Hv. split.
  - erewrite set_queue_attribute_scalar by (eassumption || reflexivity). reflexivity.
  - erewrite set_queue_attribute_scalar by (eassumption || reflexivity). reflexivity.
Qed.

End Guard.

(** C4, as the claim states it, fails: a desired value of zero is not
    skipped.  With [VisibilityTimeout] at "30" remotely and a desired value
    of [0], the comparator of [src/sqs_queue/sqs_queue.py] reads the
    attribute, writes "0" and answers [True]; it neither answers [False]
    nor leaves the trace empty. *)
Lemma C4_zero_is_compared_and_written :
  Fifo.set_queue_attribute Sqs.service json_loads Scenario.orders_url "VisibilityTimeout"
    (PInt 0) false (Sqs.start Scenario.orders)
  = (Ok true,
     mkSt [("orders", Sqs.write "VisibilityTimeout" "0" (Sqs.default_attributes "orders"))]
          [ GetQueueAttributes Scenario.orders_url (PList [PStr "VisibilityTimeout"]);
            SetQueueAttributes Scenario.orders_url "VisibilityTimeout" "0" ])
  /\ Fifo.set_queue_attribute Sqs.service json_loads Scenario.orders_url "VisibilityTimeout"
       (PInt 0) false (Sqs.start Scenario.orders)
     <> (Ok false, Sqs.start Scenario.orders).
Proof. split; [vm_compute; reflexivity | vm_compute; discriminate]. Qed.

(** The same for [False]: against a remote "true" the desired [False] is
    written. *)
Lemma false_is_compared_and_written :
  let qs := [("orders.fifo",
              Sqs.write "ContentBasedDeduplication" "true"
                        (Sqs.new_attributes "orders.fifo" [("FifoQueue", "True")]))] in
  fst (Fifo.set_queue_attribute Sqs.service json_loads (Sqs.url_of "orders.fifo")
         "ContentBasedDeduplication" (PBool false) false (Sqs.start qs))
  = Ok true
  /\ trace (snd (Fifo.set_queue_attribute Sqs.service json_loads (Sqs.url_of "orders.fifo")
                   "ContentBasedDeduplication" (PBool false) false (Sqs.start qs)))
     = [ GetQueueAttributes (Sqs.url_of "orders.fifo") (PList [PStr "ContentBasedDeduplication"]);
         SetQueueAttributes (Sqs.url_of "orders.fifo") "ContentBasedDeduplication" "False" ].
Proof. split; vm_compute; reflexivity. Qed.

(* ===================================================================== *)
(** * A remote document that does not parse *)
(* ===================================================================== *)

(** C7, as the claim states it, fails.  With the remote [Policy] string
    "not json" the comparator of [src/sqs_queue/sqs_queue.py] does not go on
    as if the attribute were unset (which, as on the queue without a
    policy, would be a write and the answer [True]): [json.loads] raises
    [ValueError] outside every [try], the comparator raises it after the
    read, and [main] ends with that exception uncaught, since its handler
    is for [ClientError] only. *)
Lemma C7_unparsable_policy_is_an_uncaught_error :
  json_loads "not json" = None
  /\ Fifo.set_queue_attribute Sqs.service json_loads Scenario.orders_url "Policy"
       (PDict Scenario.redrive_policy) false (Sqs.start Scenario.orders_with_broken_policy)
     = (Raise ValueError,
        mkSt Scenario.orders_with_broken_policy
             [GetQueueAttributes Scenario.orders_url (PList [PStr "Policy"])])
  /\ fst (Fifo.set_queue_attribute Sqs.service json_loads Scenario.orders_url "Policy"
            (PDict Scenario.redrive_policy) false (Sqs.start Scenario.orders))
     = Ok true
  /\ fst (Scenario.run Scenario.with_policy false Scenario.orders_with_broken_policy)
     = Uncaught ValueError.
Proof. repeat split; vm_compute; reflexivity. Qed.

(** For a JSON-document attribute and a non-empty desired dictionary, when
    the read returns a non-empty raw string on which [json.loads] raises,
    the comparator of [src/sqs_queue/sqs_queue.py] raises [ValueError]
    right after the read: it issues no write and returns no answer. *)
Lemma unparsable_remote_document_raises :
  forall (W : Type) (connection : call -> W -> res pyval * W)
         (loads : string -> option pyval) (queue_url : pyval) (attribute : string)
         (d : list (string * pyval)) (check_mode : bool) (s : st W)
         (response attributes : pyval) (raw : string) (w' : W),
    is_json_attribute attribute = true ->
    d <> [] ->
    connection (GetQueueAttributes queue_url (PList [PStr attribute])) (world s)
    = (Ok response, w') ->
    py_getitem response "Attributes" = Ok attributes ->
    py_getitem attributes attribute = Ok (PStr raw) ->
    raw <> "" ->
    loads raw = None ->
    Fifo.set_queue_attribute connection loads queue_url attribute (PDict d) check_mode s
    = (Raise ValueError,
       mkSt w' (trace s ++ [GetQueueAttributes queue_url (PList [PStr attribute])])).
Proof.
  intros W connection loads queue_url attribute d check_mode s response attributes raw w'
         Hj Hd Hc Ha Hv Hraw Hl.
  unfold Fifo.set_queue_attribute.
  destruct d as [| kv d]; [congruence |]. simpl.
  unfold bind, try_except, request, getitem, lift_res.
  rewrite Hc, Ha, Hv, Hj. simpl.
  destruct (String.eqb raw "") eqn:E.
  - apply String.eqb_eq in E. congruence.
  - simpl. rewrite Hl. reflexivity.
Qed.

(** The earlier variant behaves alike on a raw string found at the top of
    the response. *)
Lemma legacy_unparsable_remote_document_raises :
  forall (W : Type) (connection : call -> W -> res pyval * W)
         (loads : string -> option pyval) (queue_url : pyval) (attribute : string)
         (d : list (string * pyval)) (check_mode : bool) (s : st W)
         (response : pyval) (raw : string) (w' : W),
    is_json_attribute attribute = true ->
    d <> [] ->
    connection (GetQueueAttributes queue_url (PStr attribute)) (world s)
    = (Ok response, w') ->
    py_getitem response attribute = Ok (PStr raw) ->
    raw <> "" ->
    loads raw = None ->
    Legacy.set_queue_attribute connection loads queue_url attribute (PDict d) check_mode s
    = (Raise ValueError,
       mkSt w' (trace s ++ [GetQueueAttributes queue_url (PStr attribute)])).
Proof.
  intros W connection loads queue_url attribute d check_mode s response raw w'
         Hj Hd Hc Hv Hraw Hl.
  unfold Legacy.set_queue_attribute.
  destruct d as [| kv d]; [congruence |]. simpl.
  unfold bind, try_except, request, getitem, lift_res.
  rewrite Hc, Hv, Hj. simpl.
  destruct (String.eqb raw "") eqn:E.
  - apply String.eqb_eq in E. congruence.
  - simpl. rewrite Hl. reflexivity.
Qed.

(** What the guard [if existing_value] does cover: an empty raw string is
    not parsed, and the desired document, which never serialises to the
    empty string, is reported as different. *)
Lemma empty_remote_document_is_different :
  forall (W : Type) (connection : call -> W -> res pyval * W)
         (loads : string -> option pyval) (queue_url : pyval) (attribute : string)
         (d : list (string * pyval)) (s : st W) (e : exn) (w' : W),
    is_json_attribute attribute = true ->
    d <> [] ->
    connection (GetQueueAttributes queue_url (PList [PStr attribute])) (world s)
    = (Raise e, w') ->
    Fifo.set_queue_attribute connection loads queue_url attribute (PDict d) true s
    = (Ok true,
       mkSt w' (trace s ++ [GetQueueAttributes queue_url (PList [PStr attribute])])).
Proof.
  intros W connection loads queue_url attribute d s e w' Hj Hd Hc.
  unfold Fifo.set_queue_attribute.
  destruct d as [| kv d]; [congruence |]. simpl.
  unfold bind, try_except, request, getitem, lift_res.
  rewrite Hc, Hj. simpl. reflexivity.
Qed.

(* ===================================================================== *)
(** * The name of a FIFO queue *)
(* ===================================================================== *)

(** C8, as the claim states it, fails: for the caller-supplied name
    [orders.fifo] and a FIFO queue, the name that [main] of
    [src/sqs_queue/sqs_queue.py] resolves and creates is
    [orders.fifo.fifo], with the suffix twice. *)
Lemma C8_suffix_is_duplicated :
  let r := Scenario.run (Scenario.plain present "orders.fifo" fifo false) false
                        Scenario.nothing in
  firstn 2 (trace (snd r))
  = [ GetQueueUrl "orders.fifo.fifo";
      CreateQueue "orders.fifo.fifo" [("FifoQueue", "True")] ]
  /\ reported (fst r) "name" = Some (PStr "orders.fifo.fifo")
  /\ map fst (world (snd r)) = ["orders.fifo.fifo"].
Proof. repeat split; vm_compute; reflexivity. Qed.

Section FifoName.

Context {W : Type}.
Variable connection : call -> W -> res pyval * W.
Variable loads : string -> option pyval.

(** The first call of the present path is the look-up of the queue. *)
Lemma create_or_update_body_resolves_first p check_mode :
  starts_with rtrace (GetQueueUrl (Fifo.queue_name p))
    (Fifo.create_or_update_body connection loads p check_mode).
Proof.
  unfold Fifo.create_or_update_body, Fifo.update_with.
  apply starts_with_bind.
  - apply starts_with_try_except.
    + apply starts_with_bind;
        [apply starts_with_lift, request_starts_with |].
      intros a. repeat issues_step.
    + intros e. apply issues_mret.
  - intros existing.
    repeat first
      [ apply request_issues; exact I
      | apply update_sqs_queue_issues; intros; exact I
      | apply report_issues; intros; exact I
      | issues_step ].
Qed.

End FifoName.

(** C8, amended.  For a FIFO queue the name under which
    [create_or_update_sqs_queue] resolves the queue, and under which it
    creates it when it does, is the caller-supplied name followed by
    [.fifo], whatever the caller-supplied name ends with: the look-up of
    that name is the first call, and no later [create_queue] call carries
    another name. *)
Theorem C8_fifo_suffix_is_always_appended :
  forall (W : Type) (connection : call -> W -> res pyval * W)
         (loads : string -> option pyval) (p : params) (check_mode : bool) (s : st W),
    queue_type p = fifo ->
    exists t,
      trace (snd (Fifo.create_or_update_sqs_queue connection loads p check_mode s))
      = trace s ++ GetQueueUrl (name p +:+ ".fifo") :: t
      /\ Forall (fun c => forall n a, c = CreateQueue n a -> n = name p +:+ ".fifo") t.
Proof.
  intros W connection loads p check_mode s Hf.
  assert (Hn : Fifo.queue_name p = name p +:+ ".fifo")
    by (unfold Fifo.queue_name; rewrite Hf; reflexivity).
  unfold Fifo.create_or_update_sqs_queue. rewrite try_ClientError_trace.
  set (result := Fifo.dict_update _ _).
  destruct (create_or_update_body_resolves_first connection loads p check_mode (result, s))
    as [t1 E1].
  destruct (create_or_update_body_issues connection loads
              (fun c => forall n a, c = CreateQueue n a -> n = name p +:+ ".fifo")
              p check_mode) with (s := (result, s)) as [t2 [E2 F2]].
  - discriminate.
  - discriminate.
  - discriminate.
  - intros _ attrs n a E. inversion E. rewrite <- Hn. reflexivity.
  - rewrite Hn in E1. unfold rtrace in *. simpl in *.
    exists t1. split; [exact E1 |].
    rewrite E1 in E2. apply app_inv_head in E2. subst t2.
    inversion F2; assumption.
Qed.

Lemma C8_fifo_suffix_is_always_appended_witness :
  exists t,
    trace (snd (Fifo.create_or_update_sqs_queue Sqs.service json_loads
                  (Scenario.plain present "orders.fifo" fifo false) false
                  (Sqs.start Scenario.nothing)))
    = [] ++ GetQueueUrl ("orders.fifo" +:+ ".fifo") :: t
    /\ Forall (fun c => forall n a, c = CreateQueue n a -> n = "orders.fifo" +:+ ".fifo") t.
Proof.
  apply (C8_fifo_suffix_is_always_appended Sqs.queues Sqs.service json_loads
           (Scenario.plain present "orders.fifo" fifo false) false
           (Sqs.start Scenario.nothing)).
  reflexivity.
Defined.

(* ===================================================================== *)
(** * The deduplication flag on a standard queue *)
(* ===================================================================== *)

(** C9, as the claim states it, fails: with [queue_type: standard] and
    [fifo_content_based_deduplication: true], [main] of
    [src/sqs_queue/sqs_queue.py] rejects nothing.  It looks the queue up,
    creates it, reads it back and exits with [changed] true. *)
Lemma C9_standard_queue_with_flag_is_created :
  let r := Scenario.run (Scenario.plain present "orders" standard true) false
                        Scenario.nothing in
  exits (fst r) = true
  /\ fails (fst r) = false
  /\ reported (fst r) "changed" = Some (PBool true)
  /\ reported (fst r) "msg" = None
  /\ trace (snd r)
     = [ GetQueueUrl "orders"; CreateQueue "orders" [];
         GetQueueAttributes Scenario.orders_url (PList [PStr "All"]) ]
  /\ world (snd r) = Scenario.orders.
Proof. repeat split; vm_compute; reflexivity. Qed.

(** C9, amended.  For a standard queue the deduplication flag is ignored:
    whatever its value, [main] ends in the same way, with the same result,
    the same remote calls and the same remote state. *)
Theorem C9_flag_is_ignored_on_standard_queue :
  forall (W : Type) (connection : call -> W -> res pyval * W)
         (loads : string -> option pyval) (HAS_BOTO3 : bool) (connecting : res unit)
         (p : params) (b : bool) (check_mode : bool) (s : st W),
    queue_type p = standard ->
    Fifo.main connection loads HAS_BOTO3 connecting
      (with_fifo_content_based_deduplication b p) check_mode s
    = Fifo.main connection loads HAS_BOTO3 connecting p check_mode s.
Proof.
  intros W connection loads HAS_BOTO3 connecting p b check_mode s Hq.
  destruct p as [st0 n qt dd a1 a2 a3 a4 a5 a6 a7 rg]. simpl in Hq. subst qt.
  unfold with_fifo_content_based_deduplication. simpl.
  reflexivity.
Qed.

Lemma C9_flag_is_ignored_on_standard_queue_witness :
  Fifo.main Sqs.service json_loads true (Ok tt)
    (with_fifo_content_based_deduplication true
       (Scenario.plain present "orders" standard false))
    false (Sqs.start Scenario.nothing)
  = Fifo.main Sqs.service json_loads true (Ok tt)
      (Scenario.plain present "orders" standard false) false (Sqs.start Scenario.nothing).
Proof.
  apply (C9_flag_is_ignored_on_standard_queue Sqs.queues Sqs.service json_loads true (Ok tt)
           (Scenario.plain present "orders" standard false) true false
           (Sqs.start Scenario.nothing)).
  reflexivity.
Defined.

(* ===================================================================== *)
(** * The absent path of [src/sqs_queue.py] *)
(* ===================================================================== *)

(** C10.  In [src/sqs_queue.py], once boto3 is there and the client is
    built, every invocation with [state: absent] ends with an uncaught
    [NameError] for [delete_sqs_queue]: no remote call is issued, the
    remote state is untouched, and neither [exit_json] nor [fail_json] is
    reached, so no [changed] is ever reported. *)
Theorem C10_legacy_absent_raises_NameError :
  forall (W : Type) (connection : call -> W -> res pyval * W)
         (loads : string -> option pyval) (p : params) (check_mode : bool) (s : st W),
    state p = absent ->
    Legacy.main connection loads true (Ok tt) p check_mode s
    = (Uncaught (NameError "delete_sqs_queue"), s).
Proof.
  intros W connection loads p check_mode s Hs.
  unfold Legacy.main. simpl. rewrite Hs. reflexivity.
Qed.

Lemma C10_legacy_absent_raises_NameError_witness :
  Legacy.main Sqs.service json_loads true (Ok tt)
    (Scenario.plain absent "orders" standard false) false (Sqs.start Scenario.orders)
  = (Uncaught (NameError "delete_sqs_queue"), Sqs.start Scenario.orders).
Proof.
  apply (C10_legacy_absent_raises_NameError Sqs.queues Sqs.service json_loads
           (Scenario.plain absent "orders" standard false) false
           (Sqs.start Scenario.orders)).
  reflexivity.
Defined.

(* ===================================================================== *)
(** * More on the comparator *)
(* ===================================================================== *)

Lemma guard_is_absent_value v :
  negb (py_truthy v) && py_ne_zero v = absent_value v.
Proof.
  destruct v as [| b | z | s | l | d]; simpl; try reflexivity.
  - destruct b; reflexivity.
  - destruct (Z.eqb z 0); reflexivity.
  - destruct (String.eqb s ""); reflexivity.
  - destruct l; reflexivity.
  - destruct d; reflexivity.
Qed.

Lemma normalise_text loads attribute value existing_value v' e' :
  normalise loads attribute value existing_value = Ok (v', e') ->
  py_str v' = written_text attribute value.
Proof.
  unfold normalise, written_text.
  destruct (is_json_attribute attribute).
  - destruct (py_truthy existing_value).
    + destruct existing_value; try discriminate.
      destruct (loads s); [| discriminate]. intros H. inversion H. reflexivity.
    + intros H. inversion H. reflexivity.
  - intros H. inversion H. reflexivity.
Qed.

(** ** Decimal text *)

Lemma lower_append a b : lower (a +:+ b) = lower a +:+ lower b.
Proof. induction a as [| c a IH]; simpl; [reflexivity | rewrite IH; reflexivity]. Qed.

Lemma lower_empty s : lower s = "" -> s = "".
Proof. destruct s; [reflexivity | discriminate]. Qed.

Lemma lower_pretty_N_char d : lower_char (pretty_N_char d) = pretty_N_char d.
Proof. unfold pretty_N_char. repeat case_match; reflexivity. Qed.

Lemma lower_pretty_N_go x : forall s, lower (pretty_N_go x s) = pretty_N_go x (lower s).
Proof.
  induction (N.lt_wf_0 x) as [x _ IH]; intros s.
  destruct (decide (x = 0)%N) as [-> | Hx]; [rewrite !pretty_N_go_0; reflexivity |].
  rewrite (pretty_N_go_step x s), (pretty_N_go_step x (lower s)) by lia.
  rewrite IH by (apply N.div_lt; lia).
  simpl. rewrite lower_pretty_N_char. reflexivity.
Qed.

Lemma pretty_N_go_nonempty x : forall s, s <> "" -> pretty_N_go x s <> "".
Proof.
  induction (N.lt_wf_0 x) as [x _ IH]; intros s Hs.
  destruct (decide (x = 0)%N) as [-> | Hx]; [rewrite pretty_N_go_0; exact Hs |].
  rewrite pretty_N_go_step by lia.
  apply IH; [apply N.div_lt; lia | discriminate].
Qed.

Lemma lower_pretty_N (x : N) : lower (pretty x) = pretty x.
Proof.
  unfold pretty, pretty_N. destruct (decide (x = 0)%N); [reflexivity |].
  apply lower_pretty_N_go.
Qed.

Lemma pretty_N_nonempty (x : N) : pretty x <> "".
Proof.
  unfold pretty, pretty_N. destruct (decide (x = 0)%N); [discriminate |].
  rewrite pretty_N_go_step by lia. apply pretty_N_go_nonempty. discriminate.
Qed.

(** [str(z)] for an integer has no capital letter in it. *)
Lemma lower_pretty_Z (z : Z) : lower (pretty z) = pretty z.
Proof.
  destruct z as [| p | p]; [reflexivity | apply lower_pretty_N |].
  unfold pretty, pretty_Z. rewrite lower_append. f_equal. apply lower_pretty_N.
Qed.

Lemma pretty_Z_nonempty (z : Z) : pretty z <> "".
Proof.
  destruct z as [| p | p]; [discriminate | apply pretty_N_nonempty | discriminate].
Qed.

Lemma json_dumps_nonempty v : json_dumps v <> "".
Proof.
  destruct v as [| b | z | s | l | d]; try discriminate.
  - destruct b; discriminate.
  - apply pretty_Z_nonempty.
Qed.

(** The text of a value that is set is never empty. *)
Lemma written_text_nonempty attribute value :
  absent_value value = false -> written_text attribute value <> "".
Proof.
  unfold written_text. intros Ha.
  destruct (is_json_attribute attribute); [apply json_dumps_nonempty |].
  destruct value as [| b | z | s | l | d]; try discriminate.
  - destruct b; discriminate.
  - apply pretty_Z_nonempty.
  - simpl in *. destruct (String.eqb_spec s ""); [discriminate | assumption].
Qed.

Section ComparatorShape.

Context {W : Type}.
Variable connection : call -> W -> res pyval * W.
Variable loads : string -> option pyval.

(** The comparator of [src/sqs_queue/sqs_queue.py] in three steps: the
    read, the conversion, and the comparison with the write. *)
Lemma set_queue_attribute_steps queue_url attribute value check_mode (s : st W) :
  absent_value value = false ->
  Fifo.set_queue_attribute connection loads queue_url attribute value check_mode s
  = let read := GetQueueAttributes queue_url (PList [PStr attribute]) in
    let s1 := mkSt (snd (connection read (world s))) (trace s ++ [read]) in
    match normalise loads attribute value
            (existing_of (fst (connection read (world s))) attribute) with
    | Raise e => (Raise e, s1)
    | Ok ve =>
        if str_ne (lower (py_str (fst ve))) (snd ve) then
          if check_mode then (Ok true, s1)
          else
            let write := SetQueueAttributes queue_url attribute (py_str (fst ve)) in
            (match fst (connection write (world s1)) with
             | Ok _ => Ok true
             | Raise e => Raise e
             end,
             mkSt (snd (connection write (world s1))) (trace s1 ++ [write]))
        else (Ok false, s1)
    end.
Proof.
  intros Ha. unfold Fifo.set_queue_attribute.
  rewrite guard_is_absent_value, Ha. cbv zeta.
  set (read := GetQueueAttributes queue_url (PList [PStr attribute])).
  assert (Hread :
            try_except
              (response <- request connection read;;
               attributes <- getitem response "Attributes";;
               getitem attributes attribute)
              (fun _ => mret (PStr "")) s
            = (Ok (existing_of (fst (connection read (world s))) attribute),
               mkSt (snd (connection read (world s))) (trace s ++ [read]))).
  { unfold try_except, bind, request, getitem, lift_res, existing_of, read_value, mret.
    destruct (connection read (world s)) as [[response | e] w']; cbn [fst snd];
      [| reflexivity].
    destruct (py_getitem response "Attributes") as [attributes | e]; [| reflexivity].
    destruct (py_getitem attributes attribute); reflexivity. }
  unfold bind at 1. rewrite Hread. clear Hread.
  generalize (existing_of (fst (connection read (world s))) attribute) as existing.
  generalize (mkSt (snd (connection read (world s))) (trace s ++ [read])) as s1.
  intros s1 existing.
  unfold normalise, bind, json_loads_of, request, when, mret, raise.
  destruct (is_json_attribute attribute).
  - destruct (py_truthy existing).
    + destruct existing as [| b | z | raw | l | d]; try reflexivity.
      destruct (loads raw) as [parsed |]; [| reflexivity].
      cbn [fst snd].
      destruct (str_ne _ _); [| reflexivity].
      destruct check_mode; cbn [negb]; [reflexivity |].
      destruct (connection _ (world s1)) as [[r2 | e2] w2]; reflexivity.
    + cbn [fst snd].
      destruct (str_ne _ _); [| reflexivity].
      destruct check_mode; cbn [negb]; [reflexivity |].
      destruct (connection _ (world s1)) as [[r2 | e2] w2]; reflexivity.
  - cbn [fst snd].
    destruct (str_ne _ _); [| reflexivity].
    destruct check_mode; cbn [negb]; [reflexivity |].
    destruct (connection _ (world s1)) as [[r2 | e2] w2]; reflexivity.
Qed.

(** X1.  One call of the comparator of [src/sqs_queue/sqs_queue.py] issues
    at most one read and at most one write, both for the queue and the
    attribute it is given, and never a write without the read before it:
    it adds to the trace nothing, or the read, or (outside check mode
    only) the read followed by the write of the text of the desired
    value. *)
Theorem set_queue_attribute_calls queue_url attribute value check_mode (s : st W) :
  let read := GetQueueAttributes queue_url (PList [PStr attribute]) in
  let write := SetQueueAttributes queue_url attribute (written_text attribute value) in
  exists t,
    trace (snd (Fifo.set_queue_attribute connection loads queue_url attribute value
                  check_mode s))
    = trace s ++ t
    /\ (t = [] \/ t = [read] \/ (check_mode = false /\ t = [read; write])).
Proof.
  cbv zeta. destruct (absent_value value) eqn:Ha.
  - unfold Fifo.set_queue_attribute. rewrite guard_is_absent_value, Ha.
    exists []. simpl. rewrite app_nil_r. auto.
  - rewrite set_queue_attribute_steps by exact Ha. cbv zeta.
    destruct (normalise _ _ _ _) as [[v' e'] | e] eqn:Hn.
    + cbn [fst snd]. rewrite (normalise_text _ _ _ _ _ _ Hn).
      destruct (str_ne _ _).
      * destruct check_mode.
        -- eexists. split; [reflexivity | auto].
        -- eexists. split; [cbn [trace]; rewrite <- app_assoc; reflexivity | auto].
      * eexists. split; [reflexivity | auto].
    + eexists. split; [reflexivity | auto].
Qed.

(** X2.  Check mode predicts the run.  When the comparator answers [True]
    in check mode, the run outside check mode is that same run followed by
    the one write, whose exception, if any, it raises; in every other case
    (the answer [False], or an error) the two runs are the same. *)
Theorem check_mode_predicts_set_queue_attribute
    queue_url attribute value (s : st W) :
  let dry :=
    Fifo.set_queue_attribute connection loads queue_url attribute value true s in
  let write := SetQueueAttributes queue_url attribute (written_text attribute value) in
  Fifo.set_queue_attribute connection loads queue_url attribute value false s
  = match fst dry with
    | Ok true => (_ <- request connection write;; mret true) (snd dry)
    | _ => dry
    end.
Proof.
  cbv zeta. destruct (absent_value value) eqn:Ha.
  - unfold Fifo.set_queue_attribute. rewrite guard_is_absent_value, Ha. reflexivity.
  - rewrite !set_queue_attribute_steps by exact Ha. cbv zeta.
    destruct (normalise _ _ _ _) as [[v' e'] | e] eqn:Hn; [| reflexivity].
    cbn [fst snd]. rewrite (normalise_text _ _ _ _ _ _ Hn).
    destruct (str_ne _ _); [| reflexivity].
    cbn [fst snd]. unfold bind, request, mret. cbn [world trace].
    destruct (connection (SetQueueAttributes _ _ _) _) as [[r2 | e2] w2]; reflexivity.
Qed.

(** X3.  An attribute that cannot be read counts as empty.  When the read
    raises, or the response has no ['Attributes'] entry or no entry for
    the attribute in it, a desired value that is set is reported as
    changed, and outside check mode it is written. *)
Theorem unreadable_attribute_is_written
    queue_url attribute value (s : st W) e :
  absent_value value = false ->
  read_value
    (fst (connection (GetQueueAttributes queue_url (PList [PStr attribute])) (world s)))
    attribute
  = Raise e ->
  let read := GetQueueAttributes queue_url (PList [PStr attribute]) in
  let write := SetQueueAttributes queue_url attribute (written_text attribute value) in
  Fifo.set_queue_attribute connection loads queue_url attribute value true s
  = (Ok true, mkSt (snd (connection read (world s))) (trace s ++ [read]))
  /\ trace (snd (Fifo.set_queue_attribute connection loads queue_url attribute value
                   false s))
     = trace s ++ [read; write].
Proof.
  intros Ha Hr. cbv zeta.
  rewrite !set_queue_attribute_steps by exact Ha. cbv zeta.
  unfold existing_of. rewrite Hr.
  assert (Hn : normalise loads attribute value (PStr "")
               = Ok (if is_json_attribute attribute then PStr (json_dumps value) else value,
                     PStr "")).
  { unfold normalise. destruct (is_json_attribute attribute); reflexivity. }
  rewrite Hn. cbn [fst snd str_ne]. rewrite (normalise_text _ _ _ _ _ _ Hn).
  assert (Hne : String.eqb (lower (written_text attribute value)) "" = false).
  { destruct (String.eqb_spec (lower (written_text attribute value)) "") as [E |]; [| reflexivity].
    apply lower_empty in E. exfalso. eapply written_text_nonempty; eauto. }
  rewrite Hne. cbn [negb trace]. split; [reflexivity |].
  rewrite <- app_assoc. reflexivity.
Qed.

(** X4.  For a JSON-document attribute the comparator does not depend on
    the order in which the desired dictionary holds its members: two
    dictionaries with the same members give the same answer, the same
    calls and the same remote state. *)
Theorem desired_key_order_is_irrelevant
    queue_url attribute (d1 d2 : list (string * pyval)) check_mode (s : st W) :
  is_json_attribute attribute = true ->
  Permutation d1 d2 ->
  NoDup (map fst d1) ->
  Fifo.set_queue_attribute connection loads queue_url attribute (PDict d1) check_mode s
  = Fifo.set_queue_attribute connection loads queue_url attribute (PDict d2) check_mode s.
Proof.
  intros Hj HP ND.
  destruct d1 as [| kv1 d1].
  { apply Permutation_nil in HP. subst d2. reflexivity. }
  destruct d2 as [| kv2 d2].
  { apply Permutation_sym, Permutation_nil in HP. discriminate. }
  rewrite !set_queue_attribute_steps by reflexivity. cbv zeta.
  assert (Hn : forall ex, normalise loads attribute (PDict (kv1 :: d1)) ex
                          = normalise loads attribute (PDict (kv2 :: d2)) ex).
  { intros ex. unfold normalise. rewrite Hj.
    rewrite (json_dumps_key_order _ _ HP ND). reflexivity. }
  rewrite Hn. reflexivity.
Qed.

(** X5.  An integer attribute is compared as its decimal text, which the
    lower-casing leaves alone: in check mode the answer is whether the raw
    string read differs from [str(z)], and when they are equal the
    comparator answers [False] after the read, in and out of check mode,
    without a write. *)
Theorem integer_is_compared_as_decimal_text
    queue_url attribute (z : Z) check_mode (s : st W) raw :
  is_json_attribute attribute = false ->
  read_value
    (fst (connection (GetQueueAttributes queue_url (PList [PStr attribute])) (world s)))
    attribute
  = Ok (PStr raw) ->
  let read := GetQueueAttributes queue_url (PList [PStr attribute]) in
  let s1 := mkSt (snd (connection read (world s))) (trace s ++ [read]) in
  Fifo.set_queue_attribute connection loads queue_url attribute (PInt z) true s
  = (Ok (negb (String.eqb (pretty z) raw)), s1)
  /\ (raw = pretty z ->
      Fifo.set_queue_attribute connection loads queue_url attribute (PInt z) check_mode s
      = (Ok false, s1)).
Proof.
  intros Hj Hr. cbv zeta.
  rewrite !set_queue_attribute_steps by reflexivity. cbv zeta.
  unfold existing_of, normalise. rewrite Hr, Hj. cbn [fst snd py_str py_repr str_ne].
  rewrite lower_pretty_Z. split.
  - destruct (String.eqb (pretty z) raw); reflexivity.
  - intros ->. rewrite String.eqb_refl. reflexivity.
Qed.

(** X6.  A boolean attribute is compared in lower case and written with a
    capital: in check mode a desired [True] differs from every raw string
    but "true" and a desired [False] from every raw string but "false",
    whereas the text that is written is "True" or "False". *)
Theorem boolean_is_compared_in_lower_case
    queue_url attribute (b : bool) (s : st W) raw :
  is_json_attribute attribute = false ->
  read_value
    (fst (connection (GetQueueAttributes queue_url (PList [PStr attribute])) (world s)))
    attribute
  = Ok (PStr raw) ->
  let read := GetQueueAttributes queue_url (PList [PStr attribute]) in
  let s1 := mkSt (snd (connection read (world s))) (trace s ++ [read]) in
  Fifo.set_queue_attribute connection loads queue_url attribute (PBool b) true s
  = (Ok (negb (String.eqb (if b then "true" else "false") raw)), s1)
  /\ (raw <> (if b then "true" else "false") ->
      trace (snd (Fifo.set_queue_attribute connection loads queue_url attribute
                    (PBool b) false s))
      = trace s ++ [read; SetQueueAttributes queue_url attribute
                            (if b then "True" else "False")]).
Proof.
  intros Hj Hr. cbv zeta.
  rewrite !set_queue_attribute_steps by reflexivity. cbv zeta.
  unfold existing_of, normalise. rewrite Hr, Hj.
  destruct b; cbn [fst snd py_str py_repr str_ne].
  - change (lower "True") with "true". split.
    + destruct (String.eqb "true" raw); reflexivity.
    + intros Hne. destruct (String.eqb_spec "true" raw) as [E | _]; [congruence |].
      cbn [negb snd trace]. rewrite <- app_assoc. reflexivity.
  - change (lower "False") with "false". split.
    + destruct (String.eqb "false" raw); reflexivity.
    + intros Hne. destruct (String.eqb_spec "false" raw) as [E | _]; [congruence |].
      cbn [negb snd trace]. rewrite <- app_assoc. reflexivity.
Qed.

(** X7.  When the raw string read for a JSON-document attribute denotes
    the desired document (it parses to a value that serialises to the same
    text with sorted keys), the answer in check mode is whether that text
    changes under lower-casing: [False] for a document without capital
    letters, [True] for every other. *)
Theorem same_document_answer
    queue_url attribute (d : list (string * pyval)) (s : st W) raw v :
  is_json_attribute attribute = true ->
  d <> [] ->
  read_value
    (fst (connection (GetQueueAttributes queue_url (PList [PStr attribute])) (world s)))
    attribute
  = Ok (PStr raw) ->
  raw <> "" ->
  loads raw = Some v ->
  json_dumps v = json_dumps (PDict d) ->
  let read := GetQueueAttributes queue_url (PList [PStr attribute]) in
  let text := json_dumps (PDict d) in
  Fifo.set_queue_attribute connection loads queue_url attribute (PDict d) true s
  = (Ok (negb (String.eqb (lower text) text)),
     mkSt (snd (connection read (world s))) (trace s ++ [read])).
Proof.
  intros Hj Hd Hr Hraw Hl He. cbv zeta.
  destruct d as [| kv d]; [congruence |].
  rewrite set_queue_attribute_steps by reflexivity. cbv zeta.
  unfold existing_of, normalise. rewrite Hr, Hj.
  cbn [py_truthy].
  destruct (String.eqb_spec raw "") as [E | _]; [congruence |].
  cbn [negb]. rewrite Hl. cbn [fst snd py_str str_ne]. rewrite He.
  destruct (String.eqb _ _); reflexivity.
Qed.

End ComparatorShape.

(** Witnesses, against the queue service of the scenarios. *)

Lemma unreadable_attribute_is_written_witness :
  let read := GetQueueAttributes Scenario.orders_url (PList [PStr "RedrivePolicy"]) in
  let write := SetQueueAttributes Scenario.orders_url "RedrivePolicy"
                 (written_text "RedrivePolicy" (PDict Scenario.redrive_policy)) in
  Fifo.set_queue_attribute Sqs.service json_loads Scenario.orders_url "RedrivePolicy"
    (PDict Scenario.redrive_policy) true (Sqs.start Scenario.orders)
  = (Ok true,
     mkSt (snd (Sqs.service read (world (Sqs.start Scenario.orders))))
          (trace (Sqs.start Scenario.orders) ++ [read]))
  /\ trace (snd (Fifo.set_queue_attribute Sqs.service json_loads Scenario.orders_url
                   "RedrivePolicy" (PDict Scenario.redrive_policy) false
                   (Sqs.start Scenario.orders)))
     = trace (Sqs.start Scenario.orders) ++ [read; write].
Proof.
  apply (unreadable_attribute_is_written Sqs.service json_loads Scenario.orders_url
           "RedrivePolicy" (PDict Scenario.redrive_policy) (Sqs.start Scenario.orders)
           (KeyError "Attributes")).
  - reflexivity.
  - vm_compute. reflexivity.
Defined.

Lemma desired_key_order_is_irrelevant_witness :
  Fifo.set_queue_attribute Sqs.service json_loads Scenario.orders_url "RedrivePolicy"
    (PDict Scenario.redrive_policy) false (Sqs.start Scenario.orders)
  = Fifo.set_queue_attribute Sqs.service json_loads Scenario.orders_url "RedrivePolicy"
      (PDict (rev Scenario.redrive_policy)) false (Sqs.start Scenario.orders).
Proof.
  apply (desired_key_order_is_irrelevant Sqs.service json_loads Scenario.orders_url
           "RedrivePolicy" Scenario.redrive_policy (rev Scenario.redrive_policy) false
           (Sqs.start Scenario.orders)).
  - reflexivity.
  - apply Permutation_rev.
  - apply (bool_decide_unpack _). vm_compute. reflexivity.
Defined.

Lemma integer_is_compared_as_decimal_text_witness :
  let read := GetQueueAttributes Scenario.orders_url (PList [PStr "VisibilityTimeout"]) in
  let s1 := mkSt (snd (Sqs.service read (world (Sqs.start Scenario.orders))))
                 (trace (Sqs.start Scenario.orders) ++ [read]) in
  Fifo.set_queue_attribute Sqs.service json_loads Scenario.orders_url "VisibilityTimeout"
    (PInt 30) true (Sqs.start Scenario.orders)
  = (Ok (negb (String.eqb (pretty 30%Z) "30")), s1)
  /\ ("30" = pretty 30%Z ->
      Fifo.set_queue_attribute Sqs.service json_loads Scenario.orders_url
        "VisibilityTimeout" (PInt 30) false (Sqs.start Scenario.orders)
      = (Ok false, s1)).
Proof.
  apply (integer_is_compared_as_decimal_text Sqs.service json_loads Scenario.orders_url
           "VisibilityTimeout" 30%Z false (Sqs.start Scenario.orders) "30").
  - reflexivity.
  - vm_compute. reflexivity.
Defined.

Lemma boolean_is_compared_in_lower_case_witness :
  let qs := [("orders.fifo", Sqs.new_attributes "orders.fifo" [("FifoQueue", "True")])] in
  let url := Sqs.url_of "orders.fifo" in
  let read := GetQueueAttributes url (PList [PStr "ContentBasedDeduplication"]) in
  let s1 := mkSt (snd (Sqs.service read (world (Sqs.start qs))))
                 (trace (Sqs.start qs) ++ [read]) in
  Fifo.set_queue_attribute Sqs.service json_loads url "ContentBasedDeduplication"
    (PBool true) true (Sqs.start qs)
  = (Ok (negb (String.eqb "true" "false")), s1)
  /\ ("false" <> "true" ->
      trace (snd (Fifo.set_queue_attribute Sqs.service json_loads url
                    "ContentBasedDeduplication" (PBool true) false (Sqs.start qs)))
      = trace (Sqs.start qs)
        ++ [read; SetQueueAttributes url "ContentBasedDeduplication" "True"]).
Proof.
  cbv zeta.
  apply (boolean_is_compared_in_lower_case Sqs.service json_loads
           (Sqs.url_of "orders.fifo") "ContentBasedDeduplication" true
           (Sqs.start [("orders.fifo",
                        Sqs.new_attributes "orders.fifo" [("FifoQueue", "True")])])
           "false").
  - reflexivity.
  - vm_compute. reflexivity.
Defined.

Lemma same_document_answer_witness :
  let read := GetQueueAttributes Scenario.orders_url (PList [PStr "RedrivePolicy"]) in
  let text := json_dumps (PDict Scenario.redrive_policy) in
  Fifo.set_queue_attribute Sqs.service json_loads Scenario.orders_url "RedrivePolicy"
    (PDict Scenario.redrive_policy) true (Sqs.start Scenario.orders_with_redrive)
  = (Ok (negb (String.eqb (lower text) text)),
     mkSt (snd (Sqs.service read (world (Sqs.start Scenario.orders_with_redrive))))
          (trace (Sqs.start Scenario.orders_with_redrive) ++ [read])).
Proof.
  apply (same_document_answer Sqs.service json_loads Scenario.orders_url "RedrivePolicy"
           Scenario.redrive_policy (Sqs.start Scenario.orders_with_redrive)
           Scenario.remote_redrive_policy
           (PDict (rev Scenario.redrive_policy))).
  - reflexivity.
  - discriminate.
  - vm_compute. reflexivity.
  - discriminate.
  - vm_compute. reflexivity.
  - vm_compute. reflexivity.
Defined.

(* ===================================================================== *)
(** * The comparator of [src/sqs_queue.py] *)
(* ===================================================================== *)

Section LegacyComparator.

Context {W : Type}.
Variable connection : call -> W -> res pyval * W.
Variable loads : string -> option pyval.

Lemma legacy_set_queue_attribute_steps queue_url attribute value check_mode (s : st W) :
  absent_value value = false ->
  Legacy.set_queue_attribute connection loads queue_url attribute value check_mode s
  = let read := GetQueueAttributes queue_url (PStr attribute) in
    let s1 := mkSt (snd (connection read (world s))) (trace s ++ [read]) in
    match normalise loads attribute value
            (legacy_existing_of (fst (connection read (world s))) attribute) with
    | Raise e => (Raise e, s1)
    | Ok ve =>
        if str_ne (py_str (fst ve)) (snd ve) then
          if check_mode then (Ok true, s1)
          else
            let write := SetQueueAttributes queue_url attribute (py_str (fst ve)) in
            (match fst (connection write (world s1)) with
             | Ok _ => Ok true
             | Raise e => Raise e
             end,
             mkSt (snd (connection write (world s1))) (trace s1 ++ [write]))
        else (Ok false, s1)
    end.
Proof.
  intros Ha. unfold Legacy.set_queue_attribute.
  rewrite guard_is_absent_value, Ha. cbv zeta.
  set (read := GetQueueAttributes queue_url (PStr attribute)).
  assert (Hread :
            try_except
              (response <- request connection read;;
               getitem response attribute)
              (fun _ => mret (PStr "")) s
            = (Ok (legacy_existing_of (fst (connection read (world s))) attribute),
               mkSt (snd (connection read (world s))) (trace s ++ [read]))).
  { unfold try_except, bind, request, getitem, lift_res, legacy_existing_of,
      legacy_read_value, mret.
    destruct (connection read (world s)) as [[response | e] w']; cbn [fst snd];
      [| reflexivity].
    destruct (py_getitem response attribute); reflexivity. }
  unfold bind at 1. rewrite Hread. clear Hread.
  generalize (legacy_existing_of (fst (connection read (world s))) attribute) as existing.
  generalize (mkSt (snd (connection read (world s))) (trace s ++ [read])) as s1.
  intros s1 existing.
  unfold normalise, bind, json_loads_of, request, when, mret, raise.
  destruct (is_json_attribute attribute).
  - destruct (py_truthy existing).
    + destruct existing as [| b | z | raw | l | d]; try reflexivity.
      destruct (loads raw) as [parsed |]; [| reflexivity].
      cbn [fst snd].
      destruct (str_ne _ _); [| reflexivity].
      destruct check_mode; cbn [negb]; [reflexivity |].
      destruct (connection _ (world s1)) as [[r2 | e2] w2]; reflexivity.
    + cbn [fst snd].
      destruct (str_ne _ _); [| reflexivity].
      destruct check_mode; cbn [negb]; [reflexivity |].
      destruct (connection _ (world s1)) as [[r2 | e2] w2]; reflexivity.
  - cbn [fst snd].
    destruct (str_ne _ _); [| reflexivity].
    destruct check_mode; cbn [negb]; [reflexivity |].
    destruct (connection _ (world s1)) as [[r2 | e2] w2]; reflexivity.
Qed.

(** X8.  The comparator of [src/sqs_queue.py] passes the attribute name
    itself for [AttributeNames] and looks the attribute up at the top of
    the response.  Whenever that read raises or the response has no such
    top-level entry, a desired value that is set is reported as changed
    and, outside check mode, written again, whatever the queue holds. *)
Theorem legacy_unreadable_attribute_is_written
    queue_url attribute value (s : st W) e :
  absent_value value = false ->
  legacy_read_value
    (fst (connection (GetQueueAttributes queue_url (PStr attribute)) (world s)))
    attribute
  = Raise e ->
  let read := GetQueueAttributes queue_url (PStr attribute) in
  let write := SetQueueAttributes queue_url attribute (written_text attribute value) in
  Legacy.set_queue_attribute connection loads queue_url attribute value true s
  = (Ok true, mkSt (snd (connection read (world s))) (trace s ++ [read]))
  /\ trace (snd (Legacy.set_queue_attribute connection loads queue_url attribute value
                   false s))
     = trace s ++ [read; write].
Proof.
  intros Ha Hr. cbv zeta.
  rewrite !legacy_set_queue_attribute_steps by exact Ha. cbv zeta.
  unfold legacy_existing_of. rewrite Hr.
  assert (Hn : normalise loads attribute value (PStr "")
               = Ok (if is_json_attribute attribute then PStr (json_dumps value) else value,
                     PStr "")).
  { unfold normalise. destruct (is_json_attribute attribute); reflexivity. }
  rewrite Hn. cbn [fst snd str_ne]. rewrite (normalise_text _ _ _ _ _ _ Hn).
  assert (Hne : String.eqb (written_text attribute value) "" = false).
  { destruct (String.eqb_spec (written_text attribute value) "") as [E |]; [| reflexivity].
    exfalso. eapply written_text_nonempty; eauto. }
  rewrite Hne. cbn [negb trace]. split; [reflexivity |].
  rewrite <- app_assoc. reflexivity.
Qed.

End LegacyComparator.

Lemma legacy_unreadable_attribute_is_written_witness :
  let read := GetQueueAttributes Scenario.orders_url (PStr "VisibilityTimeout") in
  let write := SetQueueAttributes Scenario.orders_url "VisibilityTimeout"
                 (written_text "VisibilityTimeout" (PInt 30)) in
  Legacy.set_queue_attribute Sqs.service json_loads Scenario.orders_url "VisibilityTimeout"
    (PInt 30) true (Sqs.start Scenario.orders)
  = (Ok true,
     mkSt (snd (Sqs.service read (world (Sqs.start Scenario.orders))))
          (trace (Sqs.start Scenario.orders) ++ [read]))
  /\ trace (snd (Legacy.set_queue_attribute Sqs.service json_loads Scenario.orders_url
                   "VisibilityTimeout" (PInt 30) false (Sqs.start Scenario.orders)))
     = trace (Sqs.start Scenario.orders) ++ [read; write].
Proof.
  apply (legacy_unreadable_attribute_is_written Sqs.service json_loads Scenario.orders_url
           "VisibilityTimeout" (PInt 30) (Sqs.start Scenario.orders)
           (BotoCoreError "ParamValidationError")).
  - reflexivity.
  - vm_compute. reflexivity.
Defined.

(* ===================================================================== *)
(** * More on the synchronizer *)
(* ===================================================================== *)

Section Synchronizer.

Context {W : Type}.
Variable connection : call -> W -> res pyval * W.
Variable loads : string -> option pyval.

(** The calls of the comparator, told apart by whether the value is set. *)
Lemma set_queue_attribute_issues_when_set (P : call -> Prop)
    queue_url attribute value check_mode :
  (absent_value value = false ->
   P (GetQueueAttributes queue_url (PList [PStr attribute]))) ->
  (absent_value value = false -> check_mode = false ->
   P (SetQueueAttributes queue_url attribute (written_text attribute value))) ->
  issues trace P
    (Fifo.set_queue_attribute connection loads queue_url attribute value check_mode).
Proof.
  intros HG HS s. destruct (absent_value value) eqn:Ha.
  - unfold Fifo.set_queue_attribute. rewrite guard_is_absent_value, Ha.
    exists []. simpl. rewrite app_nil_r. auto.
  - rewrite set_queue_attribute_steps by exact Ha. cbv zeta.
    destruct (normalise _ _ _ _) as [[v' e'] | e] eqn:Hn.
    + cbn [fst snd]. rewrite (normalise_text _ _ _ _ _ _ Hn).
      destruct (str_ne _ _).
      * destruct check_mode.
        -- eexists. split; [reflexivity | auto].
        -- eexists. split; [cbn [trace]; rewrite <- app_assoc; reflexivity |].
           constructor; [auto |]. constructor; auto.
      * eexists. split; [reflexivity | auto].
    + eexists. split; [reflexivity | auto].
Qed.

(** In check mode the comparator adds the read of a value that is set, and
    nothing else, whatever it answers. *)
Lemma set_queue_attribute_check_mode_trace queue_url attribute value (s : st W) :
  trace (snd (Fifo.set_queue_attribute connection loads queue_url attribute value true s))
  = trace s
    ++ (if absent_value value then []
        else [GetQueueAttributes queue_url (PList [PStr attribute])]).
Proof.
  destruct (absent_value value) eqn:Ha.
  - unfold Fifo.set_queue_attribute. rewrite guard_is_absent_value, Ha.
    simpl. rewrite app_nil_r. reflexivity.
  - rewrite set_queue_attribute_steps by exact Ha. cbv zeta.
    destruct (normalise _ _ _ _) as [[v' e'] | e]; [| reflexivity].
    destruct (str_ne _ _); reflexivity.
Qed.

(** X9.  The synchronizer of [src/sqs_queue/sqs_queue.py] leaves alone
    every attribute whose desired value is not set: each call it issues is
    the read of one of the eight managed attributes whose desired value is
    set or, outside check mode only, the write of the text of that value,
    and each goes to the queue it was given. *)
Theorem update_sqs_queue_touches_set_attributes_only
    queue_url check_mode a1 a2 a3 a4 a5 a6 a7 a8 (s : st W) :
  exists t,
    trace (snd (Fifo.update_sqs_queue connection loads queue_url check_mode
                  a1 a2 a3 a4 a5 a6 a7 a8 s))
    = trace s ++ t
    /\ Forall (synchronizer_call queue_url check_mode (catalog a1 a2 a3 a4 a5 a6 a7 a8)) t.
Proof.
  revert s.
  change (issues trace
            (synchronizer_call queue_url check_mode (catalog a1 a2 a3 a4 a5 a6 a7 a8))
            (Fifo.update_sqs_queue connection loads queue_url check_mode
               a1 a2 a3 a4 a5 a6 a7 a8)).
  unfold Fifo.update_sqs_queue.
  repeat first
    [ apply issues_mret
    | apply issues_bind; [| intros ?]
    | apply set_queue_attribute_issues_when_set;
      [ intros Ha; unfold synchronizer_call, catalog;
        eexists; eexists;
        (split; [| split; [exact Ha | left; reflexivity]]);
        simpl; tauto
      | intros Ha Hc; unfold synchronizer_call, catalog;
        eexists; eexists;
        (split; [| split; [exact Ha | right; split; [exact Hc | reflexivity]]]);
        simpl; tauto ] ].
Qed.

Lemma set_attributes_cons a v (c : list (string * pyval)) (f : string * pyval -> call) :
  map f (set_attributes ((a, v) :: c))
  = (if absent_value v then [] else [f (a, v)]) ++ map f (set_attributes c).
Proof.
  unfold set_attributes. simpl. destruct (absent_value v); reflexivity.
Qed.

(** X10.  The synchronizer does not stop at the first difference.  When it
    returns in check mode, it has read every managed attribute whose
    desired value is set, once each and in the order of the catalog, and
    nothing else. *)
Theorem update_sqs_queue_reads_every_set_attribute
    queue_url a1 a2 a3 a4 a5 a6 a7 a8 (s : st W) changed :
  fst (Fifo.update_sqs_queue connection loads queue_url true a1 a2 a3 a4 a5 a6 a7 a8 s)
  = Ok changed ->
  trace (snd (Fifo.update_sqs_queue connection loads queue_url true
                a1 a2 a3 a4 a5 a6 a7 a8 s))
  = trace s
    ++ map (fun av => GetQueueAttributes queue_url (PList [PStr (fst av)]))
           (set_attributes (catalog a1 a2 a3 a4 a5 a6 a7 a8)).
Proof.
  unfold Fifo.update_sqs_queue, catalog.
  rewrite !set_attributes_cons. cbn [fst].
  unfold bind, mret. intros H.
  repeat match type of H with
         | context [Fifo.set_queue_attribute connection loads queue_url ?a ?v true ?s0] =>
             let T := fresh "T" in
             pose proof (set_queue_attribute_check_mode_trace queue_url a v s0) as T;
             destruct (Fifo.set_queue_attribute connection loads queue_url a v true s0)
               as [[? | ?] ?];
             cbn [fst snd] in *; [| discriminate H]
         end.
  repeat match goal with
         | T : trace _ = _ |- _ => rewrite T; clear T
         end.
  unfold set_attributes. cbn [map List.filter].
  rewrite <- !app_assoc. rewrite app_nil_r. reflexivity.
Qed.

End Synchronizer.

Lemma update_sqs_queue_reads_every_set_attribute_witness :
  trace (snd (Fifo.update_sqs_queue Sqs.service json_loads Scenario.orders_url true
                (PInt 120) PNone PNone (PInt 0) PNone PNone PNone PNone
                (Sqs.start Scenario.orders)))
  = trace (Sqs.start Scenario.orders)
    ++ map (fun av => GetQueueAttributes Scenario.orders_url (PList [PStr (fst av)]))
           (set_attributes
              (catalog (PInt 120) PNone PNone (PInt 0) PNone PNone PNone PNone)).
Proof.
  apply (update_sqs_queue_reads_every_set_attribute Sqs.service json_loads
           Scenario.orders_url (PInt 120) PNone PNone (PInt 0) PNone PNone PNone PNone
           (Sqs.start Scenario.orders) true).
  vm_compute. reflexivity.
Defined.

(* ===================================================================== *)
(** * Which entries of the result a computation leaves alone *)
(* ===================================================================== *)

Section Keeps.

Context {W : Type}.
Variable k : string.

Lemma keeps_mret {A} (a : A) : @keeps W A k (mret a).
Proof. intros rs. reflexivity. Qed.

Lemma keeps_raise {A} e : @keeps W A k (raise e).
Proof. intros rs. reflexivity. Qed.

Lemma keeps_getitem v key : @keeps W pyval k (getitem v key).
Proof. intros rs. reflexivity. Qed.

Lemma keeps_bind {A B} (m : M (gmap string pyval * st W) A)
    (f : A -> M (gmap string pyval * st W) B) :
  keeps k m -> (forall a, keeps k (f a)) -> keeps k (bind m f).
Proof.
  intros Hm Hf rs. unfold bind. specialize (Hm rs).
  destruct (m rs) as [[a | e] rs1]; simpl in *; [| exact Hm].
  rewrite (Hf a rs1). exact Hm.
Qed.

Lemma keeps_try_except {A} (m : M (gmap string pyval * st W) A)
    (h : exn -> M (gmap string pyval * st W) A) :
  keeps k m -> (forall e, keeps k (h e)) -> keeps k (try_except m h).
Proof.
  intros Hm Hh rs. unfold try_except. specialize (Hm rs).
  destruct (m rs) as [[a | e] rs1]; simpl in *; [exact Hm |].
  rewrite (Hh e rs1). exact Hm.
Qed.

Lemma keeps_when (c : bool) (m : M (gmap string pyval * st W) unit) :
  keeps k m -> keeps k (when c m).
Proof. destruct c; simpl; intros H; [exact H | apply keeps_mret]. Qed.

Lemma keeps_lift {A} (m : M (st W) A) : keeps k (lift m).
Proof.
  intros [r s]. unfold lift. simpl. destruct (m s) as [a s1]. reflexivity.
Qed.

Lemma keeps_set_result k' v : k' <> k -> keeps k (@set_result W k' v).
Proof.
  intros Hne [r s]. unfold set_result. simpl. apply lookup_insert_ne. exact Hne.
Qed.

End Keeps.

(** One structural step in a proof of [keeps]. *)
Ltac keeps_step :=
  lazymatch goal with
  | |- keeps _ (bind _ _) => apply keeps_bind; [| intros ?]
  | |- keeps _ (mret _) => apply keeps_mret
  | |- keeps _ (raise _) => apply keeps_raise
  | |- keeps _ (getitem _ _) => apply keeps_getitem
  | |- keeps _ (try_except _ _) => apply keeps_try_except; [| intros ?]
  | |- keeps _ (when _ _) => apply keeps_when
  | |- keeps _ (lift _) => apply keeps_lift
  | |- keeps _ (set_result _ _) => apply keeps_set_result; discriminate
  | |- keeps _ (if ?b then _ else _) => destruct b
  | |- keeps _ (match ?x with _ => _ end) => destruct x
  end.

(* ===================================================================== *)
(** * More on the reconciler *)
(* ===================================================================== *)

Section Reconciler.

Context {W : Type}.
Variable connection : call -> W -> res pyval * W.
Variable loads : string -> option pyval.

Lemma create_or_update_body_keeps_name p check_mode :
  keeps "name" (Fifo.create_or_update_body connection loads p check_mode).
Proof. unfold Fifo.create_or_update_body, Fifo.report. repeat keeps_step. Qed.

Lemma create_or_update_body_keeps_region p check_mode :
  keeps "region" (Fifo.create_or_update_body connection loads p check_mode).
Proof. unfold Fifo.create_or_update_body, Fifo.report. repeat keeps_step. Qed.

Lemma create_or_update_body_keeps_msg p check_mode :
  keeps "msg" (Fifo.create_or_update_body connection loads p check_mode).
Proof. unfold Fifo.create_or_update_body, Fifo.report. repeat keeps_step. Qed.

Lemma delete_body_keeps_msg p check_mode :
  keeps "msg" (Fifo.delete_body connection p check_mode).
Proof. unfold Fifo.delete_body. repeat keeps_step. Qed.

Lemma initial_result_name p :
  initial_result p !! "name" = Some (PStr (Fifo.queue_name p)).
Proof.
  unfold initial_result, Fifo.queue_attributes.
  destruct (queue_type p); vm_compute; reflexivity.
Qed.

Lemma initial_result_region p :
  initial_result p !! "region" = Some (of_str (region p)).
Proof.
  unfold initial_result, Fifo.queue_attributes.
  destruct (queue_type p); vm_compute; reflexivity.
Qed.

Lemma initial_result_msg p : initial_result p !! "msg" = None.
Proof.
  unfold initial_result, Fifo.queue_attributes.
  destruct (queue_type p); vm_compute; reflexivity.
Qed.

(** X11.  However [create_or_update_sqs_queue] of
    [src/sqs_queue/sqs_queue.py] ends, with [exit_json] or with
    [fail_json], the result it hands over names the queue, under the name
    it was looked up with, and the region: nothing on the way overwrites
    these two entries. *)
Theorem result_names_queue_and_region p check_mode (s : st W) :
  match fst (Fifo.create_or_update_sqs_queue connection loads p check_mode s) with
  | Uncaught _ => True
  | o => reported o "name" = Some (PStr (Fifo.queue_name p))
         /\ reported o "region" = Some (of_str (region p))
  end.
Proof.
  unfold Fifo.create_or_update_sqs_queue. fold (initial_result p).
  unfold try_ClientError.
  pose proof (create_or_update_body_keeps_name p check_mode (initial_result p, s)) as Hn.
  pose proof (create_or_update_body_keeps_region p check_mode (initial_result p, s)) as Hr.
  destruct (Fifo.create_or_update_body connection loads p check_mode (initial_result p, s))
    as [[u | e] [result' s']]; cbn [fst snd] in *.
  - rewrite initial_result_name in Hn. rewrite initial_result_region in Hr.
    split; assumption.
  - destruct (is_ClientError e); cbn [fst reported]; [| exact I].
    rewrite !lookup_insert_ne by discriminate.
    rewrite initial_result_name in Hn. rewrite initial_result_region in Hr.
    split; assumption.
Qed.

(** X12.  How [main] of [src/sqs_queue/sqs_queue.py] ends, once the client
    is built: a result handed to [exit_json] never has a [msg] entry, a
    result handed to [fail_json] always has one, and an exception that is
    left uncaught is never a [ClientError]. *)
Theorem msg_marks_failure HAS_BOTO3 p check_mode (s : st W) :
  match fst (Fifo.main connection loads HAS_BOTO3 (Ok tt) p check_mode s) with
  | ExitJson result => result !! "msg" = None
  | FailJson result => exists text, result !! "msg" = Some (PStr text)
  | Uncaught e => is_ClientError e = false
  end.
Proof.
  unfold Fifo.main.
  destruct HAS_BOTO3; cbn [negb fst].
  2: { eexists. apply lookup_singleton_eq. }
  destruct (state p).
  - unfold Fifo.create_or_update_sqs_queue. fold (initial_result p).
    unfold try_ClientError.
    pose proof (create_or_update_body_keeps_msg p check_mode (initial_result p, s)) as Hm.
    destruct (Fifo.create_or_update_body connection loads p check_mode
                (initial_result p, s)) as [[u | e] [result' s']]; cbn [fst snd] in *.
    + rewrite Hm. apply initial_result_msg.
    + destruct (is_ClientError e) eqn:He; cbn [fst]; [| exact He].
      eexists. apply lookup_insert_eq.
  - unfold Fifo.delete_sqs_queue, try_ClientError.
    match goal with
    | |- context [Fifo.delete_body connection p check_mode (?r0, s)] =>
        pose proof (delete_body_keeps_msg p check_mode (r0, s)) as Hm;
        destruct (Fifo.delete_body connection p check_mode (r0, s))
          as [[u | e] [result' s']]; cbn [fst snd] in *
    end.
    + rewrite Hm. vm_compute. reflexivity.
    + destruct (is_ClientError e) eqn:He; cbn [fst]; [| exact He].
      eexists. apply lookup_insert_eq.
Qed.

End Reconciler.

Section PresentPath.

Context {W : Type}.
Variable connection : call -> W -> res pyval * W.
Variable loads : string -> option pyval.

(** The body of [create_or_update_sqs_queue] after the look-up. *)
Lemma create_or_update_body_steps p check_mode result (s : st W) :
  Fifo.create_or_update_body connection loads p check_mode (result, s)
  = let look := GetQueueUrl (Fifo.queue_name p) in
    let s1 := mkSt (snd (connection look (world s))) (trace s ++ [look]) in
    match queue_url_of (fst (connection look (world s))) with
    | Ok queue_url => update_existing connection loads p check_mode queue_url (result, s1)
    | Raise _ =>
        if check_mode then (Ok tt, (result, s1))
        else create_new connection loads p (result, s1)
    end.
Proof.
  unfold Fifo.create_or_update_body, update_existing, create_new, queue_url_of,
    creation_attributes.
  cbv zeta.
  unfold bind at 1. unfold try_except. unfold bind at 1 2. unfold lift at 1.
  unfold request at 1. cbn [fst snd].
  destruct (connection (GetQueueUrl (Fifo.queue_name p)) (world s)) as [[response | e] w'];
    cbn [fst snd].
  - unfold getitem at 1, lift_res at 1.
    destruct (py_getitem response "QueueUrl") as [queue_url | e]; unfold mret at 1.
    + unfold bind. destruct (lift _ _) as [[changed | e] rs1]; [| reflexivity].
      destruct (set_result _ _ rs1) as [[u | e] rs2]; [| reflexivity].
      unfold mret. destruct check_mode; reflexivity.
    + destruct check_mode; cbn [negb]; [reflexivity |].
      unfold bind at 1. unfold mret.
      unfold bind. destruct (lift _ _) as [[resp | e'] rs1]; [| reflexivity].
      destruct (getitem _ _ rs1) as [[u | e'] rs2]; [| reflexivity].
      destruct (set_result _ _ rs2) as [[u1 | e'] rs3]; [| reflexivity].
      destruct (lift _ rs3) as [[c | e'] rs4]; reflexivity.
  - unfold mret at 1.
    destruct check_mode; cbn [negb]; [reflexivity |].
    unfold bind at 1. unfold mret.
    unfold bind. destruct (lift _ _) as [[resp | e'] rs1]; [| reflexivity].
    destruct (getitem _ _ rs1) as [[u | e'] rs2]; [| reflexivity].
    destruct (set_result _ _ rs2) as [[u1 | e'] rs3]; [| reflexivity].
    destruct (lift _ rs3) as [[c | e'] rs4]; reflexivity.
Qed.

Lemma update_existing_issues (P : call -> Prop) p check_mode queue_url :
  (forall names, P (GetQueueAttributes queue_url names)) ->
  (check_mode = false -> forall a x, P (SetQueueAttributes queue_url a x)) ->
  issues rtrace P (update_existing connection loads p check_mode queue_url).
Proof.
  intros HG HS. unfold update_existing, Fifo.update_with.
  repeat first
    [ apply update_sqs_queue_issues; solve [auto]
    | apply report_issues; solve [auto]
    | issues_step ].
Qed.

Lemma create_new_issues (P : call -> Prop) p :
  P (CreateQueue (Fifo.queue_name p) (creation_attributes (queue_type p))) ->
  (forall u names, P (GetQueueAttributes u names)) ->
  (forall u a x, P (SetQueueAttributes u a x)) ->
  issues rtrace P (create_new connection loads p).
Proof.
  intros HC HG HS. unfold create_new, Fifo.update_with.
  repeat first
    [ apply request_issues; exact HC
    | apply update_sqs_queue_issues; solve [auto]
    | apply report_issues; solve [auto]
    | issues_step ].
Qed.

Lemma create_new_starts_with p :
  starts_with rtrace
    (CreateQueue (Fifo.queue_name p) (creation_attributes (queue_type p)))
    (create_new connection loads p).
Proof.
  unfold create_new.
  apply starts_with_bind; [apply starts_with_lift, request_starts_with |].
  intros response. unfold Fifo.update_with.
  repeat first
    [ apply update_sqs_queue_issues; intros; exact I
    | apply report_issues; intros; exact I
    | issues_step ].
Qed.

(** The calls of the present path: the look-up, then calls that all
    satisfy [P]. *)
Lemma create_or_update_sqs_queue_trace (P : call -> Prop) p check_mode (s : st W) :
  (forall u names, P (GetQueueAttributes u names)) ->
  (check_mode = false -> forall u a x, P (SetQueueAttributes u a x)) ->
  (check_mode = false ->
   P (CreateQueue (Fifo.queue_name p) (creation_attributes (queue_type p)))) ->
  exists t,
    trace (snd (Fifo.create_or_update_sqs_queue connection loads p check_mode s))
    = trace s ++ GetQueueUrl (Fifo.queue_name p) :: t
    /\ Forall P t.
Proof.
  intros HG HS HC.
  unfold Fifo.create_or_update_sqs_queue. rewrite try_ClientError_trace.
  fold (initial_result p). rewrite create_or_update_body_steps. cbv zeta.
  set (s1 := mkSt _ _).
  destruct (queue_url_of _) as [queue_url | e].
  - destruct (update_existing_issues P p check_mode queue_url (HG queue_url)
                (fun H => HS H queue_url) (initial_result p, s1)) as [t [E F]].
    exists t. split; [| exact F].
    rewrite E. unfold rtrace, s1. cbn [snd trace]. rewrite <- app_assoc. reflexivity.
  - destruct check_mode.
    + exists []. split; [reflexivity | constructor].
    + destruct (create_new_issues P p (HC eq_refl) HG (HS eq_refl) (initial_result p, s1))
        as [t [E F]].
      exists t. split; [| exact F].
      rewrite E. unfold rtrace, s1. cbn [snd trace]. rewrite <- app_assoc. reflexivity.
Qed.

(** X13.  Any exception of the look-up counts as "no such queue".
    Whatever [get_queue_url] raises (and also when its response has no
    ['QueueUrl'] entry), [create_or_update_sqs_queue] of
    [src/sqs_queue/sqs_queue.py] outside check mode goes on to create the
    queue: its second call is [create_queue] for the same name, with the
    [FifoQueue] attribute exactly when the queue type is FIFO. *)
Theorem lookup_failure_leads_to_creation p (s : st W) e :
  queue_url_of (fst (connection (GetQueueUrl (Fifo.queue_name p)) (world s))) = Raise e ->
  exists t,
    trace (snd (Fifo.create_or_update_sqs_queue connection loads p false s))
    = trace s
      ++ GetQueueUrl (Fifo.queue_name p)
         :: CreateQueue (Fifo.queue_name p) (creation_attributes (queue_type p))
         :: t.
Proof.
  intros Hq.
  unfold Fifo.create_or_update_sqs_queue. rewrite try_ClientError_trace.
  fold (initial_result p). rewrite create_or_update_body_steps. cbv zeta.
  rewrite Hq. set (s1 := mkSt _ _).
  destruct (create_new_starts_with p (initial_result p, s1)) as [t E].
  exists t. rewrite E. unfold rtrace, s1. cbn [snd trace].
  rewrite <- app_assoc. reflexivity.
Qed.

(** X14.  A queue that the look-up finds is only updated.  When
    [get_queue_url] returns a URL, every later call of
    [create_or_update_sqs_queue] is a read of the attributes of the queue
    at that URL or, outside check mode, a write of one of them: the queue
    is neither created again nor deleted, and no other queue is touched. *)
Theorem existing_queue_is_only_updated p check_mode (s : st W) queue_url :
  queue_url_of (fst (connection (GetQueueUrl (Fifo.queue_name p)) (world s)))
  = Ok queue_url ->
  exists t,
    trace (snd (Fifo.create_or_update_sqs_queue connection loads p check_mode s))
    = trace s ++ GetQueueUrl (Fifo.queue_name p) :: t
    /\ Forall (attribute_call queue_url check_mode) t.
Proof.
  intros Hq.
  unfold Fifo.create_or_update_sqs_queue. rewrite try_ClientError_trace.
  fold (initial_result p). rewrite create_or_update_body_steps. cbv zeta.
  rewrite Hq. set (s1 := mkSt _ _).
  destruct (update_existing_issues (attribute_call queue_url check_mode) p check_mode
              queue_url) with (s := (initial_result p, s1)) as [t [E F]].
  - intros names. left. eexists. reflexivity.
  - intros Hc a x. right. split; [exact Hc |]. eexists. eexists. reflexivity.
  - exists t. split; [| exact F].
    rewrite E. unfold rtrace, s1. cbn [snd trace]. rewrite <- app_assoc. reflexivity.
Qed.

Lemma initial_result_changed p : initial_result p !! "changed" = None.
Proof.
  unfold initial_result, Fifo.queue_attributes.
  destruct (queue_type p); vm_compute; reflexivity.
Qed.

(** X15.  A creation that the service refuses is reported, not retried.
    When the look-up fails and [create_queue] raises a [ClientError], the
    invocation ends in [fail_json] right after these two calls, with the
    initial result, a message that carries the error, and no [changed]
    entry; no attribute is read or written. *)
Theorem create_failure_is_reported p (s : st W) e error_code w2 :
  queue_url_of (fst (connection (GetQueueUrl (Fifo.queue_name p)) (world s))) = Raise e ->
  connection (CreateQueue (Fifo.queue_name p) (creation_attributes (queue_type p)))
             (snd (connection (GetQueueUrl (Fifo.queue_name p)) (world s)))
  = (Raise (ClientError error_code), w2) ->
  let failed :=
    <["msg" := PStr ("Failed to create/update sqs queue due to error: "
                     +:+ format_exc (ClientError error_code))]> (initial_result p) in
  Fifo.create_or_update_sqs_queue connection loads p false s
  = (FailJson failed,
     mkSt w2 (trace s
              ++ [ GetQueueUrl (Fifo.queue_name p);
                   CreateQueue (Fifo.queue_name p)
                     (creation_attributes (queue_type p)) ]))
  /\ failed !! "changed" = None.
Proof.
  intros Hq Hc. cbv zeta. split.
  - unfold Fifo.create_or_update_sqs_queue, try_ClientError.
    fold (initial_result p). rewrite create_or_update_body_steps. cbv zeta.
    rewrite Hq. cbn [negb].
    unfold create_new. unfold bind at 1. unfold lift at 1. unfold request at 1.
    cbn [fst snd world trace]. rewrite Hc. cbn [is_ClientError].
    rewrite <- app_assoc. reflexivity.
  - rewrite lookup_insert_ne by discriminate. apply initial_result_changed.
Qed.

(** X16.  The calls of the present path.  [create_or_update_sqs_queue]
    starts with the look-up of the queue and never deletes anything; a
    [create_queue] call is made outside check mode only, for the name that
    was looked up and with the [FifoQueue] attribute exactly for a FIFO
    queue; a [set_queue_attributes] call is made outside check mode
    only. *)
Theorem present_path_calls p check_mode (s : st W) :
  exists t,
    trace (snd (Fifo.create_or_update_sqs_queue connection loads p check_mode s))
    = trace s ++ GetQueueUrl (Fifo.queue_name p) :: t
    /\ Forall (present_call p check_mode) t.
Proof.
  apply create_or_update_sqs_queue_trace.
  - intros u names. exact I.
  - intros Hc u a x. exact Hc.
  - intros Hc. repeat split. exact Hc.
Qed.

End PresentPath.

Lemma lookup_failure_leads_to_creation_witness :
  exists t,
    trace (snd (Fifo.create_or_update_sqs_queue Sqs.service json_loads
                  (Scenario.plain present "orders" fifo true) false
                  (Sqs.start Scenario.nothing)))
    = trace (Sqs.start Scenario.nothing)
      ++ GetQueueUrl (Fifo.queue_name (Scenario.plain present "orders" fifo true))
         :: CreateQueue (Fifo.queue_name (Scenario.plain present "orders" fifo true))
              (creation_attributes (queue_type (Scenario.plain present "orders" fifo true)))
         :: t.
Proof.
  apply (lookup_failure_leads_to_creation Sqs.service json_loads
           (Scenario.plain present "orders" fifo true) (Sqs.start Scenario.nothing)
           QueueDoesNotExist).
  reflexivity.
Defined.

Lemma existing_queue_is_only_updated_witness :
  exists t,
    trace (snd (Fifo.create_or_update_sqs_queue Sqs.service json_loads
                  Scenario.with_redrive false (Sqs.start Scenario.orders)))
    = trace (Sqs.start Scenario.orders)
      ++ GetQueueUrl (Fifo.queue_name Scenario.with_redrive) :: t
    /\ Forall (attribute_call Scenario.orders_url false) t.
Proof.
  apply (existing_queue_is_only_updated Sqs.service json_loads Scenario.with_redrive false
           (Sqs.start Scenario.orders) Scenario.orders_url).
  reflexivity.
Defined.

Lemma create_failure_is_reported_witness :
  let p := Scenario.plain present "orders" standard false in
  let failed :=
    <["msg" := PStr ("Failed to create/update sqs queue due to error: "
                     +:+ format_exc (ClientError "AccessDenied"))]> (initial_result p) in
  Fifo.create_or_update_sqs_queue read_only_service json_loads p false
    (Sqs.start Scenario.nothing)
  = (FailJson failed,
     mkSt Scenario.nothing
          (trace (Sqs.start Scenario.nothing)
           ++ [ GetQueueUrl (Fifo.queue_name p);
                CreateQueue (Fifo.queue_name p) (creation_attributes (queue_type p)) ]))
  /\ failed !! "changed" = None.
Proof.
  apply (create_failure_is_reported read_only_service json_loads
           (Scenario.plain present "orders" standard false) (Sqs.start Scenario.nothing)
           QueueDoesNotExist "AccessDenied" Scenario.nothing).
  - reflexivity.
  - reflexivity.
Defined.

(* ===================================================================== *)
(** * More on deletion *)
(* ===================================================================== *)

Section AbsentPath.

Context {W : Type}.
Variable connection : call -> W -> res pyval * W.

(** The body of [delete_sqs_queue], call by call. *)
Lemma delete_body_steps p check_mode result (s : st W) :
  Fifo.delete_body connection p check_mode (result, s)
  = let look := GetQueueUrl (name p) in
    let s1 := mkSt (snd (connection look (world s))) (trace s ++ [look]) in
    match queue_url_of (fst (connection look (world s))) with
    | Raise e => (Raise e, (result, s1))
    | Ok queue_url =>
        if py_truthy queue_url then
          if check_mode then (Ok tt, (<["changed" := PBool true]> result, s1))
          else
            let delete := DeleteQueue queue_url in
            let s2 := mkSt (snd (connection delete (world s1))) (trace s1 ++ [delete]) in
            match fst (connection delete (world s1)) with
            | Ok _ => (Ok tt, (<["changed" := PBool true]> result, s2))
            | Raise e => (Raise e, (result, s2))
            end
        else (Ok tt, (<["changed" := PBool false]> result, s1))
    end.
Proof.
  unfold Fifo.delete_body, queue_url_of. cbv zeta.
  unfold bind, lift, request, getitem, lift_res, when, mret, set_result.
  cbn [fst snd].
  destruct (connection (GetQueueUrl (name p)) (world s)) as [[response | e] w'];
    cbn [fst snd]; [| reflexivity].
  destruct (py_getitem response "QueueUrl") as [queue_url | e]; [| reflexivity].
  destruct (py_truthy queue_url); [| reflexivity].
  destruct check_mode; cbn [negb fst snd world trace]; [reflexivity |].
  destruct (connection (DeleteQueue queue_url) w') as [[r2 | e2] w2]; reflexivity.
Qed.

Lemma delete_sqs_queue_trace p check_mode (s : st W) :
  trace (snd (Fifo.delete_sqs_queue connection p check_mode s))
  = rtrace (snd (Fifo.delete_body connection p check_mode (delete_initial_result p, s))).
Proof.
  unfold Fifo.delete_sqs_queue. rewrite try_ClientError_trace. reflexivity.
Qed.

(** X17.  The calls of the absent path.  [delete_sqs_queue] of
    [src/sqs_queue/sqs_queue.py] looks the queue up under the name as it
    was given, without the [.fifo] suffix whatever the queue type is, and
    then issues at most one more call: outside check mode, the deletion of
    the URL that the look-up returned.  It never reads or writes an
    attribute and never creates a queue. *)
Theorem delete_sqs_queue_calls p check_mode (s : st W) :
  let look := GetQueueUrl (name p) in
  exists t,
    trace (snd (Fifo.delete_sqs_queue connection p check_mode s)) = trace s ++ t
    /\ (t = [look]
        \/ (check_mode = false
            /\ exists queue_url,
                 queue_url_of (fst (connection look (world s))) = Ok queue_url
                 /\ py_truthy queue_url = true
                 /\ t = [look; DeleteQueue queue_url])).
Proof.
  cbv zeta. rewrite delete_sqs_queue_trace, delete_body_steps. cbv zeta.
  destruct (queue_url_of _) as [queue_url | e] eqn:Hq.
  - destruct (py_truthy queue_url) eqn:Ht.
    + destruct check_mode.
      * eexists. split; [reflexivity | left; reflexivity].
      * exists [GetQueueUrl (name p); DeleteQueue queue_url]. split.
        -- destruct (fst (connection (DeleteQueue queue_url) _));
             unfold rtrace; cbn [snd trace]; rewrite <- app_assoc; reflexivity.
        -- right. split; [reflexivity |]. exists queue_url. auto.
    + eexists. split; [reflexivity | left; reflexivity].
  - eexists. split; [reflexivity | left; reflexivity].
Qed.

(** X18.  A queue that the look-up finds is deleted.  When [get_queue_url]
    returns a non-empty URL: in check mode [delete_sqs_queue] exits with
    [changed] true after the look-up alone; outside check mode it calls
    [delete_queue] on that URL, once, and exits with [changed] true when
    the call returns, whereas no [changed] entry is reported when the call
    raises. *)
Theorem found_queue_is_deleted p (s : st W) queue_url :
  queue_url_of (fst (connection (GetQueueUrl (name p)) (world s))) = Ok queue_url ->
  py_truthy queue_url = true ->
  let look := GetQueueUrl (name p) in
  let s1 := mkSt (snd (connection look (world s))) (trace s ++ [look]) in
  let real := Fifo.delete_sqs_queue connection p false s in
  Fifo.delete_sqs_queue connection p true s
  = (ExitJson (<["changed" := PBool true]> (delete_initial_result p)), s1)
  /\ trace (snd real) = trace s ++ [look; DeleteQueue queue_url]
  /\ match fst (connection (DeleteQueue queue_url) (world s1)) with
     | Ok _ => fst real = ExitJson (<["changed" := PBool true]> (delete_initial_result p))
     | Raise _ => reported (fst real) "changed" = None
     end.
Proof.
  intros Hq Ht. cbv zeta. split; [| split].
  - unfold Fifo.delete_sqs_queue, try_ClientError. fold (delete_initial_result p).
    rewrite delete_body_steps. cbv zeta. rewrite Hq, Ht. reflexivity.
  - rewrite delete_sqs_queue_trace, delete_body_steps. cbv zeta. rewrite Hq, Ht.
    destruct (fst (connection (DeleteQueue queue_url) _));
      unfold rtrace; cbn [snd trace]; rewrite <- app_assoc; reflexivity.
  - unfold Fifo.delete_sqs_queue, try_ClientError. fold (delete_initial_result p).
    rewrite delete_body_steps. cbv zeta. rewrite Hq, Ht. cbn [world].
    destruct (fst (connection (DeleteQueue queue_url) _)) as [r2 | e2]; [reflexivity |].
    destruct (is_ClientError e2); cbn [fst reported]; [| reflexivity].
    rewrite lookup_insert_ne by discriminate. vm_compute. reflexivity.
Qed.

End AbsentPath.

Lemma found_queue_is_deleted_witness :
  let p := Scenario.plain absent "orders" standard false in
  let look := GetQueueUrl (name p) in
  let s := Sqs.start Scenario.orders in
  let s1 := mkSt (snd (Sqs.service look (world s))) (trace s ++ [look]) in
  let real := Fifo.delete_sqs_queue Sqs.service p false s in
  Fifo.delete_sqs_queue Sqs.service p true s
  = (ExitJson (<["changed" := PBool true]> (delete_initial_result p)), s1)
  /\ trace (snd real) = trace s ++ [look; DeleteQueue Scenario.orders_url]
  /\ match fst (Sqs.service (DeleteQueue Scenario.orders_url) (world s1)) with
     | Ok _ => fst real = ExitJson (<["changed" := PBool true]> (delete_initial_result p))
     | Raise _ => reported (fst real) "changed" = None
     end.
Proof.
  apply (found_queue_is_deleted Sqs.service (Scenario.plain absent "orders" standard false)
           (Sqs.start Scenario.orders) Scenario.orders_url).
  - reflexivity.
  - reflexivity.
Defined.

(* ===================================================================== *)
(** * What the result reports *)
(* ===================================================================== *)

Lemma bind_Ok {S A B} (m : M S A) (k : A -> M S B) s b s' :
  bind m k s = (Ok b, s') -> exists a s1, m s = (Ok a, s1) /\ k a s1 = (Ok b, s').
Proof.
  unfold bind. destruct (m s) as [[a | e] s1]; intros H; [eauto | discriminate].
Qed.

Section Report.

Context {W : Type}.
Variable connection : call -> W -> res pyval * W.
Variable loads : string -> option pyval.

(** A report that returns has read all attributes of the queue in one
    call and copied its entries from the response. *)
Lemma report_Ok p queue_url result (s : st W) result' s' :
  Fifo.report connection p queue_url (result, s) = (Ok tt, (result', s')) ->
  let read := GetQueueAttributes queue_url (PList [PStr "All"]) in
  exists response attributes,
    connection read (world s) = (Ok response, world s')
    /\ trace s' = trace s ++ [read]
    /\ py_getitem response "Attributes" = Ok attributes
    /\ Forall (reports attributes result') (report_entries (queue_type p)).
Proof.
  unfold Fifo.report. cbv zeta.
  unfold bind, lift, request, getitem, lift_res, set_result, mret. cbn [fst snd].
  destruct (connection _ (world s)) as [[response | e] w'] eqn:Hc; [| discriminate].
  destruct (py_getitem response "Attributes") as [attributes | e] eqn:Ha; [| discriminate].
  cbn [fst snd].
  destruct (py_getitem attributes "QueueArn") as [v1 | e] eqn:H1; [| discriminate].
  destruct (py_getitem attributes "VisibilityTimeout") as [v2 | e] eqn:H2;
    [| discriminate].
  destruct (py_getitem attributes "MessageRetentionPeriod") as [v3 | e] eqn:H3;
    [| discriminate].
  destruct (py_getitem attributes "MaximumMessageSize") as [v4 | e] eqn:H4;
    [| discriminate].
  destruct (py_getitem attributes "DelaySeconds") as [v5 | e] eqn:H5; [| discriminate].
  destruct (py_getitem attributes "ReceiveMessageWaitTimeSeconds") as [v6 | e] eqn:H6;
    [| discriminate].
  cbn [fst snd].
  unfold report_entries, reports.
  destruct (queue_type p).
  - intros H. inversion H; subst. clear H.
    exists response, attributes.
    split; [reflexivity |]. split; [reflexivity |]. split; [exact Ha |].
    repeat (constructor;
            [ eexists; split; [eassumption |];
              rewrite ?lookup_insert_ne by discriminate; apply lookup_insert_eq |]).
    constructor.
  - destruct (py_getitem attributes "ContentBasedDeduplication") as [v7 | e] eqn:H7;
      [| discriminate].
    intros H. inversion H; subst. clear H.
    exists response, attributes.
    split; [reflexivity |]. split; [reflexivity |]. split; [exact Ha |].
    repeat (constructor;
            [ eexists; split; [eassumption |];
              rewrite ?lookup_insert_ne by discriminate; apply lookup_insert_eq |]).
    constructor.
Qed.

Lemma update_with_trace queue_url check_mode attrs (rs : gmap string pyval * st W) :
  exists t,
    rtrace (snd (lift (Fifo.update_with connection loads queue_url check_mode attrs) rs))
    = rtrace rs ++ t.
Proof.
  destruct (issues_lift (fun _ => True)
              (Fifo.update_with connection loads queue_url check_mode attrs)) with (s := rs)
    as [t [E _]].
  - unfold Fifo.update_with. apply update_sqs_queue_issues; intros; exact I.
  - exists t. exact E.
Qed.

Lemma update_existing_Ok p queue_url rs rs' :
  update_existing connection loads p false queue_url rs = (Ok tt, rs') ->
  exists rs2 t,
    rtrace rs2 = rtrace rs ++ t
    /\ Fifo.report connection p queue_url rs2 = (Ok tt, rs').
Proof.
  unfold update_existing. cbn [negb]. intros H.
  apply bind_Ok in H as [changed [rs1 [H1 H]]].
  apply bind_Ok in H as [u [rs2 [H2 H]]].
  exists rs2.
  destruct (update_with_trace queue_url false (Fifo.queue_attributes p) rs) as [t E].
  rewrite H1 in E. cbn [snd] in E.
  exists t. split; [| exact H].
  unfold set_result in H2. inversion H2; subst. unfold rtrace in *. exact E.
Qed.

Lemma create_new_Ok p rs rs' :
  create_new connection loads p rs = (Ok tt, rs') ->
  exists queue_url rs2 t,
    rtrace rs2 = rtrace rs ++ t
    /\ Fifo.report connection p queue_url rs2 = (Ok tt, rs').
Proof.
  unfold create_new. intros H.
  apply bind_Ok in H as [response [rs1 [H1 H]]].
  apply bind_Ok in H as [queue_url [rs2 [H2 H]]].
  apply bind_Ok in H as [u [rs3 [H3 H]]].
  apply bind_Ok in H as [c [rs4 [H4 H]]].
  exists queue_url, rs4.
  destruct (issues_lift (fun _ => True) _
              (request_issues connection (fun _ => True)
                 (CreateQueue (Fifo.queue_name p) (creation_attributes (queue_type p))) I)
              rs) as [t1 [E1 _]].
  rewrite H1 in E1. cbn [snd] in E1.
  destruct (update_with_trace queue_url false (Fifo.queue_attributes p) rs3) as [t2 E2].
  rewrite H4 in E2. cbn [snd] in E2.
  exists (t1 ++ t2). split; [| exact H].
  unfold getitem, lift_res in H2. inversion H2; subst.
  unfold set_result in H3. inversion H3; subst.
  unfold rtrace in *. cbn [snd] in *. rewrite E2, E1, app_assoc. reflexivity.
Qed.

(** X19.  A run outside check mode that ends in [exit_json] ends with the
    read-back: the last call of [create_or_update_sqs_queue] is
    [get_queue_attributes] for all attributes of the queue, and the result
    reports what that call returned, the queue's ARN and the five managed
    integer attributes, and for a FIFO queue the deduplication flag, each
    taken from the response and none from the desired values. *)
Theorem exit_reports_observed_attributes p (s : st W) result s' :
  Fifo.create_or_update_sqs_queue connection loads p false s = (ExitJson result, s') ->
  exists queue_url w response attributes t,
    trace s' = trace s ++ t ++ [GetQueueAttributes queue_url (PList [PStr "All"])]
    /\ connection (GetQueueAttributes queue_url (PList [PStr "All"])) w
       = (Ok response, world s')
    /\ py_getitem response "Attributes" = Ok attributes
    /\ Forall (reports attributes result) (report_entries (queue_type p)).
Proof.
  unfold Fifo.create_or_update_sqs_queue, try_ClientError. fold (initial_result p).
  rewrite create_or_update_body_steps. cbv zeta. set (s1 := mkSt _ _). cbn [negb].
  intros H.
  assert (Hrep : exists queue_url rs2 t,
             rtrace rs2 = trace s1 ++ t
             /\ Fifo.report connection p queue_url rs2 = (Ok tt, (result, s'))).
  { destruct (queue_url_of _) as [queue_url | e].
    - destruct (update_existing _ _ _ _ _ _) as [[[] | e] [r' s2]] eqn:Hu.
      + inversion H; subst.
        apply update_existing_Ok in Hu as [rs2 [t [E R]]]. eauto.
      + destruct (is_ClientError e); discriminate.
    - destruct (create_new _ _ _ _) as [[[] | e'] [r' s2]] eqn:Hu.
      + inversion H; subst.
        apply create_new_Ok in Hu as [queue_url [rs2 [t [E R]]]]. eauto.
      + destruct (is_ClientError e'); discriminate. }
  destruct Hrep as [queue_url [[r2 s2] [t [E R]]]].
  apply report_Ok in R. cbv zeta in R.
  destruct R as [response [attributes [Hc [Ht [Ha HF]]]]].
  exists queue_url, (world s2), response, attributes,
    (GetQueueUrl (Fifo.queue_name p) :: t).
  repeat split; try assumption.
  rewrite Ht. unfold rtrace in E. cbn [snd] in E. rewrite E.
  unfold s1. cbn [trace]. rewrite <- !app_assoc. reflexivity.
Qed.

(** X20.  In check mode the result reports the desired values, never the
    observed ones: when [create_or_update_sqs_queue] ends in [exit_json]
    in check mode, the result is the one it started with (region, name and
    the desired attributes as given), with a [changed] entry added when
    the queue exists and none when it does not. *)
Theorem check_mode_reports_desired_values p (s : st W) :
  match fst (Fifo.create_or_update_sqs_queue connection loads p true s) with
  | ExitJson result =>
      match queue_url_of (fst (connection (GetQueueUrl (Fifo.queue_name p)) (world s))) with
      | Ok _ => exists changed, result = <["changed" := PBool changed]> (initial_result p)
      | Raise _ => result = initial_result p
      end
  | _ => True
  end.
Proof.
  unfold Fifo.create_or_update_sqs_queue, try_ClientError. fold (initial_result p).
  rewrite create_or_update_body_steps. cbv zeta. set (s1 := mkSt _ _).
  destruct (queue_url_of _) as [queue_url | e]; [| reflexivity].
  unfold update_existing. cbn [negb]. unfold bind, lift, set_result, mret.
  cbn [fst snd].
  destruct (Fifo.update_with connection loads queue_url true (Fifo.queue_attributes p) s1)
    as [[changed | e] s2]; cbn [fst snd].
  - eexists. reflexivity.
  - destruct (is_ClientError e); exact I.
Qed.

End Report.

Lemma exit_reports_observed_attributes_witness :
  let p := mkParams present "orders" standard false (Some 120%Z) None None None None
                    None None (Some "eu-west-1") in
  let r := Fifo.create_or_update_sqs_queue Sqs.service json_loads p false
             (Sqs.start Scenario.nothing) in
  exists queue_url w response attributes t,
    trace (snd r)
    = trace (Sqs.start Scenario.nothing)
      ++ t ++ [GetQueueAttributes queue_url (PList [PStr "All"])]
    /\ Sqs.service (GetQueueAttributes queue_url (PList [PStr "All"])) w
       = (Ok response, world (snd r))
    /\ py_getitem response "Attributes" = Ok attributes
    /\ Forall (reports attributes
                 match fst r with ExitJson result => result | _ => ∅ end)
              (report_entries (queue_type p)).
Proof.
  cbv zeta.
  eapply (exit_reports_observed_attributes Sqs.service json_loads
            (mkParams present "orders" standard false (Some 120%Z) None None None None
                      None None (Some "eu-west-1"))
            (Sqs.start Scenario.nothing)).
  vm_compute. reflexivity.
Defined.

(* ===================================================================== *)
(** * More on [src/sqs_queue.py] *)
(* ===================================================================== *)

Section LegacyReconciler.

Context {W : Type}.
Variable connection : call -> W -> res pyval * W.
Variable loads : string -> option pyval.

(** X21.  The earlier variant [src/sqs_queue.py] can neither create nor
    delete a queue: whatever the parameters, the mode and the remote state
    are, [main] issues no [create_queue] and no [delete_queue] call; it
    looks up the name as given, reads attributes, and outside check mode
    writes them. *)
Theorem legacy_never_creates_or_deletes HAS_BOTO3 connecting p check_mode (s : st W) :
  exists t,
    trace (snd (Legacy.main connection loads HAS_BOTO3 connecting p check_mode s))
    = trace s ++ t
    /\ Forall (legacy_call p check_mode) t.
Proof.
  assert (Hnil : exists t, trace s = trace s ++ t /\ Forall (legacy_call p check_mode) t).
  { exists []. rewrite app_nil_r. auto. }
  unfold Legacy.main.
  destruct HAS_BOTO3; simpl; [| exact Hnil].
  destruct connecting as [u | e]; [| destruct e; exact Hnil].
  destruct (state p); [| exact Hnil].
  unfold Legacy.create_or_update_sqs_queue. rewrite try_ClientError_trace.
  apply (legacy_create_or_update_body_issues connection loads (legacy_call p check_mode)
           p check_mode).
  - reflexivity.
  - intros u0 names. exact I.
  - intros Hc u0 a x. exact Hc.
Qed.

(** X22.  In [src/sqs_queue.py] a queue that does not exist is a failure:
    when the look-up raises a [ClientError], as it does for a missing
    queue, [create_or_update_sqs_queue] ends in [fail_json] after that one
    call, with a message and without a [changed] entry, in and out of
    check mode. *)
Theorem legacy_missing_queue_fails p check_mode (s : st W) error_code w' :
  connection (GetQueueUrl (name p)) (world s) = (Raise (ClientError error_code), w') ->
  let failed :=
    <["msg" := PStr ("Failed to create/update sqs queue due to error: "
                     +:+ format_exc (ClientError error_code))]>
      (legacy_initial_result p) in
  Legacy.create_or_update_sqs_queue connection loads p check_mode s
  = (FailJson failed, mkSt w' (trace s ++ [GetQueueUrl (name p)]))
  /\ failed !! "changed" = None.
Proof.
  intros Hc. cbv zeta. split.
  - unfold Legacy.create_or_update_sqs_queue, try_ClientError.
    fold (legacy_initial_result p).
    unfold Legacy.create_or_update_body. unfold bind at 1. unfold lift, request.
    cbn [fst snd]. rewrite Hc. reflexivity.
  - rewrite lookup_insert_ne by discriminate.
    unfold legacy_initial_result, Legacy.queue_attributes. vm_compute. reflexivity.
Qed.

End LegacyReconciler.

Lemma legacy_missing_queue_fails_witness :
  let p := Scenario.plain present "orders" standard false in
  let failed :=
    <["msg" := PStr ("Failed to create/update sqs queue due to error: "
                     +:+ format_exc (ClientError "AWS.SimpleQueueService.NonExistentQueue"))]>
      (legacy_initial_result p) in
  Legacy.create_or_update_sqs_queue Sqs.service json_loads p false
    (Sqs.start Scenario.nothing)
  = (FailJson failed,
     mkSt Scenario.nothing (trace (Sqs.start Scenario.nothing) ++ [GetQueueUrl (name p)]))
  /\ failed !! "changed" = None.
Proof.
  apply (legacy_missing_queue_fails Sqs.service json_loads
           (Scenario.plain present "orders" standard false) false
           (Sqs.start Scenario.nothing)
           "AWS.SimpleQueueService.NonExistentQueue" Scenario.nothing).
  reflexivity.
Defined.

(* ===================================================================== *)
(** * Values that are not set, and the values 0 and False *)
(* ===================================================================== *)

Section GuardedComparator.

Context {W : Type}.
Variable connection : call -> W -> res pyval * W.
Variable loads : string -> option pyval.

(** A value that is absent is skipped by both comparators. *)
Lemma absent_value_is_skipped queue_url attribute value check_mode (s : st W) :
  absent_value value = true ->
  Fifo.set_queue_attribute connection loads queue_url attribute value check_mode s
  = (Ok false, s)
  /\ Legacy.set_queue_attribute connection loads queue_url attribute value check_mode s
     = (Ok false, s).
Proof.
  intros Ha. unfold Fifo.set_queue_attribute, Legacy.set_queue_attribute.
  rewrite guard_is_absent_value, Ha. split; reflexivity.
Qed.

(** A value that is set goes through the read, the conversion, the
    comparison and the write. *)
Lemma set_queue_attribute_read_compare_write
    queue_url attribute value check_mode (s : st W) :
  absent_value value = false ->
  Fifo.set_queue_attribute connection loads queue_url attribute value check_mode s
  = read_compare_write connection loads (PList [PStr attribute])
      (fun r => existing_of r attribute) lower queue_url attribute value check_mode s.
Proof.
  intros Ha. rewrite set_queue_attribute_steps by exact Ha.
  unfold read_compare_write, compare_and_write. cbv zeta.
  destruct (normalise _ _ _ _) as [[v' e'] | e]; reflexivity.
Qed.

Lemma legacy_set_queue_attribute_read_compare_write
    queue_url attribute value check_mode (s : st W) :
  absent_value value = false ->
  Legacy.set_queue_attribute connection loads queue_url attribute value check_mode s
  = read_compare_write connection loads (PStr attribute)
      (fun r => legacy_existing_of r attribute) (fun text => text)
      queue_url attribute value check_mode s.
Proof.
  intros Ha. rewrite legacy_set_queue_attribute_steps by exact Ha.
  unfold read_compare_write, compare_and_write. cbv zeta.
  destruct (normalise _ _ _ _) as [[v' e'] | e]; reflexivity.
Qed.

End GuardedComparator.

(** C4, amended.  In both variants of the module the comparator skips a
    desired value of [None] (and the empty string, list and dictionary):
    it answers [False] and issues no call.  A desired [0] or [False] is not
    skipped.  Like every value that is set, it goes through the whole of
    the comparator: the attribute is read from the service, the two sides
    are converted, the text of the desired value is compared with the
    existing value and, when they differ, the answer is [True] and outside
    check mode the text is written; when they are equal the answer is
    [False].  For an attribute that is not a JSON document,
    [src/sqs_queue/sqs_queue.py] compares the text "0" for a desired [0]
    and "false" for a desired [False] with the existing value, and writes
    "0" and "False"; [src/sqs_queue.py] compares and writes "0" and
    "False".  This holds for every attribute, client, parser, mode and
    remote state. *)
Theorem C4_none_is_skipped_zero_and_false_are_read_and_compared :
  forall (W : Type) (connection : call -> W -> res pyval * W)
         (loads : string -> option pyval) (queue_url : pyval) (attribute : string)
         (check_mode : bool) (s : st W),
    let fifo := Fifo.set_queue_attribute connection loads queue_url attribute in
    let legacy := Legacy.set_queue_attribute connection loads queue_url attribute in
    let read_by (names : pyval) (v : pyval) (f : pyval -> bool -> M (st W) bool) :=
      exists t, trace (snd (f v check_mode s))
                = trace s ++ GetQueueAttributes queue_url names :: t in
    let fifo_steps :=
      read_compare_write connection loads (PList [PStr attribute])
        (fun r => existing_of r attribute) lower queue_url attribute in
    let legacy_steps :=
      read_compare_write connection loads (PStr attribute)
        (fun r => legacy_existing_of r attribute) (fun text => text)
        queue_url attribute in
    let fifo_read := GetQueueAttributes queue_url (PList [PStr attribute]) in
    let fifo_existing := existing_of (fst (connection fifo_read (world s))) attribute in
    let fifo_s1 := mkSt (snd (connection fifo_read (world s))) (trace s ++ [fifo_read]) in
    let legacy_read := GetQueueAttributes queue_url (PStr attribute) in
    let legacy_existing :=
      legacy_existing_of (fst (connection legacy_read (world s))) attribute in
    let legacy_s1 :=
      mkSt (snd (connection legacy_read (world s))) (trace s ++ [legacy_read]) in
    (fifo PNone check_mode s = (Ok false, s)
     /\ fifo (PStr "") check_mode s = (Ok false, s)
     /\ fifo (PList []) check_mode s = (Ok false, s)
     /\ fifo (PDict []) check_mode s = (Ok false, s)
     /\ read_by (PList [PStr attribute]) (PInt 0) fifo
     /\ read_by (PList [PStr attribute]) (PBool false) fifo)
    /\
    (legacy PNone check_mode s = (Ok false, s)
     /\ legacy (PStr "") check_mode s = (Ok false, s)
     /\ legacy (PList []) check_mode s = (Ok false, s)
     /\ legacy (PDict []) check_mode s = (Ok false, s)
     /\ read_by (PStr attribute) (PInt 0) legacy
     /\ read_by (PStr attribute) (PBool false) legacy)
    /\
    (fifo (PInt 0) check_mode s = fifo_steps (PInt 0) check_mode s
     /\ fifo (PBool false) check_mode s = fifo_steps (PBool false) check_mode s
     /\ legacy (PInt 0) check_mode s = legacy_steps (PInt 0) check_mode s
     /\ legacy (PBool false) check_mode s = legacy_steps (PBool false) check_mode s)
    /\
    (forall value : pyval,
        absent_value value = false ->
        fifo value check_mode s = fifo_steps value check_mode s
        /\ legacy value check_mode s = legacy_steps value check_mode s)
    /\
    (is_json_attribute attribute = false ->
     fifo (PInt 0) check_mode s
     = compare_and_write connection queue_url attribute fifo_existing "0" "0"
         check_mode fifo_s1
     /\ fifo (PBool false) check_mode s
        = compare_and_write connection queue_url attribute fifo_existing "false" "False"
            check_mode fifo_s1
     /\ legacy (PInt 0) check_mode s
        = compare_and_write connection queue_url attribute legacy_existing "0" "0"
            check_mode legacy_s1
     /\ legacy (PBool false) check_mode s
        = compare_and_write connection queue_url attribute legacy_existing "False" "False"
            check_mode legacy_s1).
Proof.
  intros W connection loads queue_url attribute check_mode s. cbv zeta.
  assert (Hf : forall value, absent_value value = false ->
            Fifo.set_queue_attribute connection loads queue_url attribute value check_mode s
            = read_compare_write connection loads (PList [PStr attribute])
                (fun r => existing_of r attribute) lower queue_url attribute value
                check_mode s).
  { intros value Ha. apply set_queue_attribute_read_compare_write. exact Ha. }
  assert (Hl : forall value, absent_value value = false ->
            Legacy.set_queue_attribute connection loads queue_url attribute value check_mode s
            = read_compare_write connection loads (PStr attribute)
                (fun r => legacy_existing_of r attribute) (fun text => text)
                queue_url attribute value check_mode s).
  { intros value Ha. apply legacy_set_queue_attribute_read_compare_write. exact Ha. }
  split; [| split; [| split; [| split]]].
  - repeat split; try reflexivity.
    + apply (set_queue_attribute_reads_first connection loads queue_url attribute
               (PInt 0) check_mode); reflexivity.
    + apply (set_queue_attribute_reads_first connection loads queue_url attribute
               (PBool false) check_mode); reflexivity.
  - repeat split; try reflexivity.
    + apply (legacy_set_queue_attribute_reads_first connection loads queue_url attribute
               (PInt 0) check_mode); reflexivity.
    + apply (legacy_set_queue_attribute_reads_first connection loads queue_url attribute
               (PBool false) check_mode); reflexivity.
  - split; [| split; [| split]].
    + apply Hf. reflexivity.
    + apply Hf. reflexivity.
    + apply Hl. reflexivity.
    + apply Hl. reflexivity.
  - intros value Ha. split; [apply Hf | apply Hl]; exact Ha.
  - intros Hj. split; [| split; [| split]].
    + rewrite Hf by reflexivity. unfold read_compare_write, normalise. rewrite Hj.
      reflexivity.
    + rewrite Hf by reflexivity. unfold read_compare_write, normalise. rewrite Hj.
      reflexivity.
    + rewrite Hl by reflexivity. unfold read_compare_write, normalise. rewrite Hj.
      reflexivity.
    + rewrite Hl by reflexivity. unfold read_compare_write, normalise. rewrite Hj.
      reflexivity.
Qed.

Lemma C4_none_is_skipped_zero_and_false_are_read_and_compared_witness :
  Fifo.set_queue_attribute Sqs.service json_loads Scenario.orders_url "VisibilityTimeout"
    PNone false (Sqs.start Scenario.orders)
  = (Ok false, Sqs.start Scenario.orders)
  /\ Fifo.set_queue_attribute Sqs.service json_loads Scenario.orders_url "VisibilityTimeout"
       (PInt 0) false (Sqs.start Scenario.orders)
     = compare_and_write Sqs.service Scenario.orders_url "VisibilityTimeout" (PStr "30")
         "0" "0" false
         (mkSt Scenario.orders
               [GetQueueAttributes Scenario.orders_url (PList [PStr "VisibilityTimeout"])])
  /\ Legacy.set_queue_attribute flat_service json_loads Scenario.orders_url
       "VisibilityTimeout" (PBool false) true (Sqs.start Scenario.orders)
     = compare_and_write flat_service Scenario.orders_url "VisibilityTimeout" (PStr "30")
         "False" "False" true
         (mkSt Scenario.orders
               [GetQueueAttributes Scenario.orders_url (PStr "VisibilityTimeout")]).
Proof.
  destruct (C4_none_is_skipped_zero_and_false_are_read_and_compared
              Sqs.queues Sqs.service json_loads Scenario.orders_url "VisibilityTimeout"
              false (Sqs.start Scenario.orders))
    as [[Hn _] [_ [_ [_ Hs]]]].
  destruct (C4_none_is_skipped_zero_and_false_are_read_and_compared
              Sqs.queues flat_service json_loads Scenario.orders_url "VisibilityTimeout"
              true (Sqs.start Scenario.orders))
    as [_ [_ [_ [_ Hl]]]].
  split; [exact Hn | split].
  - destruct (Hs eq_refl) as [H0 _]. exact H0.
  - destruct (Hl eq_refl) as [_ [_ [_ H0]]]. exact H0.
Defined.

(* ===================================================================== *)
(** * A remote document that does not parse, at the level of the module *)
(* ===================================================================== *)

Section Propagation.

Context {W : Type}.
Variable connection : call -> W -> res pyval * W.
Variable loads : string -> option pyval.

(** The synchronizers are the comparator run over their catalog. *)
Lemma update_with_run_catalog p queue_url check_mode (s : st W) :
  Fifo.update_with connection loads queue_url check_mode (Fifo.queue_attributes p) s
  = run_catalog
      (fun a v => Fifo.set_queue_attribute connection loads queue_url a v check_mode)
      (catalog_of p) false s.
Proof. reflexivity. Qed.

Lemma legacy_update_sqs_queue_run_catalog p queue_url check_mode (s : st W) :
  Legacy.update_sqs_queue connection loads queue_url check_mode
    (of_int (default_visibility_timeout p)) (of_int (message_retention_period p))
    (of_int (maximum_message_size p)) (of_int (delivery_delay p))
    (of_int (receive_message_wait_time p)) (of_dict (policy p))
    (of_dict (redrive_policy p)) s
  = run_catalog
      (fun a v => Legacy.set_queue_attribute connection loads queue_url a v check_mode)
      (legacy_catalog_of p) false s.
Proof. reflexivity. Qed.

Lemma run_catalog_app (compare : string -> pyval -> M (st W) bool) before rest changed s :
  run_catalog compare (before ++ rest) changed s
  = match run_catalog compare before changed s with
    | (Ok c, s') => run_catalog compare rest c s'
    | (Raise e, s') => (Raise e, s')
    end.
Proof.
  revert changed s. induction before as [| [a v] before IH]; intros changed s.
  - reflexivity.
  - cbn [app run_catalog]. unfold bind.
    destruct (compare a v s) as [[x | e] s1]; [apply IH | reflexivity].
Qed.

(** An exception of the comparator at an attribute that the synchronizer
    gets to is the exception of the synchronizer. *)
Lemma reaches_raise (compare : string -> pyval -> M (st W) bool) c a v s0 s e s' :
  reaches compare c a v s0 s ->
  compare a v s = (Raise e, s') ->
  run_catalog compare c false s0 = (Raise e, s').
Proof.
  intros [before [after [changed [Hc Hb]]]] Hr. subst c.
  rewrite run_catalog_app, Hb. cbn [run_catalog]. unfold bind. rewrite Hr. reflexivity.
Qed.

End Propagation.

(** C7, amended.  For a JSON-document attribute and a non-empty desired
    dictionary, a non-empty raw string on which [json.loads] raises is not
    taken for "no existing document".

    In [src/sqs_queue/sqs_queue.py], when the read returns such a string
    under ['Attributes'], the comparator raises [ValueError] right after
    the read: it issues no write and returns no answer.  Nothing catches
    it: when [create_or_update_sqs_queue] has found the queue and its
    synchronizer gets to that attribute, [update_sqs_queue] raises the
    [ValueError] and [create_or_update_sqs_queue], whose handler is for
    [ClientError] only, ends with it uncaught, neither in [exit_json] nor
    in [fail_json].

    In [src/sqs_queue.py] the same holds when the read returns such a
    string at the top of the response, where that variant looks it up.

    What either comparator does take for no existing document is an
    existing value that is the empty string, which is what a failed read
    or a missing entry also gives: then the desired text is compared with
    the empty string and the parser plays no part.

    This holds for every client, every parser and in and out of check
    mode. *)
Theorem C7_unparsable_remote_document_is_raised_and_uncaught :
  forall (W : Type) (connection : call -> W -> res pyval * W)
         (loads : string -> option pyval) (queue_url : pyval) (attribute : string)
         (d : list (string * pyval)) (raw : string) (check_mode : bool),
    is_json_attribute attribute = true ->
    d <> [] ->
    raw <> "" ->
    loads raw = None ->
    let fifo := fun a v => Fifo.set_queue_attribute connection loads queue_url a v check_mode in
    let legacy :=
      fun a v => Legacy.set_queue_attribute connection loads queue_url a v check_mode in
    let fifo_read := GetQueueAttributes queue_url (PList [PStr attribute]) in
    let legacy_read := GetQueueAttributes queue_url (PStr attribute) in
    let text := json_dumps (PDict d) in
    (forall (s : st W) (response attributes : pyval) (w' : W),
        connection fifo_read (world s) = (Ok response, w') ->
        py_getitem response "Attributes" = Ok attributes ->
        py_getitem attributes attribute = Ok (PStr raw) ->
        let s1 := mkSt w' (trace s ++ [fifo_read]) in
        fifo attribute (PDict d) s = (Raise ValueError, s1)
        /\ forall (p : params) (s0 : st W),
             let look := GetQueueUrl (Fifo.queue_name p) in
             let found := mkSt (snd (connection look (world s0))) (trace s0 ++ [look]) in
             queue_url_of (fst (connection look (world s0))) = Ok queue_url ->
             reaches fifo (catalog_of p) attribute (PDict d) found s ->
             Fifo.update_with connection loads queue_url check_mode
               (Fifo.queue_attributes p) found
             = (Raise ValueError, s1)
             /\ Fifo.create_or_update_sqs_queue connection loads p check_mode s0
                = (Uncaught ValueError, s1))
    /\
    (forall (s : st W) (response : pyval) (w' : W),
        connection legacy_read (world s) = (Ok response, w') ->
        py_getitem response attribute = Ok (PStr raw) ->
        let s1 := mkSt w' (trace s ++ [legacy_read]) in
        legacy attribute (PDict d) s = (Raise ValueError, s1)
        /\ forall (p : params) (s0 : st W) (answer : pyval) (w0 : W),
             let look := GetQueueUrl (name p) in
             let found := mkSt w0 (trace s0 ++ [look]) in
             connection look (world s0) = (Ok answer, w0) ->
             py_getitem answer "QueueUrl" = Ok queue_url ->
             py_truthy queue_url = true ->
             reaches legacy (legacy_catalog_of p) attribute (PDict d) found s ->
             Legacy.update_sqs_queue connection loads queue_url check_mode
               (of_int (default_visibility_timeout p)) (of_int (message_retention_period p))
               (of_int (maximum_message_size p)) (of_int (delivery_delay p))
               (of_int (receive_message_wait_time p)) (of_dict (policy p))
               (of_dict (redrive_policy p)) found
             = (Raise ValueError, s1)
             /\ Legacy.create_or_update_sqs_queue connection loads p check_mode s0
                = (Uncaught ValueError, s1))
    /\
    (forall s : st W,
        let fifo_outcome := connection fifo_read (world s) in
        let legacy_outcome := connection legacy_read (world s) in
        (existing_of (fst fifo_outcome) attribute = PStr "" ->
         fifo attribute (PDict d) s
         = compare_and_write connection queue_url attribute (PStr "") (lower text) text
             check_mode (mkSt (snd fifo_outcome) (trace s ++ [fifo_read])))
        /\ (legacy_existing_of (fst legacy_outcome) attribute = PStr "" ->
            legacy attribute (PDict d) s
            = compare_and_write connection queue_url attribute (PStr "") text text
                check_mode (mkSt (snd legacy_outcome) (trace s ++ [legacy_read])))
        /\ (forall e : exn,
               (fst fifo_outcome = Raise e ->
                existing_of (fst fifo_outcome) attribute = PStr "")
               /\ (fst legacy_outcome = Raise e ->
                   legacy_existing_of (fst legacy_outcome) attribute = PStr ""))).
Proof.
  intros W connection loads queue_url attribute d raw check_mode Hj Hd Hraw Hl.
  cbv zeta.
  assert (Ha : absent_value (PDict d) = false).
  { destruct d; [congruence | reflexivity]. }
  split; [| split].
  - intros s response attributes w' Hc Hat Hv.
    assert (Hr : Fifo.set_queue_attribute connection loads queue_url attribute (PDict d)
                   check_mode s
                 = (Raise ValueError,
                    mkSt w' (trace s
                             ++ [GetQueueAttributes queue_url (PList [PStr attribute])]))).
    { apply (unparsable_remote_document_raises W connection loads queue_url attribute d
               check_mode s response attributes raw w'); assumption. }
    split; [exact Hr |].
    intros p s0 Hlook Hreach.
    assert (Hu : Fifo.update_with connection loads queue_url check_mode
                   (Fifo.queue_attributes p)
                   (mkSt (snd (connection (GetQueueUrl (Fifo.queue_name p)) (world s0)))
                         (trace s0 ++ [GetQueueUrl (Fifo.queue_name p)]))
                 = (Raise ValueError,
                    mkSt w' (trace s
                             ++ [GetQueueAttributes queue_url (PList [PStr attribute])]))).
    { rewrite update_with_run_catalog.
      apply (reaches_raise _ _ _ _ _ _ _ _ Hreach). exact Hr. }
    split; [exact Hu |].
    unfold Fifo.create_or_update_sqs_queue, try_ClientError.
    rewrite create_or_update_body_steps. cbv zeta. rewrite Hlook.
    unfold update_existing. unfold bind at 1. unfold lift at 1. cbn [fst snd].
    rewrite Hu. reflexivity.
  - intros s response w' Hc Hv.
    assert (Hr : Legacy.set_queue_attribute connection loads queue_url attribute (PDict d)
                   check_mode s
                 = (Raise ValueError,
                    mkSt w' (trace s ++ [GetQueueAttributes queue_url (PStr attribute)]))).
    { apply (legacy_unparsable_remote_document_raises W connection loads queue_url
               attribute d check_mode s response raw w'); assumption. }
    split; [exact Hr |].
    intros p s0 answer w0 Hlook Hurl Htrue Hreach.
    assert (Hu : Legacy.update_sqs_queue connection loads queue_url check_mode
                   (of_int (default_visibility_timeout p))
                   (of_int (message_retention_period p))
                   (of_int (maximum_message_size p)) (of_int (delivery_delay p))
                   (of_int (receive_message_wait_time p)) (of_dict (policy p))
                   (of_dict (redrive_policy p))
                   (mkSt w0 (trace s0 ++ [GetQueueUrl (name p)]))
                 = (Raise ValueError,
                    mkSt w' (trace s ++ [GetQueueAttributes queue_url (PStr attribute)]))).
    { rewrite legacy_update_sqs_queue_run_catalog.
      apply (reaches_raise _ _ _ _ _ _ _ _ Hreach). exact Hr. }
    split; [exact Hu |].
    unfold Legacy.create_or_update_sqs_queue, try_ClientError.
    unfold Legacy.create_or_update_body. unfold bind at 1. unfold lift at 1.
    unfold request at 1. cbn [fst snd]. rewrite Hlook.
    unfold bind at 1. unfold getitem at 1, lift_res at 1. rewrite Hurl.
    rewrite Htrue. unfold bind at 1. unfold lift at 1. cbn [fst snd].
    rewrite Hu. reflexivity.
  - intros s. split; [| split].
    + intros He.
      rewrite set_queue_attribute_read_compare_write by exact Ha.
      unfold read_compare_write. cbv zeta. rewrite He.
      unfold normalise. rewrite Hj. reflexivity.
    + intros He.
      rewrite legacy_set_queue_attribute_read_compare_write by exact Ha.
      unfold read_compare_write. cbv zeta. rewrite He.
      unfold normalise. rewrite Hj. reflexivity.
    + intros e. split; intros He; [unfold existing_of | unfold legacy_existing_of];
        rewrite He; reflexivity.
Qed.

Lemma C7_unparsable_remote_document_is_raised_and_uncaught_witness :
  let look := GetQueueUrl "orders" in
  let read := GetQueueAttributes Scenario.orders_url (PList [PStr "Policy"]) in
  let legacy_read := GetQueueAttributes Scenario.orders_url (PStr "Policy") in
  let found := mkSt Scenario.orders_with_broken_policy [look] in
  (Fifo.set_queue_attribute Sqs.service json_loads Scenario.orders_url "Policy"
     (PDict Scenario.redrive_policy) false found
   = (Raise ValueError, mkSt Scenario.orders_with_broken_policy ([look] ++ [read]))
   /\ Fifo.create_or_update_sqs_queue Sqs.service json_loads Scenario.with_policy false
        (Sqs.start Scenario.orders_with_broken_policy)
      = (Uncaught ValueError, mkSt Scenario.orders_with_broken_policy ([look] ++ [read])))
  /\ (Legacy.set_queue_attribute flat_service json_loads Scenario.orders_url "Policy"
        (PDict Scenario.redrive_policy) false found
      = (Raise ValueError,
         mkSt Scenario.orders_with_broken_policy ([look] ++ [legacy_read]))
      /\ Legacy.create_or_update_sqs_queue flat_service json_loads Scenario.with_policy
           false (Sqs.start Scenario.orders_with_broken_policy)
         = (Uncaught ValueError,
            mkSt Scenario.orders_with_broken_policy ([look] ++ [legacy_read])))
  /\ Fifo.set_queue_attribute Sqs.service json_loads Scenario.orders_url "Policy"
       (PDict Scenario.redrive_policy) false (Sqs.start Scenario.orders)
     = compare_and_write Sqs.service Scenario.orders_url "Policy" (PStr "")
         (lower (json_dumps (PDict Scenario.redrive_policy)))
         (json_dumps (PDict Scenario.redrive_policy)) false
         (mkSt Scenario.orders ([] ++ [read])).
Proof.
  cbv zeta.
  assert (Hd : Scenario.redrive_policy <> []) by discriminate.
  assert (Hraw : "not json" <> "") by discriminate.
  assert (Hl : json_loads "not json" = None) by (vm_compute; reflexivity).
  destruct (C7_unparsable_remote_document_is_raised_and_uncaught
              Sqs.queues Sqs.service json_loads Scenario.orders_url "Policy"
              Scenario.redrive_policy "not json" false eq_refl Hd Hraw Hl)
    as [Hf [_ He]].
  destruct (C7_unparsable_remote_document_is_raised_and_uncaught
              Sqs.queues flat_service json_loads Scenario.orders_url "Policy"
              Scenario.redrive_policy "not json" false eq_refl Hd Hraw Hl)
    as [_ [Hg _]].
  split; [| split].
  - destruct (Hf (mkSt Scenario.orders_with_broken_policy [GetQueueUrl "orders"])
                (PDict [("Attributes", PDict [("Policy", PStr "not json")])])
                (PDict [("Policy", PStr "not json")])
                Scenario.orders_with_broken_policy)
      as [Hc Hm]; [vm_compute; reflexivity | reflexivity | reflexivity |].
    split; [exact Hc |].
    apply (Hm Scenario.with_policy (Sqs.start Scenario.orders_with_broken_policy)).
    + vm_compute. reflexivity.
    + exists (firstn 5 (catalog_of Scenario.with_policy)),
             (skipn 6 (catalog_of Scenario.with_policy)), false.
      split; vm_compute; reflexivity.
  - destruct (Hg (mkSt Scenario.orders_with_broken_policy [GetQueueUrl "orders"])
                (PDict [("Policy", PStr "not json")])
                Scenario.orders_with_broken_policy)
      as [Hc Hm]; [vm_compute; reflexivity | reflexivity |].
    split; [exact Hc |].
    apply (Hm Scenario.with_policy (Sqs.start Scenario.orders_with_broken_policy)
              (PDict [("QueueUrl", Scenario.orders_url)])
              Scenario.orders_with_broken_policy).
    + vm_compute. reflexivity.
    + reflexivity.
    + reflexivity.
    + exists (firstn 5 (legacy_catalog_of Scenario.with_policy)),
             (skipn 6 (legacy_catalog_of Scenario.with_policy)), false.
      split; vm_compute; reflexivity.
  - destruct (He (Sqs.start Scenario.orders)) as [H0 _].
    apply H0. vm_compute. reflexivity.
Defined.
